(** * Device-group messaging sketches: topic parsing and group dispatch

    A shallow embedding of the two firmware sketches of this repository,

    - [src/example_device_group_fw.ino]  (module [Fw]), and
    - the "Messaging Architecture for Scale" white-paper sketch
      (module [WhitePaper]),

    together with the small part of the C library and of the device
    platform they call.  Strings are [string]s of [ascii] characters,
    fixed-size [char] and [uint8_t] arrays are lists updated by index,
    machine integers are [Z] with their wrap-around written out, and every
    function that touches the global [config], the EEPROM, the cloud
    subscriptions or the log is a function on an explicit [Device] state. *)

From Stdlib Require Import ZArith String Ascii List Lia Bool DecimalString.
From stdpp Require Import base list strings.

Open Scope Z_scope.

(** ** Characters and C strings

    A value of type [const char *] (and the contents of a Wiring [String])
    is modelled by the [string] of the characters that precede its
    terminating NUL; such a string holds no NUL itself ([nul_free]).  A
    [char] array is a [list ascii] and may hold NULs anywhere. *)

Definition NUL : ascii := "000"%char.
Definition TAB : ascii := "009"%char.
Definition LF : ascii := "010"%char.
Definition DQUOTE : ascii := "034"%char.

Definition code (c : ascii) : Z := Z.of_N (N_of_ascii c).

Fixpoint no_char (x : ascii) (s : string) : bool :=
  match s with
  | EmptyString => true
  | String c s' => negb (Ascii.eqb c x) && no_char x s'
  end.

Definition nul_free (s : string) : Prop := no_char NUL s = true.

(** [c_str a]: the C string stored in the array [a], read up to the first
    NUL.  On an array that holds no NUL the definition stops at the end of
    the array, while a C read runs on into the memory that follows (for
    [config.userID], the fields [numGroups] and [deviceGroups]): the
    definition stands for the code's read only when [NUL] is in [a].  The
    theorems about a read of [config.userID] in an arbitrary configuration
    assume it ([config_inv] below); those about a state that the code has
    built have it from the code. *)
Fixpoint c_str (a : list ascii) : string :=
  match a with
  | [] => EmptyString
  | c :: a' => if Ascii.eqb c NUL then EmptyString else String c (c_str a')
  end.

(** [strncpy(dst, src, n)]: exactly [n] array cells are written, the
    characters of [src] first and NUL padding after them; no terminator is
    added when [src] has [n] characters or more.  [i] is the next cell. *)
Fixpoint strncpy_at (i : nat) (dst : list ascii) (src : string) (n : nat)
  : list ascii :=
  match n with
  | O => dst
  | S n' =>
      match src with
      | EmptyString => strncpy_at (S i) (<[i := NUL]> dst) EmptyString n'
      | String c src' => strncpy_at (S i) (<[i := c]> dst) src' n'
      end
  end.

Definition strncpy (dst : list ascii) (src : string) (n : nat) : list ascii :=
  strncpy_at 0 dst src n.

(** [strcpy(dst, src)]: the characters of [src] and the terminating NUL. *)
Definition strcpy (dst : list ascii) (src : string) : list ascii :=
  strncpy dst src (S (String.length src)).

(** [strcmp]: the difference of the first pair of differing characters,
    compared as unsigned bytes; the end of a string counts as NUL. *)
Fixpoint strcmp (a b : string) : Z :=
  match a, b with
  | EmptyString, EmptyString => 0
  | EmptyString, String c _ => - code c
  | String c _, EmptyString => code c
  | String c a', String c' b' =>
      if Ascii.eqb c c' then strcmp a' b' else code c - code c'
  end.

(** *** strtok

    [strtok] keeps the position at which the next call resumes in a hidden
    static pointer.  The model threads that position explicitly: a call
    takes the text at the scan position and returns the token together with
    the text at the saved position, or [None] for a NULL result. *)

Fixpoint in_set (c : ascii) (set : string) : bool :=
  match set with
  | EmptyString => false
  | String x set' => Ascii.eqb c x || in_set c set'
  end.

Fixpoint skip_delims (delim : string) (s : string) : string :=
  match s with
  | EmptyString => EmptyString
  | String c s' => if in_set c delim then skip_delims delim s' else s
  end.

Fixpoint split_token (delim : string) (s : string) : string * string :=
  match s with
  | EmptyString => (EmptyString, EmptyString)
  | String c s' =>
      if in_set c delim then (EmptyString, s')
      else let '(tok, rest) := split_token delim s' in (String c tok, rest)
  end.

Definition strtok (s : string) (delim : string) : option (string * string) :=
  match skip_delims delim s with
  | EmptyString => None
  | String c s' => Some (split_token delim (String c s'))
  end.

(** *** strtol, base 10, no end pointer

    The target is a 32-bit ARM microcontroller: [long] and [int] are 32
    bits wide and [strtol] saturates at [LONG_MIN] and [LONG_MAX]. *)

Definition LONG_MAX : Z := 2147483647.
Definition LONG_MIN : Z := -2147483648.

Definition isspace (c : ascii) : bool :=
  (code c =? 32) || ((9 <=? code c) && (code c <=? 13)).

Definition isdigit (c : ascii) : bool :=
  (48 <=? code c) && (code c <=? 57).

Fixpoint skip_space (s : string) : string :=
  match s with
  | EmptyString => EmptyString
  | String c s' => if isspace c then skip_space s' else s
  end.

(** The decimal digits at the head of [s], accumulated onto [acc]. *)
Fixpoint digits (acc : Z) (s : string) : Z :=
  match s with
  | EmptyString => acc
  | String c s' => if isdigit c then digits (10 * acc + (code c - 48)) s' else acc
  end.

(** The integer that the permissive decimal parse reads off [s], before it
    is forced into a [long]: optional white space, an optional sign, then
    digits; [0] when no digit follows. *)
Definition decimal_value (s : string) : Z :=
  match skip_space s with
  | String "-" s' => - digits 0 s'
  | String "+" s' => digits 0 s'
  | s' => digits 0 s'
  end.

Definition strtol (s : string) : Z :=
  Z.max LONG_MIN (Z.min LONG_MAX (decimal_value s)).

(** Integer conversions. *)
Definition to_uint8 (x : Z) : Z := x mod 256.
Definition to_uint32 (x : Z) : Z := x mod 4294967296.
Definition to_int (x : Z) : Z := (x + 2147483648) mod 4294967296 - 2147483648.

(** ** The persistent configuration record *)

Definition EEPROM_VERSION : Z := 1.          (* 0x01 *)
Definition MAX_DEVICE_GROUPS : nat := 16.
Definition MAX_USER_ID_LEN : nat := 8.

Record DeviceConfig_t := mkConfig {
  version : Z;                   (* uint8_t *)
  userID : list ascii;           (* char [MAX_USER_ID_LEN+1] *)
  numGroups : Z;                 (* uint8_t *)
  deviceGroups : list Z          (* uint8_t [MAX_DEVICE_GROUPS] *)
}.

Definition set_version (v : Z) (c : DeviceConfig_t) : DeviceConfig_t :=
  mkConfig v (userID c) (numGroups c) (deviceGroups c).
Definition set_userID (u : list ascii) (c : DeviceConfig_t) : DeviceConfig_t :=
  mkConfig (version c) u (numGroups c) (deviceGroups c).
Definition set_numGroups (n : Z) (c : DeviceConfig_t) : DeviceConfig_t :=
  mkConfig (version c) (userID c) n (deviceGroups c).
Definition set_deviceGroups (g : list Z) (c : DeviceConfig_t) : DeviceConfig_t :=
  mkConfig (version c) (userID c) (numGroups c) g.

(** What the struct declaration fixes: the array sizes and the range of
    the [uint8_t] fields. *)
Definition is_uint8 (x : Z) : Prop := 0 <= x < 256.

Record wf_config (c : DeviceConfig_t) : Prop := mkWfConfig {
  wf_version : is_uint8 (version c);
  wf_userID : length (userID c) = S MAX_USER_ID_LEN;
  wf_numGroups : is_uint8 (numGroups c);
  wf_deviceGroups_len : length (deviceGroups c) = MAX_DEVICE_GROUPS;
  wf_deviceGroups : Forall is_uint8 (deviceGroups c)
}.

(** The group membership: the first [numGroups] cells of [deviceGroups]. *)
Definition membership (c : DeviceConfig_t) : list Z :=
  take (Z.to_nat (numGroups c)) (deviceGroups c).

(** ** The device: configuration, EEPROM, cloud and log *)

Inductive LogLevel := TRACE | INFO | WARN.

(** An argument of a log call: a string, a NULL [char *], or a number. *)
Inductive LogArg :=
| AStr (s : string)
| ANull
| ANum (n : Z).

(** One call of [Log]: its level, the optional [code] and [details]
    attributes, the format string and the arguments, unformatted. *)
Record LogRecord := mkLog {
  log_level : LogLevel;
  log_code : option Z;
  log_details : option string;
  log_format : string;
  log_args : list LogArg
}.

Record Device := mkDevice {
  config : DeviceConfig_t;          (* the global [config] *)
  eeprom : DeviceConfig_t;          (* the record stored at EEPROM offset 0 *)
  deviceID : string;                (* System.deviceID() *)
  functions : list string;          (* cloud functions registered *)
  subscriptions : list string;      (* event prefixes handled by parseMessage *)
  rgb_control : bool;               (* RGB.control *)
  rgb_color : Z * Z * Z;            (* RGB.color *)
  log : list LogRecord              (* oldest entry first *)
}.

Definition set_config (c : DeviceConfig_t) (d : Device) : Device :=
  mkDevice c (eeprom d) (deviceID d) (functions d) (subscriptions d)
           (rgb_control d) (rgb_color d) (log d).
Definition set_eeprom (e : DeviceConfig_t) (d : Device) : Device :=
  mkDevice (config d) e (deviceID d) (functions d) (subscriptions d)
           (rgb_control d) (rgb_color d) (log d).
Definition set_functions (f : list string) (d : Device) : Device :=
  mkDevice (config d) (eeprom d) (deviceID d) f (subscriptions d)
           (rgb_control d) (rgb_color d) (log d).
Definition set_subscriptions (s : list string) (d : Device) : Device :=
  mkDevice (config d) (eeprom d) (deviceID d) (functions d) s
           (rgb_control d) (rgb_color d) (log d).
Definition set_rgb_control (b : bool) (d : Device) : Device :=
  mkDevice (config d) (eeprom d) (deviceID d) (functions d) (subscriptions d)
           b (rgb_color d) (log d).
Definition set_rgb_color (c : Z * Z * Z) (d : Device) : Device :=
  mkDevice (config d) (eeprom d) (deviceID d) (functions d) (subscriptions d)
           (rgb_control d) c (log d).
Definition set_log (l : list LogRecord) (d : Device) : Device :=
  mkDevice (config d) (eeprom d) (deviceID d) (functions d) (subscriptions d)
           (rgb_control d) (rgb_color d) l.

Record wf_device (d : Device) : Prop := mkWfDevice {
  wf_dev_config : wf_config (config d);
  wf_dev_id : nul_free (deviceID d)
}.

(** Platform calls. *)
Module Log.
Definition emit (r : LogRecord) (d : Device) : Device :=
  set_log (log d ++ [r]) d.
Definition trace (fmt : string) (args : list LogArg) : Device -> Device :=
  emit (mkLog TRACE None None fmt args).
Definition info (fmt : string) (args : list LogArg) : Device -> Device :=
  emit (mkLog INFO None None fmt args).
Definition warn (fmt : string) (args : list LogArg) : Device -> Device :=
  emit (mkLog WARN None None fmt args).
(** [Log.code(c).details(s).warn(fmt, ...)] *)
Definition code_details_warn (c : Z) (s : string) (fmt : string)
  (args : list LogArg) : Device -> Device :=
  emit (mkLog WARN (Some c) (Some s) fmt args).
End Log.

Module EEPROM.
(** [EEPROM.put(0, config)] and [EEPROM.get(0, config)]. *)
Definition put (d : Device) : Device := set_eeprom (config d) d.
Definition get (d : Device) : Device := set_config (eeprom d) d.
End EEPROM.

Module Particle.
Definition function (name : string) (d : Device) : Device :=
  set_functions (functions d ++ [name]) d.
(** [Particle.subscribe(prefix, parseMessage, MY_DEVICES)] *)
Definition subscribe (prefix : string) (d : Device) : Device :=
  set_subscriptions (subscriptions d ++ [prefix]) d.
(** [Particle.unsubscribe()] removes every subscription. *)
Definition unsubscribe (d : Device) : Device := set_subscriptions [] d.
End Particle.

Module RGB.
Definition control (b : bool) (d : Device) : Device := set_rgb_control b d.
Definition color (r g b : Z) (d : Device) : Device := set_rgb_color (r, g, b) d.
End RGB.

(** ** Code shared, word for word, by the two sketches

    The sketches differ in [printConfig] only by the format of the user-ID
    line, which is the parameter [USER_ID_FORMAT] here. *)

Section Shared.

Variable USER_ID_FORMAT : string.

(** [s += arr[i]] appends the decimal representation of a [uint8_t]. *)
Definition decimal (x : Z) : string :=
  NilZero.string_of_uint (N.to_uint (Z.to_N x)).

(** The loop of [uint8ArrToString]; [i] cells are done, [arr] is the rest
    of the array and [arr_len] its declared length. *)
Fixpoint uint8ArrToString_loop (arr : list Z) (i arr_len : nat) (s : string)
  : string :=
  match arr with
  | [] => s
  | x :: arr' =>
      let s := (s ++ decimal x)%string in
      let s := if (i <? arr_len - 1)%nat then (s ++ ", ")%string
               else (s ++ "}")%string in
      uint8ArrToString_loop arr' (S i) arr_len s
  end.

Definition uint8ArrToString (arr : list Z) (arr_len : nat) : string :=
  uint8ArrToString_loop (take arr_len arr) 0 arr_len "{".

Definition printConfig (d : Device) : Device :=
  let c := config d in
  let d := Log.trace "EEPROM Configuration:" [] d in
  let d := Log.trace "    Config Version:    %02X" [ANum (version c)] d in
  let d := Log.trace USER_ID_FORMAT [AStr (c_str (userID c))] d in
  let d := Log.trace "    Num Device Groups: %u" [ANum (numGroups c)] d in
  Log.trace "    Device Groups:     %s"
    [AStr (uint8ArrToString (deviceGroups c) MAX_DEVICE_GROUPS)] d.

Definition writeConfigToEEPROM (d : Device) : Device :=
  let d := EEPROM.put d in
  let d := Log.info "New config written to EEPROM" [] d in
  printConfig d.

(** [int addToGroup(String extra)] *)
Definition addToGroup (extra : string) (d : Device) : Z * Device :=
  let parsedGroup := to_int (strtol extra) in
  if (0 <? parsedGroup) && (parsedGroup <? 256) then
    if numGroups (config d) <? Z.of_nat MAX_DEVICE_GROUPS then
      let c := config d in
      let c := set_deviceGroups
                 (<[Z.to_nat (numGroups c) := to_uint8 parsedGroup]> (deviceGroups c)) c in
      let c := set_numGroups (to_uint8 (numGroups c + 1)) c in
      let d := set_config c d in
      let d := writeConfigToEEPROM d in
      let d := Log.info "Device added to group %u (%u groups total)"
                 [ANum (to_uint8 parsedGroup); ANum (numGroups (config d))] d in
      (parsedGroup, d)
    else
      let retcode := -2 in
      let d := Log.code_details_warn retcode "Max number of groups exceeded"
                 "Cannot add device to group %u" [ANum (to_uint8 parsedGroup)] d in
      (retcode, d)
  else
    let retcode := -1 in
    let d := Log.code_details_warn retcode "Group number invalid"
               "Invalid group received: %s" [AStr extra] d in
    (retcode, d).

(** [int clearGroups(String extra)] *)
Definition clearGroups (extra : string) (d : Device) : Z * Device :=
  let d := set_config (set_numGroups 0 (config d)) d in
  let d := writeConfigToEEPROM d in
  let d := Log.info "Groups cleared" [] d in
  (0, d).

(** [int setUserID(String extra)] *)
Definition setUserID (extra : string) (d : Device) : Z * Device :=
  if (0 <? Z.of_nat (String.length extra)) then
    let c := config d in
    let u := strncpy (userID c) extra MAX_USER_ID_LEN in
    let u := <[MAX_USER_ID_LEN := NUL]> u in
    let d := set_config (set_userID u c) d in
    let d := writeConfigToEEPROM d in
    let d := Particle.unsubscribe d in
    let d := Particle.subscribe (c_str (userID (config d))) d in
    let d := Log.info "New user ID set: %s" [AStr (c_str (userID (config d)))] d in
    (0, d)
  else
    let retcode := -1 in
    let d := Log.code_details_warn retcode "Empty string received"
               "Reject new User ID setting" [] d in
    (retcode, d).

End Shared.

(** [memset(a, c, n)] on a [char] array; [i] is the next cell. *)
Fixpoint memset_at (i : nat) (a : list ascii) (c : ascii) (n : nat) : list ascii :=
  match n with
  | O => a
  | S n' => memset_at (S i) (<[i := c]> a) c n'
  end.

Definition memset (a : list ascii) (c : ascii) (n : nat) : list ascii :=
  memset_at 0 a c n.

(** [for (int i = 0; i < MAX_DEVICE_GROUPS; i++) config.deviceGroups[i] = 0;]
    with [i] the loop counter and [steps] the iterations left. *)
Fixpoint zeroGroups_loop (groups : list Z) (i steps : nat) : list Z :=
  match steps with
  | O => groups
  | S k => zeroGroups_loop (<[i := 0]> groups) (S i) k
  end.

(** The group scan of [parseMessage]:
    [for (int i = 0; i < bound; i++) if (parsedDeviceGroup == config.deviceGroups[i])
       { groupMatched = true; break; }]
    with [i] the loop counter and [steps] the iterations left.  A cell past
    the end of the array is skipped here, while the code, which has no
    bounds check, reads whatever follows the array: the definition stands
    for the loop only when [bound] is at most the length of the array, which
    for the bound [config.numGroups] of [Fw] is the invariant
    [numGroups <= MAX_DEVICE_GROUPS] ([config_inv] below) and for the bound
    [MAX_DEVICE_GROUPS] of the white-paper sketch always holds. *)
Fixpoint groupScan_loop (parsedDeviceGroup : Z) (groups : list Z) (i steps : nat)
  : bool :=
  match steps with
  | O => false
  | S k =>
      match groups !! i with
      | Some g => if parsedDeviceGroup =? g then true
                  else groupScan_loop parsedDeviceGroup groups (S i) k
      | None => groupScan_loop parsedDeviceGroup groups (S i) k
      end
  end.

(** The format ["Event received {\n\tevent: %s\n\tdata: %s\n}"], with its
    line feeds and tabs. *)
Definition EVENT_RECEIVED_FORMAT : string :=
  ("Event received {" ++ String LF (String TAB "event: %s")
     ++ String LF (String TAB "data: %s") ++ String LF "}")%string.

(** The [char *] argument of a [%s]: NULL or a string. *)
Definition AStr_or_null (p : option (string * string)) : LogArg :=
  match p with
  | Some (s, _) => AStr s
  | None => ANull
  end.

(** [logged d d']: the device [d'] is [d] with further log entries; the
    configuration, the EEPROM, the subscriptions and the LED are those of
    [d]. *)
Definition logged (d d' : Device) : Prop :=
  exists l, d' = set_log (log d ++ l) d.

(** ** src/example_device_group_fw.ino *)

Module Fw.

Definition USER_ID_FORMAT : string := "    User ID:           %s".

Definition printConfig := printConfig USER_ID_FORMAT.
Definition writeConfigToEEPROM := writeConfigToEEPROM USER_ID_FORMAT.
Definition addToGroup := addToGroup USER_ID_FORMAT.
Definition clearGroups := clearGroups USER_ID_FORMAT.
Definition setUserID := setUserID USER_ID_FORMAT.

Definition function1 (data : string) : Device -> Device :=
  Log.info "function1: %s" [AStr data].
Definition function2 (data : string) : Device -> Device :=
  Log.info "function2: %s" [AStr data].
Definition function3 (data : string) : Device -> Device :=
  Log.info "function3: %s" [AStr data].

(** The command chain that ends [parseMessage]. *)
Definition runFunction (parsedFunction data : string) (d : Device) : Device :=
  if strcmp parsedFunction "f1" =? 0 then function1 data d
  else if strcmp parsedFunction "f2" =? 0 then function2 data d
  else if strcmp parsedFunction "f3" =? 0 then function3 data d
  else Log.warn "Unknown function received: %s" [AStr parsedFunction] d.

Section Platform.

(** Two constants of the device platform that the sketch uses and does not
    define: [particle::protocol::MAX_EVENT_NAME_LENGTH] and the value of
    [EEPROM.length()]. *)
Variable MAX_EVENT_NAME_LENGTH : nat.
Variable EEPROM_length : Z.

Definition setup (d : Device) : Device :=
  let d := Particle.function "addToGroup" d in
  let d := Particle.function "clearGroups" d in
  let d := Particle.function "setUserID" d in
  let d := Log.info "Attempt to configure from EEPROM..." [] d in
  let d := Log.trace "EEPROM length: %u bytes" [ANum EEPROM_length] d in
  let d := Log.trace "Config length: %u bytes" [ANum 27] d in
  let d := EEPROM.get d in
  let d := Log.trace "EEPROM read" [] d in
  let d :=
    if version (config d) =? 255 then
      let d := Log.info "EEPROM unconfigured: setting defaults" [] d in
      let c := config d in
      let c := set_version EEPROM_VERSION c in
      let c := set_userID (memset (userID c) NUL (S MAX_USER_ID_LEN)) c in
      let c := set_numGroups 0 c in
      let c := set_deviceGroups (zeroGroups_loop (deviceGroups c) 0 MAX_DEVICE_GROUPS) c in
      set_config c d
    else
      Log.info "Configure success" [] d in
  let d := printConfig d in
  Particle.subscribe (c_str (userID (config d))) d.

(** [void parseMessage(const char *event, const char *data)].  The local
    buffer [event_name] is written in full by [strncpy], so its initial
    content does not matter. *)
Definition parseMessage (event data : string) (d : Device) : Device :=
  let d := Log.trace EVENT_RECEIVED_FORMAT [AStr event; AStr data] d in
  let event_name := replicate MAX_EVENT_NAME_LENGTH NUL in
  let event_name := strncpy event_name event MAX_EVENT_NAME_LENGTH in
  let event_name := <[(MAX_EVENT_NAME_LENGTH - 1)%nat := NUL]> event_name in
  match strtok (c_str event_name) "/" with
  | None => d
  | Some (parsedUserID, saved) =>
      if strcmp parsedUserID (c_str (userID (config d))) =? 0 then
        let d := Log.trace "Event parsed %s" [AStr parsedUserID] d in
        match strtok saved "/" with
        | None => d
        | Some (parsedFunction, saved) =>
            let d := Log.trace "Command parsed: %s" [AStr parsedFunction] d in
            let parsedGroup := strtok saved "/" in
            let '(groupMatched, d) :=
              match parsedGroup with
              | None => (true, Log.info "All groups addressed!" [] d)
              | Some (group, _) =>
                  if strcmp group (deviceID d) =? 0 then
                    (true, Log.info "Device addressed by Device ID" [] d)
                  else
                    let parsedDeviceGroup := to_uint32 (strtol group) in
                    (groupScan_loop parsedDeviceGroup (deviceGroups (config d))
                       0 (Z.to_nat (numGroups (config d))), d)
              end in
            if groupMatched then
              let d := Log.info "Group parsed: %s" [AStr_or_null parsedGroup] d in
              runFunction parsedFunction data d
            else
              Log.info "Device's group was NOT addressed: %s"
                [AStr_or_null parsedGroup] d
        end
      else d
  end.

End Platform.

(** [dispatches command data d d']: the run from [d] to [d'] logged, changed
    nothing else, and ended by running the command chain on [command] with
    the payload [data]. *)
Definition dispatches (command data : string) (d d' : Device) : Prop :=
  exists d0, logged d d0 /\ d' = runFunction command data d0.

(** The log entries that the handlers write. *)
Definition is_handler_record (r : LogRecord) : bool :=
  existsb (String.eqb (log_format r))
    ["function1: %s"; "function2: %s"; "function3: %s"]%string.

(** [no_handler d d']: the run from [d] to [d'] only logged, and no entry
    it logged comes from a handler. *)
Definition no_handler (d d' : Device) : Prop :=
  exists l, d' = set_log (log d ++ l) d
            /\ forallb (fun r => negb (is_handler_record r)) l = true.

End Fw.

(** ** The white-paper sketch *)

Module WhitePaper.

(** The format ["    User ID:           \"%s\""], quotes included. *)
Definition USER_ID_FORMAT : string :=
  ("    User ID:           " ++ String DQUOTE ("%s" ++ String DQUOTE EmptyString))%string.

Definition printConfig := printConfig USER_ID_FORMAT.
Definition writeConfigToEEPROM := writeConfigToEEPROM USER_ID_FORMAT.
Definition addToGroup := addToGroup USER_ID_FORMAT.
Definition clearGroups := clearGroups USER_ID_FORMAT.
Definition setUserID := setUserID USER_ID_FORMAT.

Definition red (data : string) (d : Device) : Device :=
  let d := Log.info "red() called with data: %s" [AStr data] d in
  RGB.color 255 0 0 d.
Definition green (data : string) (d : Device) : Device :=
  let d := Log.info "green() called with data: %s" [AStr data] d in
  RGB.color 0 255 0 d.
Definition blue (data : string) (d : Device) : Device :=
  let d := Log.info "blue() called with data: %s" [AStr data] d in
  RGB.color 0 0 255 d.

(** The command chain that ends [parseMessage]. *)
Definition runFunction (parsedFunction data : string) (d : Device) : Device :=
  if strcmp parsedFunction "red" =? 0 then red data d
  else if strcmp parsedFunction "green" =? 0 then green data d
  else if strcmp parsedFunction "blue" =? 0 then blue data d
  else Log.warn "Unknown function received: %s" [AStr parsedFunction] d.

Section Platform.

Variable EEPROM_length : Z.

Definition readOrInitEEPROM (d : Device) : Device :=
  let d := Log.info "Attempt to configure from EEPROM..." [] d in
  let d := Log.trace "EEPROM length: %u bytes" [ANum EEPROM_length] d in
  let d := Log.trace "Config length: %u bytes" [ANum 27] d in
  let d := EEPROM.get d in
  let d := Log.trace "EEPROM read" [] d in
  let d :=
    if version (config d) =? 255 then
      let d := Log.info "EEPROM unconfigured: setting defaults" [] d in
      let c := config d in
      let c := set_version EEPROM_VERSION c in
      let c := set_userID (strcpy (userID c) "000000") c in
      let c := set_numGroups 0 c in
      let c := set_deviceGroups (zeroGroups_loop (deviceGroups c) 0 MAX_DEVICE_GROUPS) c in
      set_config c d
    else
      Log.info "Configure success" [] d in
  printConfig d.

Definition setup (d : Device) : Device :=
  let d := Particle.function "addToGroup" d in
  let d := Particle.function "clearGroups" d in
  let d := Particle.function "setUserID" d in
  let d := RGB.control true d in
  let d := readOrInitEEPROM d in
  Particle.subscribe (c_str (userID (config d))) d.

End Platform.

(** [void parseMessage(const char *event, const char *data)].  The local
    copy that is tokenised, [event_data], is a copy of [data]. *)
Definition parseMessage (event data : string) (d : Device) : Device :=
  let d := Log.trace EVENT_RECEIVED_FORMAT [AStr event; AStr data] d in
  let event_data := replicate (String.length data + 1)%nat NUL in
  let event_data := strcpy event_data data in
  match strtok (c_str event_data) "/" with
  | None => d
  | Some (parsedUserID, saved) =>
      if strcmp parsedUserID (c_str (userID (config d))) =? 0 then
        let d := Log.trace "Event parsed %s" [AStr parsedUserID] d in
        match strtok saved "/" with
        | None => d
        | Some (parsedFunction, saved) =>
            let d := Log.trace "Command parsed: %s" [AStr parsedFunction] d in
            let parsedGroup := strtok saved "/" in
            let '(groupMatched, d) :=
              match parsedGroup with
              | None => (true, Log.info "All groups addressed!" [] d)
              | Some (group, _) =>
                  if strcmp group (deviceID d) =? 0 then
                    (true, Log.info "Device addressed by Device ID" [] d)
                  else
                    let parsedDeviceGroup := to_uint32 (strtol group) in
                    (groupScan_loop parsedDeviceGroup (deviceGroups (config d))
                       0 MAX_DEVICE_GROUPS, d)
              end in
            if groupMatched then
              let d := Log.info "Group parsed: %s" [AStr_or_null parsedGroup] d in
              runFunction parsedFunction data d
            else
              Log.info "Device's group was NOT addressed: %s"
                [AStr_or_null parsedGroup] d
        end
      else d
  end.

Definition dispatches (command data : string) (d d' : Device) : Prop :=
  exists d0, logged d d0 /\ d' = runFunction command data d0.

Definition is_handler_record (r : LogRecord) : bool :=
  existsb (String.eqb (log_format r))
    ["red() called with data: %s"; "green() called with data: %s";
     "blue() called with data: %s"]%string.

Definition no_handler (d d' : Device) : Prop :=
  exists l, d' = set_log (log d ++ l) d
            /\ forallb (fun r => negb (is_handler_record r)) l = true.

End WhitePaper.

(** * Definitions used to state the properties *)

(** The [n] cells that [strncpy] writes for the source [s]. *)
Fixpoint cells (s : string) (n : nat) : list ascii :=
  match n with
  | O => []
  | S n' =>
      match s with
      | EmptyString => NUL :: cells EmptyString n'
      | String c s' => c :: cells s' n'
      end
  end.


(** A topic segment: a non-empty string with no ['/'] and no NUL. *)
Record segment (s : string) : Prop := mkSegment {
  seg_nonempty : s <> EmptyString;
  seg_no_slash : no_char "/" s = true;
  seg_nul_free : nul_free s
}.

(** A string is numeric when the permissive decimal parse finds a digit to
    read: after white space and one optional sign. *)
Definition numeric (s : string) : bool :=
  match skip_space s with
  | String "-" (String c _) => isdigit c
  | String "+" (String c _) => isdigit c
  | String c _ => isdigit c
  | EmptyString => false
  end.

(** The device after the three trace entries that [parseMessage] writes
    for an event whose user segment [U] and command segment [C] it
    accepts. *)
Definition parsed (event data U C : string) (d : Device) : Device :=
  Log.trace "Command parsed: %s" [AStr C]
    (Log.trace "Event parsed %s" [AStr U]
       (Log.trace EVENT_RECEIVED_FORMAT [AStr event; AStr data] d)).

(** The invariants of the configuration record: at most
    [MAX_DEVICE_GROUPS] groups, and a user ID that is NUL-terminated
    within its array, hence at most [MAX_USER_ID_LEN] characters long. *)
Record config_inv (c : DeviceConfig_t) : Prop := mkConfigInv {
  inv_numGroups : numGroups c <= Z.of_nat MAX_DEVICE_GROUPS;
  inv_terminated : NUL ∈ userID c;
  inv_userID_len : (String.length (c_str (userID c)) <= MAX_USER_ID_LEN)%nat
}.

Definition config_ok (c : DeviceConfig_t) : Prop := wf_config c /\ config_inv c.

(** ** Example devices

    A device as it leaves the factory: the EEPROM is erased (every byte is
    0xFF), the global [config] is zero-initialised, nothing is registered
    and nothing is logged. *)
Definition erased_config : DeviceConfig_t :=
  mkConfig 255 (replicate 9 "255"%char) 255 (replicate 16 255).

Definition zero_config : DeviceConfig_t :=
  mkConfig 0 (replicate 9 NUL) 0 (replicate 16 0).

Definition factory_device : Device :=
  mkDevice zero_config erased_config "e00fce68f5048fcadf1ea38a" [] [] false (0, 0, 0) [].

(** The device of the specification's scenario, running [Fw]: user ID
    ["123ABC"], membership {7}, device ID ["dev42"]. *)
Definition scenario_config : DeviceConfig_t :=
  mkConfig 1 (cells "123ABC" 9) 1 (7 :: replicate 15 0).

Definition scenario_device : Device :=
  mkDevice scenario_config scenario_config "dev42"
    ["addToGroup"; "clearGroups"; "setUserID"]%string ["123ABC"%string]
    false (0, 0, 0) [].

(** Every member is a group number that [addToGroup] accepts. *)
Definition groups_valid (c : DeviceConfig_t) : Prop :=
  Forall (fun g => 1 <= g <= 255) (membership c).

(** The factory device after [setup], for each sketch (on a platform whose
    EEPROM has 2047 bytes). *)
Definition fw_booted : Device := Fw.setup 2047 factory_device.
Definition whitepaper_booted : Device := WhitePaper.setup 2047 factory_device.

(** ** Further definitions for the properties of the whole sketches *)

(** Successive calls of [addToGroup], one per string of [l]; the results
    are returned in call order. *)
Fixpoint addGroups (fmt : string) (l : list string) (d : Device)
  : list Z * Device :=
  match l with
  | [] => ([], d)
  | extra :: l' =>
      let '(r, d1) := addToGroup fmt extra d in
      let '(rs, d2) := addGroups fmt l' d1 in
      (r :: rs, d2)
  end.

(** The text between the braces of [uint8ArrToString]: the numbers in
    decimal, separated by a comma and a space. *)
Fixpoint comma_separated (l : list Z) : string :=
  match l with
  | [] => EmptyString
  | [x] => decimal x
  | x :: l' => (decimal x ++ ", " ++ comma_separated l')%string
  end.

(** The configuration that default initialisation leaves, in [Fw] and in
    the white-paper sketch ([strcpy] writes 7 of the 9 bytes of [userID];
    the last two keep what was read from the EEPROM). *)
Definition fw_defaults : DeviceConfig_t :=
  mkConfig EEPROM_VERSION (replicate (S MAX_USER_ID_LEN) NUL) 0
    (replicate MAX_DEVICE_GROUPS 0).

Definition wp_defaults (e : DeviceConfig_t) : DeviceConfig_t :=
  mkConfig EEPROM_VERSION (cells "000000" 7 ++ drop 7 (userID e)) 0
    (replicate MAX_DEVICE_GROUPS 0).

(** Power is cycled: the EEPROM keeps its content, the global [config] is
    zero-initialised again, nothing is registered or subscribed, the LED is
    released.  The log stays, as what was written to the serial port. *)
Definition power_cycle (d : Device) : Device :=
  mkDevice zero_config (eeprom d) (deviceID d) [] [] false (0, 0, 0) (log d).

(** The states that a sketch reaches from a device with an erased EEPROM:
    [boot] is its [setup], [parse] its [parseMessage] and [fmt] the user-ID
    line of its [printConfig]. *)
Inductive reachable (boot : Device -> Device)
    (parse : string -> string -> Device -> Device) (fmt : string)
  : Device -> Prop :=
| reach_first_boot d :
    wf_config (eeprom d) -> version (eeprom d) = 255 ->
    reachable boot parse fmt (boot d)
| reach_reboot d :
    reachable boot parse fmt d ->
    reachable boot parse fmt (boot (power_cycle d))
| reach_addToGroup extra d :
    reachable boot parse fmt d ->
    reachable boot parse fmt (snd (addToGroup fmt extra d))
| reach_clearGroups extra d :
    reachable boot parse fmt d ->
    reachable boot parse fmt (snd (clearGroups fmt extra d))
| reach_setUserID extra d :
    reachable boot parse fmt d ->
    reachable boot parse fmt (snd (setUserID fmt extra d))
| reach_event event data d :
    reachable boot parse fmt d ->
    reachable boot parse fmt (parse event data d).

(** [logged_or_lit d d']: the device [d'] is [d] with further log entries
    and, possibly, another LED colour; everything else is as in [d]. *)
Definition logged_or_lit (d d' : Device) : Prop :=
  exists l c, d' = set_rgb_color c (set_log (log d ++ l) d).

(** The EEPROM holds the configuration in memory, or it is erased and the
    configuration in memory is the default one. *)
Definition persisted_or_default (defaults : DeviceConfig_t -> DeviceConfig_t)
    (d : Device) : Prop :=
  eeprom d = config d
  \/ (version (eeprom d) = 255 /\ config d = defaults (eeprom d)).

(** What holds in every state reached from an erased EEPROM: the record is
    well formed and satisfies its invariants, every member is a valid group
    number, the version byte is [EEPROM_VERSION], and the EEPROM either
    holds the configuration or is still erased. *)
Definition stable_state (defaults : DeviceConfig_t -> DeviceConfig_t)
    (d : Device) : Prop :=
  config_ok (config d) /\ groups_valid (config d)
  /\ version (config d) = EEPROM_VERSION
  /\ wf_config (eeprom d)
  /\ persisted_or_default defaults d.

(** A device of the scenario's kind reached from the factory device by
    [Fw]: first boot, [setUserID("123ABC")], [addToGroup("7")]. *)
Definition fw_configured : Device :=
  snd (Fw.addToGroup "7" (snd (Fw.setUserID "123ABC" fw_booted))).

(** ** The part of [parseMessage] that the two sketches share

    Everything that follows the local copy: [text] is the C string held by
    the copy, [bound] the number of cells that the group scan visits and
    [run] the command chain.  Lemmas [fw_parseMessage_text] and
    [wp_parseMessage_text] show each [parseMessage] to be an instance. *)
Definition dispatch_text (bound : DeviceConfig_t -> nat)
    (run : string -> string -> Device -> Device)
    (text event data : string) (d : Device) : Device :=
  let d := Log.trace EVENT_RECEIVED_FORMAT [AStr event; AStr data] d in
  match strtok text "/" with
  | None => d
  | Some (parsedUserID, saved) =>
      if strcmp parsedUserID (c_str (userID (config d))) =? 0 then
        let d := Log.trace "Event parsed %s" [AStr parsedUserID] d in
        match strtok saved "/" with
        | None => d
        | Some (parsedFunction, saved) =>
            let d := Log.trace "Command parsed: %s" [AStr parsedFunction] d in
            let parsedGroup := strtok saved "/" in
            let '(groupMatched, d) :=
              match parsedGroup with
              | None => (true, Log.info "All groups addressed!" [] d)
              | Some (group, _) =>
                  if strcmp group (deviceID d) =? 0 then
                    (true, Log.info "Device addressed by Device ID" [] d)
                  else
                    let parsedDeviceGroup := to_uint32 (strtol group) in
                    (groupScan_loop parsedDeviceGroup (deviceGroups (config d))
                       0 (bound (config d)), d)
              end in
            if groupMatched then
              let d := Log.info "Group parsed: %s" [AStr_or_null parsedGroup] d in
              run parsedFunction data d
            else
              Log.info "Device's group was NOT addressed: %s"
                [AStr_or_null parsedGroup] d
        end
      else d
  end.

(** The observations [dispatches] and [no_handler], for any command chain
    and any set of handler entries. *)
Definition dispatches_with (run : string -> string -> Device -> Device)
    (command data : string) (d d' : Device) : Prop :=
  exists d0, logged d d0 /\ d' = run command data d0.

Definition no_handler_with (is_handler : LogRecord -> bool) (d d' : Device)
  : Prop :=
  exists l, d' = set_log (log d ++ l) d
            /\ forallb (fun r => negb (is_handler r)) l = true.

(** The formats of the entries that [parseMessage] itself writes when it
    runs no command. *)
Definition parse_formats : list string :=
  [EVENT_RECEIVED_FORMAT; "Event parsed %s"; "Command parsed: %s";
   "Device's group was NOT addressed: %s"]%string.

(** * Properties of the C library model *)

Section CStrings.

Implicit Types (s t : string) (c : ascii) (a : list ascii).

Lemma code_range c : 0 <= code c < 256.
Proof.
  unfold code. pose proof (N_ascii_bounded c) as H. lia.
Qed.

Lemma code_NUL c : code c = 0 <-> c = NUL.
Proof.
  split.
  - intros H. rewrite <- (ascii_N_embedding c). unfold code in H.
    replace (N_of_ascii c) with 0%N by lia. reflexivity.
  - intros ->. reflexivity.
Qed.

Lemma code_inj c c' : code c = code c' -> c = c'.
Proof.
  unfold code. intros H.
  rewrite <- (ascii_N_embedding c), <- (ascii_N_embedding c').
  f_equal. lia.
Qed.

Lemma no_char_app x s t :
  no_char x (s ++ t) = no_char x s && no_char x t.
Proof.
  induction s as [|c s IH]; simpl; [reflexivity|].
  rewrite IH. apply andb_assoc.
Qed.

Lemma length_cells s n : length (cells s n) = n.
Proof.
  revert s. induction n as [|n IH]; intros [|c s]; simpl; auto.
Qed.

Lemma strncpy_at_cells n : forall i a s,
  (i + n <= length a)%nat ->
  strncpy_at i a s n = take i a ++ cells s n ++ drop (i + n) a.
Proof.
  induction n as [|n IH]; intros i a s Hlen; simpl.
  - rewrite Nat.add_0_r. symmetry. apply take_drop.
  - assert (Hstep : forall x s',
      strncpy_at (S i) (<[i := x]> a) s' n
      = take i a ++ (x :: cells s' n) ++ drop (i + S n) a).
    { intros x s'. rewrite IH by (rewrite length_insert; lia).
      rewrite (take_S_r _ _ x) by (apply list_lookup_insert_eq; lia).
      rewrite take_insert_ge by lia.
      rewrite drop_insert_lt by lia.
      replace (S i + n)%nat with (i + S n)%nat by lia.
      rewrite <- app_assoc. reflexivity. }
    destruct s as [|c s']; apply Hstep.
Qed.

Lemma strncpy_cells a s n :
  (n <= length a)%nat -> strncpy a s n = cells s n ++ drop n a.
Proof.
  intros H. unfold strncpy. rewrite strncpy_at_cells by lia.
  reflexivity.
Qed.

Lemma cells_S_snoc_NUL s n :
  <[n := NUL]> (cells s (S n)) = cells s n ++ [NUL].
Proof.
  revert s. induction n as [|n IH]; intros s.
  - destruct s; reflexivity.
  - assert (Hcons : forall x s',
      <[S n := NUL]> (x :: cells s' (S n)) = x :: cells s' n ++ [NUL]).
    { intros x s'.
      change (<[S n := NUL]> (x :: cells s' (S n)))
        with (x :: <[n := NUL]> (cells s' (S n))).
      rewrite IH. reflexivity. }
    destruct s as [|c s']; apply Hcons.
Qed.

(** Reading back what [strncpy] wrote, when a NUL follows the [n] cells. *)
Lemma c_str_cells s n a :
  nul_free s -> c_str (cells s n ++ NUL :: a) = substring 0 n s.
Proof.
  unfold nul_free. revert s. induction n as [|n IH]; intros s Hs.
  - destruct s; reflexivity.
  - destruct s as [|c s']; simpl.
    + reflexivity.
    + simpl in Hs. apply andb_true_iff in Hs as [Hc Hs].
      apply negb_true_iff in Hc. rewrite Hc. f_equal. auto.
Qed.

Lemma substring_all s n :
  (String.length s <= n)%nat -> substring 0 n s = s.
Proof.
  revert s. induction n as [|n IH]; intros [|c s] H; simpl in *;
    try reflexivity; try lia.
  f_equal. apply IH. lia.
Qed.

Lemma length_substring_le s n : (String.length (substring 0 n s) <= n)%nat.
Proof.
  revert s. induction n as [|n IH]; intros [|c s]; simpl; try lia.
  specialize (IH s). lia.
Qed.

Lemma c_str_nul_free a : nul_free (c_str a).
Proof.
  unfold nul_free. induction a as [|c a IH]; simpl; [reflexivity|].
  destruct (Ascii.eqb c NUL) eqn:E; simpl; [reflexivity|].
  rewrite E. exact IH.
Qed.

(** [strcmp] decides equality of NUL-free strings. *)
Lemma strcmp_refl s : strcmp s s = 0.
Proof.
  induction s as [|c s IH]; simpl; [reflexivity|].
  rewrite Ascii.eqb_refl. exact IH.
Qed.

Lemma strcmp_eq s t : nul_free s -> nul_free t -> strcmp s t = 0 -> s = t.
Proof.
  unfold nul_free. revert t.
  induction s as [|c s IH]; intros [|c' t] Hs Ht H; simpl in *.
  - reflexivity.
  - apply andb_true_iff in Ht as [Hc _]. apply negb_true_iff in Hc.
    apply Ascii.eqb_neq in Hc. exfalso. apply Hc, code_NUL. lia.
  - apply andb_true_iff in Hs as [Hc _]. apply negb_true_iff in Hc.
    apply Ascii.eqb_neq in Hc. exfalso. apply Hc, code_NUL. lia.
  - apply andb_true_iff in Hs as [_ Hs]. apply andb_true_iff in Ht as [_ Ht].
    destruct (Ascii.eqb c c') eqn:E.
    + apply Ascii.eqb_eq in E. subst c'. f_equal. auto.
    + apply Ascii.eqb_neq in E. exfalso. apply E, code_inj. lia.
Qed.

Lemma strcmp_eqb s t :
  nul_free s -> nul_free t -> (strcmp s t =? 0) = String.eqb s t.
Proof.
  intros Hs Ht. destruct (String.eqb s t) eqn:E.
  - apply String.eqb_eq in E. subst t. rewrite strcmp_refl. reflexivity.
  - apply String.eqb_neq in E. apply Z.eqb_neq. intros H. apply E.
    apply strcmp_eq; assumption.
Qed.

End CStrings.

Section Tokens.

Implicit Types (s t rest : string) (c : ascii).

Lemma in_set_slash c : in_set c "/" = Ascii.eqb c "/".
Proof. simpl. apply orb_false_r. Qed.

Lemma split_token_slash t rest :
  no_char "/" t = true ->
  split_token "/" (t ++ String "/" rest) = (t, rest).
Proof.
  induction t as [|c t IH]; intros H.
  - reflexivity.
  - simpl in H. apply andb_true_iff in H as [Hc Ht].
    apply negb_true_iff in Hc.
    change (split_token "/" (String c (t ++ String "/" rest)) = (String c t, rest)).
    cbn [split_token]. rewrite in_set_slash, Hc, (IH Ht). reflexivity.
Qed.

Lemma split_token_end t :
  no_char "/" t = true -> split_token "/" t = (t, EmptyString).
Proof.
  induction t as [|c t IH]; intros H.
  - reflexivity.
  - simpl in H. apply andb_true_iff in H as [Hc Ht].
    apply negb_true_iff in Hc.
    cbn [split_token]. rewrite in_set_slash, Hc, (IH Ht). reflexivity.
Qed.

(** A call of [strtok] at the head of a segment returns that segment and
    resumes after the delimiter that ends it. *)
Lemma strtok_segment_slash t rest :
  t <> EmptyString -> no_char "/" t = true ->
  strtok (t ++ String "/" rest) "/" = Some (t, rest).
Proof.
  intros Hne Hsl. destruct t as [|c t]; [congruence|].
  pose proof (split_token_slash (String c t) rest Hsl) as Hsplit.
  simpl in Hsl. apply andb_true_iff in Hsl as [Hc _].
  apply negb_true_iff in Hc.
  unfold strtok.
  change ((String c t ++ String "/" rest)%string)
    with (String c (t ++ String "/" rest)) in *.
  cbn [skip_delims]. rewrite in_set_slash, Hc. rewrite Hsplit. reflexivity.
Qed.

Lemma strtok_segment_end t :
  t <> EmptyString -> no_char "/" t = true ->
  strtok t "/" = Some (t, EmptyString).
Proof.
  intros Hne Hsl. destruct t as [|c t]; [congruence|].
  pose proof (split_token_end (String c t) Hsl) as Hsplit.
  simpl in Hsl. apply andb_true_iff in Hsl as [Hc _].
  apply negb_true_iff in Hc.
  unfold strtok. cbn [skip_delims]. rewrite in_set_slash, Hc, Hsplit.
  reflexivity.
Qed.

Lemma strtok_empty delim : strtok EmptyString delim = None.
Proof. reflexivity. Qed.

(** Leading delimiters are skipped. *)
Lemma strtok_leading_slash s : strtok (String "/" s) "/" = strtok s "/".
Proof. reflexivity. Qed.

(** [strtok] never returns an empty token, and a token holds no delimiter. *)
Lemma split_token_no_delim delim s tok rest c :
  split_token delim s = (tok, rest) -> in_set c delim = true ->
  no_char c tok = true.
Proof.
  revert tok rest. induction s as [|x s IH]; intros tok rest H Hc.
  - inversion H. reflexivity.
  - cbn [split_token] in H. destruct (in_set x delim) eqn:Hx.
    + inversion H. reflexivity.
    + destruct (split_token delim s) as [tok' rest'] eqn:E.
      inversion H; subst. simpl. rewrite (IH _ _ eq_refl Hc).
      destruct (Ascii.eqb x c) eqn:Exc; [|reflexivity].
      apply Ascii.eqb_eq in Exc. congruence.
Qed.

Lemma strtok_token delim s tok rest :
  strtok s delim = Some (tok, rest) ->
  tok <> EmptyString /\ forall c, in_set c delim = true -> no_char c tok = true.
Proof.
  unfold strtok. destruct (skip_delims delim s) as [|x s'] eqn:E; [discriminate|].
  assert (Hx : in_set x delim = false).
  { clear tok rest. induction s as [|y s IH]; [discriminate|].
    cbn [skip_delims] in E. destruct (in_set y delim) eqn:Hy; [auto|].
    congruence. }
  intros H. injection H as H. split.
  - cbn [split_token] in H. rewrite Hx in H.
    destruct (split_token delim s') as [tok' rest']. inversion H. discriminate.
  - intros c Hc. exact (split_token_no_delim delim (String x s') _ _ _ H Hc).
Qed.

End Tokens.

Section Numbers.

Lemma numeric_false_value s : numeric s = false -> decimal_value s = 0.
Proof.
  unfold numeric, decimal_value. intros H.
  destruct (skip_space s) as [|c s'] eqn:E; [reflexivity|].
  assert (Hd : forall t, match t with
                         | String x _ => isdigit x
                         | EmptyString => false
                         end = false -> digits 0 t = 0).
  { intros [|x t] Hx; simpl; [reflexivity|]. rewrite Hx. reflexivity. }
  assert (Hc : isdigit c = false -> digits 0 (String c s') = 0).
  { intros Hx. simpl. rewrite Hx. reflexivity. }
  destruct c as [[] [] [] [] [] [] [] []];
    try (apply Hc; exact H);
    try (rewrite Hd; [reflexivity|]; destruct s'; [reflexivity|exact H]).
Qed.

(** Saturation at the bounds of [long] and the conversion to [uint32_t]
    never turn a value into a [uint8_t] it was not. *)
Lemma group_value_eqb s g :
  is_uint8 g -> (to_uint32 (strtol s) =? g) = (decimal_value s =? g).
Proof.
  unfold is_uint8, to_uint32, strtol, LONG_MIN, LONG_MAX. intros Hg.
  set (v := decimal_value s).
  destruct (Z.eqb_spec v g) as [->|Hne].
  - apply Z.eqb_eq. rewrite Z.mod_small; lia.
  - apply Z.eqb_neq. intros H. apply Hne.
    destruct (Z_lt_le_dec v 0) as [Hneg|Hpos].
    + exfalso.
      assert (Hc : -2147483648 <= Z.max (-2147483648) (Z.min 2147483647 v) < 0) by lia.
      set (x := Z.max (-2147483648) (Z.min 2147483647 v)) in *.
      assert (x mod 4294967296 = x + 4294967296).
      { symmetry. apply Z.mod_unique with (q := -1); lia. }
      lia.
    + rewrite Z.mod_small in H by lia. lia.
Qed.

Lemma groupScan_loop_spec v groups : forall steps i,
  groupScan_loop v groups i steps = true <-> v ∈ take steps (drop i groups).
Proof.
  induction steps as [|k IH]; intros i; simpl.
  - rewrite take_0. split; [discriminate|]. intros H. inversion H.
  - destruct (groups !! i) as [g|] eqn:E.
    + rewrite (drop_S _ _ _ E). simpl.
      destruct (Z.eqb_spec v g) as [->|Hne].
      * split; [intros _; constructor|reflexivity].
      * rewrite IH. rewrite elem_of_cons. split; [tauto|]. intros [?|?]; [lia|auto].
    + rewrite IH. apply lookup_ge_None in E.
      rewrite !drop_ge by lia. rewrite !take_nil. reflexivity.
Qed.

Lemma groupScan_membership v c :
  groupScan_loop v (deviceGroups c) 0 (Z.to_nat (numGroups c)) = true
  <-> v ∈ membership c.
Proof. unfold membership. rewrite groupScan_loop_spec, drop_0. reflexivity. Qed.

End Numbers.

(** * The local copy that [parseMessage] tokenises *)

Section Buffers.

Lemma c_str_cells_fit s : forall n a,
  nul_free s -> (String.length s < n)%nat -> c_str (cells s n ++ a) = s.
Proof.
  unfold nul_free. induction s as [|c s IH]; intros [|n] a Hs Hn; simpl in *;
    try lia; try reflexivity.
  apply andb_true_iff in Hs as [Hc Hs]. apply negb_true_iff in Hc.
  rewrite Hc. f_equal. apply IH; [assumption|lia].
Qed.

(** [Fw]: the buffer holds the first [MAX_EVENT_NAME_LENGTH - 1] characters
    of the event name. *)
Lemma fw_event_name N event :
  nul_free event ->
  c_str (<[(N - 1)%nat := NUL]> (strncpy (replicate N NUL) event N))
  = substring 0 (N - 1) event.
Proof.
  intros Hev. rewrite strncpy_cells by (rewrite length_replicate; lia).
  rewrite drop_replicate, Nat.sub_diag. simpl replicate. rewrite app_nil_r.
  destruct N as [|n].
  - destruct event; reflexivity.
  - replace (S n - 1)%nat with n by lia.
    rewrite cells_S_snoc_NUL. apply c_str_cells. exact Hev.
Qed.

Lemma fw_event_name_fit N event :
  nul_free event -> (String.length event < N)%nat ->
  c_str (<[(N - 1)%nat := NUL]> (strncpy (replicate N NUL) event N)) = event.
Proof.
  intros Hev Hlen. rewrite fw_event_name by assumption.
  apply substring_all. lia.
Qed.

(** [WhitePaper]: the buffer holds the payload. *)
Lemma wp_event_data data :
  nul_free data ->
  c_str (strcpy (replicate (String.length data + 1) NUL) data) = data.
Proof.
  intros Hd. unfold strcpy.
  rewrite strncpy_cells by (rewrite length_replicate; lia).
  apply c_str_cells_fit; [assumption|lia].
Qed.

End Buffers.

(** * [Fw.parseMessage] on well-formed topics

    The lemmas of this part and of the next ones are about the embedding:
    they unfold [parseMessage] on [c_str (userID (config d))] and on
    [groupScan_loop].  They describe the code on the configurations that
    satisfy [config_inv], where the read of [config.userID] ends inside its
    array and the scan stays within [deviceGroups]; the theorems stated from
    them for an arbitrary device assume [config_inv]. *)

Section FwParse.

Variable N : nat.          (* MAX_EVENT_NAME_LENGTH *)

Implicit Types (d : Device) (U C S data : string).

Lemma slash_append s : ("/" ++ s)%string = String "/" s.
Proof. reflexivity. Qed.

Lemma segment_slash_nul_free s t :
  nul_free s -> nul_free t -> nul_free (s ++ String "/" t).
Proof.
  unfold nul_free. intros Hs Ht. rewrite no_char_app, Hs. simpl. exact Ht.
Qed.

Lemma segment_eq_userID d U :
  wf_device d -> U = c_str (userID (config d)) ->
  (strcmp U (c_str (userID (config d))) =? 0) = true.
Proof. intros _ ->. rewrite strcmp_refl. reflexivity. Qed.

(** Three segments: the selector is compared with the device ID first and
    with the groups after. *)
Lemma fw_parse_selector d U C S data :
  wf_device d -> segment U -> segment C -> segment S ->
  U = c_str (userID (config d)) ->
  (String.length (U ++ "/" ++ C ++ "/" ++ S) < N)%nat ->
  Fw.parseMessage N (U ++ "/" ++ C ++ "/" ++ S) data d =
    let d1 := parsed (U ++ "/" ++ C ++ "/" ++ S) data U C d in
    if String.eqb S (deviceID d) then
      Fw.runFunction C data
        (Log.info "Group parsed: %s" [AStr S]
           (Log.info "Device addressed by Device ID" [] d1))
    else if groupScan_loop (to_uint32 (strtol S)) (deviceGroups (config d))
              0 (Z.to_nat (numGroups (config d))) then
      Fw.runFunction C data (Log.info "Group parsed: %s" [AStr S] d1)
    else
      Log.info "Device's group was NOT addressed: %s" [AStr S] d1.
Proof.
  intros Hwf [HU1 HU2 HU3] [HC1 HC2 HC3] [HS1 HS2 HS3] HU Hlen.
  unfold Fw.parseMessage. cbv zeta.
  rewrite !slash_append in *.
  rewrite fw_event_name_fit;
    [|repeat apply segment_slash_nul_free; assumption|assumption].
  rewrite (strtok_segment_slash U) by assumption.
  change (config (Log.trace _ _ d)) with (config d).
  rewrite (segment_eq_userID d U Hwf HU).
  rewrite (strtok_segment_slash C) by assumption.
  rewrite (strtok_segment_end S) by assumption.
  change (deviceID (Log.trace _ _ (Log.trace _ _ (Log.trace _ _ d))))
    with (deviceID d).
  rewrite (strcmp_eqb S (deviceID d)) by (assumption || apply Hwf).
  unfold parsed. cbn [AStr_or_null].
  destruct (String.eqb S (deviceID d)); [reflexivity|].
  change (config (Log.trace _ _ (Log.trace _ _ (Log.trace _ _ d))))
    with (config d).
  destruct (groupScan_loop _ _ _ _); reflexivity.
Qed.

(** No third segment: every group is addressed. *)
Lemma fw_parse_no_selector d text U C r1 r2 data :
  wf_device d -> nul_free text -> (String.length text < N)%nat ->
  strtok text "/" = Some (U, r1) ->
  strtok r1 "/" = Some (C, r2) ->
  strtok r2 "/" = None ->
  U = c_str (userID (config d)) ->
  Fw.parseMessage N text data d =
    Fw.runFunction C data
      (Log.info "Group parsed: %s" [ANull]
         (Log.info "All groups addressed!" [] (parsed text data U C d))).
Proof.
  intros Hwf Hnul Hlen H1 H2 H3 HU.
  unfold Fw.parseMessage. cbv zeta.
  rewrite fw_event_name_fit by assumption.
  rewrite H1.
  change (config (Log.trace _ _ d)) with (config d).
  rewrite (segment_eq_userID d U Hwf HU).
  rewrite H2, H3. reflexivity.
Qed.

(** The first segment is not the configured user ID: the event is dropped. *)
Lemma fw_parse_other_user d text U r1 data :
  nul_free text -> (String.length text < N)%nat ->
  strtok text "/" = Some (U, r1) ->
  (strcmp U (c_str (userID (config d))) =? 0) = false ->
  Fw.parseMessage N text data d =
    Log.trace EVENT_RECEIVED_FORMAT [AStr text; AStr data] d.
Proof.
  intros Hnul Hlen H1 HU.
  unfold Fw.parseMessage. cbv zeta.
  rewrite fw_event_name_fit by assumption.
  rewrite H1.
  change (config (Log.trace _ _ d)) with (config d).
  rewrite HU. reflexivity.
Qed.

End FwParse.

(** * What a run logs *)

Section Logged.

Implicit Types (d : Device) (r : LogRecord).

Lemma set_log_log d : set_log (log d) d = d.
Proof. destruct d; reflexivity. Qed.

Lemma logged_refl d : logged d d.
Proof. exists []. rewrite app_nil_r. symmetry. apply set_log_log. Qed.

Lemma logged_emit d d' r : logged d d' -> logged d (Log.emit r d').
Proof.
  intros [l ->]. exists (l ++ [r]). unfold Log.emit. simpl.
  rewrite app_assoc. reflexivity.
Qed.

Lemma logged_trans d1 d2 d3 : logged d1 d2 -> logged d2 d3 -> logged d1 d3.
Proof.
  intros [l ->] [l' ->]. exists (l ++ l'). simpl.
  rewrite app_assoc. reflexivity.
Qed.

Lemma logged_parsed event data U C d : logged d (parsed event data U C d).
Proof. unfold parsed. repeat apply logged_emit. apply logged_refl. Qed.

Lemma logged_config d d' : logged d d' -> config d' = config d.
Proof. intros [l ->]. reflexivity. Qed.

Lemma logged_eeprom d d' : logged d d' -> eeprom d' = eeprom d.
Proof. intros [l ->]. reflexivity. Qed.

(** The command chain of [Fw] writes one log entry and changes nothing
    else. *)
Lemma fw_runFunction_emit C data d :
  exists r, Fw.runFunction C data d = Log.emit r d
            /\ (log_format r = "function1: %s" \/ log_format r = "function2: %s"
                \/ log_format r = "function3: %s"
                \/ log_format r = "Unknown function received: %s")%string.
Proof.
  unfold Fw.runFunction, Fw.function1, Fw.function2, Fw.function3,
    Log.info, Log.warn.
  repeat match goal with
         | |- context [if ?b then _ else _] => destruct b
         end;
    eexists; (split; [reflexivity|]); simpl; tauto.
Qed.

Lemma fw_runFunction_logged C data d : logged d (Fw.runFunction C data d).
Proof.
  destruct (fw_runFunction_emit C data d) as (r & -> & _).
  apply logged_emit, logged_refl.
Qed.

Lemma fw_dispatches_logged C data d d' : Fw.dispatches C data d d' -> logged d d'.
Proof.
  intros (d0 & Hl & ->). eapply logged_trans; [exact Hl|].
  apply fw_runFunction_logged.
Qed.

(** A run that ends with the entry "not addressed" did not dispatch. *)
Lemma fw_not_addressed_not_dispatched C data d d1 args :
  ~ Fw.dispatches C data d
      (Log.info "Device's group was NOT addressed: %s" args d1).
Proof.
  intros (d0 & _ & H).
  destruct (fw_runFunction_emit C data d0) as (r & Hr & Hfmt).
  rewrite Hr in H. apply (f_equal log) in H. unfold Log.info, Log.emit in H.
  simpl in H. apply app_inj_tail in H as [_ <-]. simpl in Hfmt.
  destruct Hfmt as [?|[?|[?|?]]]; discriminate.
Qed.

End Logged.

(** * Group matching and dispatch in [Fw] *)

Section FwDispatch.

Variable N : nat.          (* MAX_EVENT_NAME_LENGTH *)

Implicit Types (d : Device) (U C S data : string).

Lemma membership_uint8 c x : wf_config c -> x ∈ membership c -> is_uint8 x.
Proof.
  intros Hwf Hx. unfold membership in Hx.
  apply elem_of_take in Hx as (i & Hi & _).
  pose proof (wf_deviceGroups c Hwf) as Hall.
  rewrite Forall_lookup in Hall. exact (Hall i x Hi).
Qed.

(** The scan compares the selector's integer value with the membership. *)
Lemma groupScan_decimal c S :
  wf_config c ->
  groupScan_loop (to_uint32 (strtol S)) (deviceGroups c) 0 (Z.to_nat (numGroups c))
    = true
  <-> decimal_value S ∈ membership c.
Proof.
  intros Hwf. rewrite groupScan_membership. split; intros Hin.
  - pose proof (group_value_eqb S _ (membership_uint8 c _ Hwf Hin)) as E.
    rewrite Z.eqb_refl in E. symmetry in E. apply Z.eqb_eq in E.
    rewrite E. exact Hin.
  - pose proof (group_value_eqb S _ (membership_uint8 c _ Hwf Hin)) as E.
    rewrite Z.eqb_refl in E. apply Z.eqb_eq in E. rewrite E. exact Hin.
Qed.

(** A selector that is not the device ID dispatches exactly when its
    integer value is a member, and no handler runs otherwise. *)
Lemma fw_group_selector d U C S data :
  wf_device d -> segment U -> segment C -> segment S ->
  U = c_str (userID (config d)) ->
  S <> deviceID d ->
  (String.length (U ++ "/" ++ C ++ "/" ++ S) < N)%nat ->
  let d' := Fw.parseMessage N (U ++ "/" ++ C ++ "/" ++ S) data d in
  (Fw.dispatches C data d d' <-> decimal_value S ∈ membership (config d))
  /\ (decimal_value S ∉ membership (config d) -> Fw.no_handler d d').
Proof.
  intros Hwf HU HC HS HUeq Hid Hlen d'. subst d'.
  rewrite fw_parse_selector by assumption. cbv zeta.
  apply String.eqb_neq in Hid. rewrite Hid.
  pose proof (groupScan_decimal (config d) S (wf_dev_config d Hwf)) as Hscan.
  destruct (groupScan_loop _ _ _ _) eqn:E.
  - assert (Hin : decimal_value S ∈ membership (config d)) by (apply Hscan; reflexivity).
    split; [|tauto]. split; [auto|]. intros _.
    eexists. split; [|reflexivity].
    apply logged_emit, logged_parsed.
  - assert (Hout : decimal_value S ∉ membership (config d)).
    { intros Hin. apply Hscan in Hin. discriminate. }
    split.
    + split; [|tauto]. intros Hd. exfalso.
      exact (fw_not_addressed_not_dispatched _ _ _ _ _ Hd).
    + intros _. unfold Fw.no_handler, parsed, Log.info, Log.trace, Log.emit.
      simpl. eexists. split.
      * rewrite <- !app_assoc. reflexivity.
      * reflexivity.
Qed.

(** A non-numeric selector has the value 0, so it dispatches nothing on a
    device whose membership does not hold 0. *)
Lemma fw_non_numeric_selector d U C S data :
  wf_device d -> segment U -> segment C -> segment S ->
  U = c_str (userID (config d)) ->
  S <> deviceID d ->
  numeric S = false ->
  0 ∉ membership (config d) ->
  (String.length (U ++ "/" ++ C ++ "/" ++ S) < N)%nat ->
  let d' := Fw.parseMessage N (U ++ "/" ++ C ++ "/" ++ S) data d in
  strtol S = 0 /\ ~ Fw.dispatches C data d d' /\ Fw.no_handler d d'.
Proof.
  intros Hwf HU HC HS HUeq Hid Hnum H0 Hlen d'. subst d'.
  pose proof (numeric_false_value S Hnum) as Hv.
  destruct (fw_group_selector d U C S data Hwf HU HC HS HUeq Hid Hlen)
    as [Hiff Hno].
  rewrite Hv in Hiff, Hno.
  split; [unfold strtol; rewrite Hv; reflexivity|].
  split; [rewrite Hiff; exact H0|exact (Hno H0)].
Qed.

(** No selector, or the device ID as selector: the command is dispatched
    whatever the membership. *)
Lemma fw_broadcast d U C data :
  wf_device d -> segment U -> segment C ->
  U = c_str (userID (config d)) ->
  (String.length (U ++ "/" ++ C) < N)%nat ->
  Fw.dispatches C data d (Fw.parseMessage N (U ++ "/" ++ C) data d).
Proof.
  intros Hwf [HU1 HU2 HU3] [HC1 HC2 HC3] HUeq Hlen.
  rewrite slash_append in *.
  rewrite (fw_parse_no_selector N d _ U C C EmptyString data); try assumption.
  - eexists. split; [|reflexivity]. do 2 apply logged_emit. apply logged_parsed.
  - apply segment_slash_nul_free; assumption.
  - apply strtok_segment_slash; assumption.
  - apply strtok_segment_end; assumption.
  - reflexivity.
Qed.

Lemma fw_direct d U C data :
  wf_device d -> segment U -> segment C -> segment (deviceID d) ->
  U = c_str (userID (config d)) ->
  (String.length (U ++ "/" ++ C ++ "/" ++ deviceID d) < N)%nat ->
  Fw.dispatches C data d
    (Fw.parseMessage N (U ++ "/" ++ C ++ "/" ++ deviceID d) data d).
Proof.
  intros Hwf HU HC HS HUeq Hlen.
  rewrite fw_parse_selector by assumption. cbv zeta.
  rewrite String.eqb_refl.
  eexists. split; [|reflexivity]. do 2 apply logged_emit. apply logged_parsed.
Qed.

(** Consecutive delimiters are one delimiter. *)
Lemma fw_double_slash d U C data :
  wf_device d -> segment U -> segment C ->
  U = c_str (userID (config d)) ->
  (String.length (U ++ "//" ++ C) < N)%nat ->
  strtok (U ++ "//" ++ C) "/" = Some (U, ("/" ++ C)%string)
  /\ strtok ("/" ++ C) "/" = Some (C, EmptyString)
  /\ Fw.parseMessage N (U ++ "//" ++ C) data d
     = Fw.runFunction C data
         (Log.info "Group parsed: %s" [ANull]
            (Log.info "All groups addressed!" []
               (parsed (U ++ "//" ++ C) data U C d)))
  /\ Fw.dispatches C data d (Fw.parseMessage N (U ++ "//" ++ C) data d).
Proof.
  intros Hwf [HU1 HU2 HU3] [HC1 HC2 HC3] HUeq Hlen.
  change ((U ++ "//" ++ C)%string) with ((U ++ String "/" (String "/" C))%string) in *.
  rewrite slash_append.
  assert (H1 : strtok (U ++ String "/" (String "/" C)) "/" = Some (U, String "/" C))
    by (apply strtok_segment_slash; assumption).
  assert (H2 : strtok (String "/" C) "/" = Some (C, EmptyString)).
  { rewrite strtok_leading_slash. apply strtok_segment_end; assumption. }
  assert (Hnul : nul_free (U ++ String "/" (String "/" C))).
  { apply segment_slash_nul_free; [assumption|]. unfold nul_free. simpl. exact HC3. }
  assert (Heq := fw_parse_no_selector N d _ U C _ _ data Hwf Hnul Hlen H1 H2
                   (strtok_empty "/") HUeq).
  repeat split; try assumption.
  rewrite Heq. eexists. split; [|reflexivity].
  do 2 apply logged_emit. apply logged_parsed.
Qed.

End FwDispatch.

(** * The dispatch decision of [Fw.parseMessage] does not read the payload *)

Section FwPayload.

Variable N : nat.          (* MAX_EVENT_NAME_LENGTH *)

Local Ltac only_logs :=
  unfold Fw.no_handler, parsed, Log.info, Log.trace, Log.emit; simpl;
  eexists; split; [rewrite <- ?app_assoc; reflexivity | reflexivity].

Local Ltac ran_chain :=
  eexists; split; [|reflexivity]; repeat apply logged_emit; apply logged_refl.

(** One decision, made from the event name, the configuration and the
    device ID, holds for every payload: either the command chain runs on
    the same command, with the payload as its argument, or no handler
    runs. *)
Lemma fw_decision_ignores_payload event d :
  exists decision : option string,
    forall data,
      match decision with
      | Some command =>
          Fw.dispatches command data d (Fw.parseMessage N event data d)
      | None => Fw.no_handler d (Fw.parseMessage N event data d)
      end.
Proof.
  set (text := c_str (<[(N - 1)%nat := NUL]> (strncpy (replicate N NUL) event N))).
  assert (Hunfold : forall data,
    Fw.parseMessage N event data d =
    let d0 := Log.trace EVENT_RECEIVED_FORMAT [AStr event; AStr data] d in
    match strtok text "/" with
    | None => d0
    | Some (U, r1) =>
        if strcmp U (c_str (userID (config d))) =? 0 then
          let d1 := Log.trace "Event parsed %s" [AStr U] d0 in
          match strtok r1 "/" with
          | None => d1
          | Some (C, r2) =>
              let d2 := Log.trace "Command parsed: %s" [AStr C] d1 in
              match strtok r2 "/" with
              | None =>
                  Fw.runFunction C data
                    (Log.info "Group parsed: %s" [ANull]
                       (Log.info "All groups addressed!" [] d2))
              | Some (sel, r3) =>
                  if strcmp sel (deviceID d) =? 0 then
                    Fw.runFunction C data
                      (Log.info "Group parsed: %s" [AStr sel]
                         (Log.info "Device addressed by Device ID" [] d2))
                  else if groupScan_loop (to_uint32 (strtol sel))
                            (deviceGroups (config d)) 0
                            (Z.to_nat (numGroups (config d))) then
                    Fw.runFunction C data (Log.info "Group parsed: %s" [AStr sel] d2)
                  else
                    Log.info "Device's group was NOT addressed: %s" [AStr sel] d2
              end
          end
        else d0
    end).
  { intros data. unfold Fw.parseMessage. cbv zeta. fold text.
    destruct (strtok text "/") as [[U r1]|]; [|reflexivity].
    change (config (Log.trace _ _ d)) with (config d).
    destruct (strcmp U _ =? 0); [|reflexivity].
    destruct (strtok r1 "/") as [[C r2]|]; [|reflexivity].
    destruct (strtok r2 "/") as [[sel r3]|]; [|reflexivity].
    change (deviceID (Log.trace _ _ (Log.trace _ _ (Log.trace _ _ d))))
      with (deviceID d).
    change (config (Log.trace _ _ (Log.trace _ _ (Log.trace _ _ d))))
      with (config d).
    destruct (strcmp sel _ =? 0); [reflexivity|].
    destruct (groupScan_loop _ _ _ _); reflexivity. }
  destruct (strtok text "/") as [[U r1]|] eqn:E1.
  2:{ exists None. intros data. rewrite Hunfold. cbv beta iota zeta. only_logs. }
  destruct (strcmp U (c_str (userID (config d))) =? 0) eqn:E2.
  2:{ exists None. intros data. rewrite Hunfold. cbv beta iota zeta. only_logs. }
  destruct (strtok r1 "/") as [[C r2]|] eqn:E3.
  2:{ exists None. intros data. rewrite Hunfold. cbv beta iota zeta. only_logs. }
  destruct (strtok r2 "/") as [[sel r3]|] eqn:E4.
  2:{ exists (Some C). intros data. rewrite Hunfold. cbv beta iota zeta.
      ran_chain. }
  destruct (strcmp sel (deviceID d) =? 0) eqn:E5.
  { exists (Some C). intros data. rewrite Hunfold. cbv beta iota zeta.
    ran_chain. }
  destruct (groupScan_loop (to_uint32 (strtol sel)) (deviceGroups (config d)) 0
              (Z.to_nat (numGroups (config d)))) eqn:E6.
  - exists (Some C). intros data. rewrite Hunfold. cbv beta iota zeta.
    ran_chain.
  - exists None. intros data. rewrite Hunfold. cbv beta iota zeta.
    only_logs.
Qed.

End FwPayload.

(** * The administrative functions *)

Section Mutators.

Variable fmt : string.     (* the user-ID line of [printConfig] *)

Implicit Types (d : Device) (c : DeviceConfig_t) (extra : string).

Lemma config_writeConfigToEEPROM d : config (writeConfigToEEPROM fmt d) = config d.
Proof. reflexivity. Qed.

Lemma eeprom_writeConfigToEEPROM d : eeprom (writeConfigToEEPROM fmt d) = config d.
Proof. reflexivity. Qed.

Lemma logged_printConfig d : logged d (printConfig fmt d).
Proof. unfold printConfig. cbv zeta. repeat apply logged_emit. apply logged_refl. Qed.

(** The value that [addToGroup] tests is the integer read off the string
    whenever either lies in the range of a group number. *)
Lemma to_int_strtol_range extra :
  (0 < to_int (strtol extra) < 256 <-> 1 <= decimal_value extra <= 255)
  /\ (1 <= decimal_value extra <= 255 -> to_int (strtol extra) = decimal_value extra).
Proof.
  unfold to_int, strtol, LONG_MIN, LONG_MAX.
  set (v := decimal_value extra).
  set (x := Z.max (-2147483648) (Z.min 2147483647 v)).
  assert (Hx : -2147483648 <= x <= 2147483647) by (unfold x; lia).
  assert (Hmod : (x + 2147483648) mod 4294967296 = x + 2147483648)
    by (apply Z.mod_small; lia).
  rewrite Hmod. unfold x. lia.
Qed.

Lemma addToGroup_invalid extra d :
  ~ (1 <= decimal_value extra <= 255) ->
  addToGroup fmt extra d =
    (-1, Log.code_details_warn (-1) "Group number invalid"
           "Invalid group received: %s" [AStr extra] d).
Proof.
  intros H. unfold addToGroup. cbv zeta.
  destruct (to_int_strtol_range extra) as [Hr _].
  destruct ((0 <? to_int (strtol extra)) && (to_int (strtol extra) <? 256)) eqn:E;
    [|reflexivity].
  apply andb_true_iff in E as [E1 E2]. apply Z.ltb_lt in E1, E2. tauto.
Qed.

Lemma addToGroup_full extra d :
  1 <= decimal_value extra <= 255 ->
  ~ numGroups (config d) < 16 ->
  addToGroup fmt extra d =
    (-2, Log.code_details_warn (-2) "Max number of groups exceeded"
           "Cannot add device to group %u" [ANum (to_uint8 (to_int (strtol extra)))] d).
Proof.
  intros H Hn. unfold addToGroup. cbv zeta.
  destruct (to_int_strtol_range extra) as [Hr _].
  replace ((0 <? to_int (strtol extra)) && (to_int (strtol extra) <? 256)) with true
    by (symmetry; apply andb_true_iff; split; apply Z.ltb_lt; tauto).
  replace (numGroups (config d) <? Z.of_nat MAX_DEVICE_GROUPS) with false
    by (symmetry; apply Z.ltb_ge; unfold MAX_DEVICE_GROUPS; lia).
  reflexivity.
Qed.

Lemma addToGroup_added extra d :
  1 <= decimal_value extra <= 255 ->
  numGroups (config d) < 16 ->
  let v := decimal_value extra in
  let c' := set_numGroups (to_uint8 (numGroups (config d) + 1))
              (set_deviceGroups
                 (<[Z.to_nat (numGroups (config d)) := to_uint8 v]>
                    (deviceGroups (config d))) (config d)) in
  fst (addToGroup fmt extra d) = v
  /\ config (snd (addToGroup fmt extra d)) = c'
  /\ eeprom (snd (addToGroup fmt extra d)) = c'.
Proof.
  intros H Hn v c'. unfold addToGroup. cbv zeta.
  destruct (to_int_strtol_range extra) as [Hr Heq].
  replace ((0 <? to_int (strtol extra)) && (to_int (strtol extra) <? 256)) with true
    by (symmetry; apply andb_true_iff; split; apply Z.ltb_lt; tauto).
  replace (numGroups (config d) <? Z.of_nat MAX_DEVICE_GROUPS) with true
    by (symmetry; apply Z.ltb_lt; unfold MAX_DEVICE_GROUPS; lia).
  rewrite (Heq H). repeat split.
Qed.

(** Appending to the membership. *)
Lemma membership_append c v :
  wf_config c -> numGroups c < 16 -> is_uint8 v ->
  membership (set_numGroups (to_uint8 (numGroups c + 1))
                (set_deviceGroups
                   (<[Z.to_nat (numGroups c) := to_uint8 v]> (deviceGroups c)) c))
  = membership c ++ [v].
Proof.
  intros Hwf Hn Hv. unfold membership, to_uint8. simpl.
  pose proof (wf_numGroups c Hwf) as Hng. unfold is_uint8 in *.
  pose proof (wf_deviceGroups_len c Hwf) as Hlen. unfold MAX_DEVICE_GROUPS in Hlen.
  rewrite !Z.mod_small by lia.
  replace (Z.to_nat (numGroups c + 1)) with (S (Z.to_nat (numGroups c))) by lia.
  rewrite (take_S_r _ _ v) by (apply list_lookup_insert_eq; lia).
  rewrite take_insert_ge by lia. reflexivity.
Qed.

Lemma wf_config_append c v :
  wf_config c ->
  wf_config (set_numGroups (to_uint8 (numGroups c + 1))
               (set_deviceGroups
                  (<[Z.to_nat (numGroups c) := to_uint8 v]> (deviceGroups c)) c)).
Proof.
  intros [H1 H2 H3 H4 H5]. constructor; simpl; try assumption.
  - unfold is_uint8, to_uint8. apply Z.mod_pos_bound. lia.
  - rewrite length_insert. assumption.
  - apply Forall_insert; [assumption|].
    unfold is_uint8, to_uint8. apply Z.mod_pos_bound. lia.
Qed.

End Mutators.

(** * Checked properties of the administrative functions *)

Local Ltac concrete_wf :=
  constructor; unfold is_uint8; simpl;
  first [lia | reflexivity | (repeat constructor; unfold is_uint8; lia)].

Lemma wf_scenario_config : wf_config scenario_config.
Proof. concrete_wf. Defined.

Lemma wf_erased_config : wf_config erased_config.
Proof. concrete_wf. Defined.

Lemma length_membership c :
  wf_config c ->
  length (membership c) = Nat.min (Z.to_nat (numGroups c)) MAX_DEVICE_GROUPS.
Proof.
  intros Hwf. unfold membership. rewrite length_take.
  rewrite (wf_deviceGroups_len c Hwf). reflexivity.
Qed.

(** C5.  For every input string, [addToGroup] returns -1 exactly when the
    integer read off the string is outside 1..255 (so for ["0"]), returns -2
    exactly when that integer is in range and the membership already holds
    16 entries, and otherwise appends the integer to the membership, writes
    the configuration to the EEPROM and returns the integer.  The statement
    holds for both sketches, which differ in the parameter [fmt] only. *)
Theorem addToGroup_status (fmt extra : string) (d : Device) :
  wf_config (config d) ->
  let v := decimal_value extra in
  let r := addToGroup fmt extra d in
  (fst r = -1 <-> ~ (1 <= v <= 255))
  /\ (fst r = -2 <->
      1 <= v <= 255 /\ length (membership (config d)) = MAX_DEVICE_GROUPS)
  /\ (fst r <> -1 -> fst r <> -2 ->
      fst r = v
      /\ membership (config (snd r)) = membership (config d) ++ [v]
      /\ userID (config (snd r)) = userID (config d)
      /\ version (config (snd r)) = version (config d)
      /\ eeprom (snd r) = config (snd r))
  /\ fst (addToGroup fmt "0" d) = -1.
Proof.
  intros Hwf v r.
  pose proof (length_membership _ Hwf) as Hlen.
  pose proof (wf_numGroups _ Hwf) as Hng. unfold is_uint8 in Hng.
  unfold MAX_DEVICE_GROUPS in *.
  assert (Hcases :
    (~ (1 <= v <= 255) /\ fst r = -1)
    \/ (1 <= v <= 255 /\ 16 <= numGroups (config d) /\ fst r = -2)
    \/ (1 <= v <= 255 /\ numGroups (config d) < 16 /\ fst r = v
        /\ membership (config (snd r)) = membership (config d) ++ [v]
        /\ userID (config (snd r)) = userID (config d)
        /\ version (config (snd r)) = version (config d)
        /\ eeprom (snd r) = config (snd r))).
  { destruct (Z_le_dec 1 v) as [H1|H1]; [destruct (Z_le_dec v 255) as [H2|H2]|].
    - destruct (Z_lt_dec (numGroups (config d)) 16) as [H3|H3].
      + right. right.
        destruct (addToGroup_added fmt extra d (conj H1 H2) H3) as (Ha & Hb & Hc).
        fold r in Ha, Hb, Hc. fold v in Ha, Hb, Hc.
        rewrite Hb, Hc. repeat split; try assumption.
        apply membership_append; [assumption|assumption|unfold is_uint8; lia].
      + right. left. unfold r.
        rewrite (addToGroup_full fmt extra d (conj H1 H2) H3).
        repeat split; try assumption. lia.
    - left. unfold r. rewrite addToGroup_invalid by (fold v; lia).
      split; [lia|reflexivity].
    - left. unfold r. rewrite addToGroup_invalid by (fold v; lia).
      split; [lia|reflexivity]. }
  assert (Hzero : fst (addToGroup fmt "0" d) = -1).
  { rewrite addToGroup_invalid; [reflexivity|].
    change (decimal_value "0") with 0. lia. }
  destruct Hcases as [[Hv Hr]|[(Hv & Hfull & Hr)|(Hv & Hroom & Hr & Hrest)]].
  - repeat split; try assumption; intros; try lia; try tauto.
  - repeat split; try assumption; intros; try lia; try tauto.
  - repeat split; try apply Hrest; try assumption; intros; try lia; try tauto.
Qed.

Lemma addToGroup_status_witness :
  wf_config (config scenario_device)
  /\ fst (Fw.addToGroup "12" scenario_device) = 12
  /\ membership (config (snd (Fw.addToGroup "12" scenario_device))) = [7; 12].
Proof.
  pose proof (addToGroup_status Fw.USER_ID_FORMAT "12" scenario_device
                wf_scenario_config) as H.
  cbv zeta in H. destruct H as (_ & _ & H & _).
  split; [exact wf_scenario_config|].
  destruct H as (H1 & H2 & _).
  - vm_compute. discriminate.
  - vm_compute. discriminate.
  - split; [exact H1|exact H2].
Defined.

(** C6.  [addToGroup] does not look for duplicates: on a configuration with
    fewer than 15 members, two calls with ["5"] both succeed and leave the
    membership as it was, followed by two entries 5.  The statement holds
    for both sketches. *)
Theorem addToGroup_twice (fmt : string) (d : Device) :
  wf_config (config d) ->
  numGroups (config d) < 15 ->
  let r1 := addToGroup fmt "5" d in
  let r2 := addToGroup fmt "5" (snd r1) in
  fst r1 = 5 /\ fst r2 = 5
  /\ membership (config (snd r2)) = membership (config d) ++ [5; 5].
Proof.
  intros Hwf Hn r1 r2.
  pose proof (wf_numGroups _ Hwf) as Hng. unfold is_uint8 in Hng.
  assert (H5 : 1 <= decimal_value "5" <= 255) by (change (decimal_value "5") with 5; lia).
  destruct (addToGroup_added fmt "5" d H5 ltac:(lia)) as (Ha & Hb & _).
  cbv zeta in Ha, Hb. fold r1 in Ha, Hb.
  change (decimal_value "5") with 5 in Ha, Hb.
  pose proof (wf_config_append (config d) 5 Hwf) as Hwf1. rewrite <- Hb in Hwf1.
  pose proof (membership_append (config d) 5 Hwf ltac:(lia) ltac:(unfold is_uint8; lia))
    as Hm1.
  rewrite <- Hb in Hm1.
  assert (Hn1 : numGroups (config (snd r1)) < 16).
  { rewrite Hb. simpl. unfold to_uint8. rewrite Z.mod_small; lia. }
  destruct (addToGroup_added fmt "5" (snd r1) H5 Hn1) as (Ha2 & Hb2 & _).
  cbv zeta in Ha2, Hb2. fold r2 in Ha2, Hb2.
  change (decimal_value "5") with 5 in Ha2, Hb2.
  pose proof (membership_append (config (snd r1)) 5 Hwf1 Hn1 ltac:(unfold is_uint8; lia))
    as Hm2.
  rewrite <- Hb2 in Hm2.
  split; [exact Ha|]. split; [exact Ha2|].
  rewrite Hm2, Hm1, <- app_assoc. reflexivity.
Qed.

Lemma addToGroup_twice_witness :
  wf_config (config scenario_device)
  /\ numGroups (config scenario_device) < 15
  /\ membership
       (config (snd (Fw.addToGroup "5" (snd (Fw.addToGroup "5" scenario_device)))))
     = [7; 5; 5].
Proof.
  split; [exact wf_scenario_config|]. split; [simpl; lia|].
  exact (proj2 (proj2 (addToGroup_twice Fw.USER_ID_FORMAT scenario_device
                         wf_scenario_config ltac:(simpl; lia)))).
Defined.

(** C7.  [setUserID] with the empty string returns -1 and only logs: the
    configuration, with the stored user ID, the EEPROM and the
    subscriptions are what they were.  The statement holds for both
    sketches. *)
Theorem setUserID_empty (fmt : string) (d : Device) :
  let r := setUserID fmt EmptyString d in
  fst r = -1
  /\ config (snd r) = config d
  /\ userID (config (snd r)) = userID (config d)
  /\ eeprom (snd r) = eeprom d
  /\ subscriptions (snd r) = subscriptions d
  /\ logged d (snd r).
Proof.
  cbv zeta. repeat split.
  unfold setUserID. simpl. apply logged_emit, logged_refl.
Qed.

Section UserID.

Variable fmt : string.

Lemma setUserID_array (old : list ascii) extra :
  length old = S MAX_USER_ID_LEN ->
  <[MAX_USER_ID_LEN := NUL]> (strncpy old extra MAX_USER_ID_LEN)
  = cells extra MAX_USER_ID_LEN ++ [NUL].
Proof.
  intros Hlen. rewrite strncpy_cells by lia.
  rewrite insert_app_r_alt by (rewrite length_cells; lia).
  rewrite length_cells, Nat.sub_diag.
  destruct (drop MAX_USER_ID_LEN old) as [|x [|y l]] eqn:E;
    apply (f_equal length) in E; rewrite length_drop, Hlen in E;
    unfold MAX_USER_ID_LEN in E; simpl in E; try lia.
  reflexivity.
Qed.

Lemma setUserID_stored extra d :
  wf_config (config d) -> extra <> EmptyString ->
  fst (setUserID fmt extra d) = 0
  /\ config (snd (setUserID fmt extra d))
     = set_userID (cells extra MAX_USER_ID_LEN ++ [NUL]) (config d)
  /\ eeprom (snd (setUserID fmt extra d)) = config (snd (setUserID fmt extra d))
  /\ subscriptions (snd (setUserID fmt extra d))
     = [c_str (cells extra MAX_USER_ID_LEN ++ [NUL])].
Proof.
  intros Hwf Hne. unfold setUserID. cbv zeta.
  replace (0 <? Z.of_nat (String.length extra)) with true
    by (symmetry; apply Z.ltb_lt; destruct extra; [congruence|simpl; lia]).
  rewrite (setUserID_array _ _ (wf_userID _ Hwf)).
  repeat split.
Qed.

Lemma c_str_length (a : list ascii) :
  NUL ∈ a -> (String.length (c_str a) < length a)%nat.
Proof.
  induction a as [|c a IH]; intros H.
  - inversion H.
  - simpl. destruct (Ascii.eqb c NUL) eqn:E; simpl; [lia|].
    apply Ascii.eqb_neq in E. apply elem_of_cons in H as [H|H]; [congruence|].
    specialize (IH H). lia.
Qed.

End UserID.

(** C8.  For every non-empty input string, [setUserID] returns 0, stores
    the first 8 characters of the input (all of it when it is shorter) as a
    NUL-terminated user ID, leaves the other fields alone, writes the
    configuration to the EEPROM and subscribes to the new user ID only.  The
    statement holds for both sketches. *)
Theorem setUserID_truncates (fmt extra : string) (d : Device) :
  wf_config (config d) ->
  extra <> EmptyString ->
  nul_free extra ->
  let r := setUserID fmt extra d in
  fst r = 0
  /\ c_str (userID (config (snd r))) = substring 0 MAX_USER_ID_LEN extra
  /\ userID (config (snd r)) !! MAX_USER_ID_LEN = Some NUL
  /\ length (userID (config (snd r))) = S MAX_USER_ID_LEN
  /\ version (config (snd r)) = version (config d)
  /\ numGroups (config (snd r)) = numGroups (config d)
  /\ deviceGroups (config (snd r)) = deviceGroups (config d)
  /\ eeprom (snd r) = config (snd r)
  /\ subscriptions (snd r) = [substring 0 MAX_USER_ID_LEN extra].
Proof.
  intros Hwf Hne Hnul r.
  destruct (setUserID_stored fmt extra d Hwf Hne) as (H0 & Hc & He & Hs).
  fold r in H0, Hc, He, Hs.
  pose proof (c_str_cells extra MAX_USER_ID_LEN [] Hnul) as Hstr.
  rewrite Hc, Hs, Hstr. unfold set_userID.
  cbn [userID version numGroups deviceGroups].
  repeat split; try assumption.
  - rewrite lookup_app_r by (rewrite length_cells; lia).
    rewrite length_cells. reflexivity.
  - rewrite length_app, length_cells. reflexivity.
  - rewrite He, Hc. reflexivity.
Qed.

Lemma setUserID_truncates_witness :
  wf_config (config scenario_device)
  /\ "abcdefghij"%string <> EmptyString
  /\ nul_free "abcdefghij"
  /\ fst (Fw.setUserID "abcdefghij" scenario_device) = 0
  /\ c_str (userID (config (snd (Fw.setUserID "abcdefghij" scenario_device))))
     = "abcdefgh"%string.
Proof.
  assert (Hne : "abcdefghij"%string <> EmptyString) by discriminate.
  assert (Hnul : nul_free "abcdefghij") by reflexivity.
  split; [exact wf_scenario_config|]. split; [exact Hne|]. split; [exact Hnul|].
  destruct (setUserID_truncates Fw.USER_ID_FORMAT "abcdefghij" scenario_device
              wf_scenario_config Hne Hnul) as (H0 & Hstr & _).
  split; [exact H0|exact Hstr].
Defined.

(** * The invariants of the configuration *)

Section Invariants.

Implicit Types (d : Device) (c : DeviceConfig_t).

Lemma memset_at_replicate x n : forall i (a : list ascii),
  (i + n <= length a)%nat ->
  memset_at i a x n = take i a ++ replicate n x ++ drop (i + n) a.
Proof.
  induction n as [|n IH]; intros i a Hlen; simpl.
  - rewrite Nat.add_0_r. symmetry. apply take_drop.
  - rewrite IH by (rewrite length_insert; lia).
    rewrite (take_S_r _ _ x) by (apply list_lookup_insert_eq; lia).
    rewrite take_insert_ge by lia.
    rewrite drop_insert_lt by lia.
    replace (S i + n)%nat with (i + S n)%nat by lia.
    rewrite <- app_assoc. reflexivity.
Qed.

Lemma zeroGroups_loop_replicate n : forall i (g : list Z),
  (i + n <= length g)%nat ->
  zeroGroups_loop g i n = take i g ++ replicate n 0 ++ drop (i + n) g.
Proof.
  induction n as [|n IH]; intros i g Hlen; simpl.
  - rewrite Nat.add_0_r. symmetry. apply take_drop.
  - rewrite IH by (rewrite length_insert; lia).
    rewrite (take_S_r _ _ 0) by (apply list_lookup_insert_eq; lia).
    rewrite take_insert_ge by lia.
    rewrite drop_insert_lt by lia.
    replace (S i + n)%nat with (i + S n)%nat by lia.
    rewrite <- app_assoc. reflexivity.
Qed.

Lemma zeroGroups_all (g : list Z) :
  length g = MAX_DEVICE_GROUPS ->
  zeroGroups_loop g 0 MAX_DEVICE_GROUPS = replicate MAX_DEVICE_GROUPS 0.
Proof.
  intros Hlen. rewrite zeroGroups_loop_replicate by lia.
  rewrite drop_ge by lia. rewrite app_nil_r. reflexivity.
Qed.

Lemma memset_all (a : list ascii) :
  length a = S MAX_USER_ID_LEN ->
  memset a NUL (S MAX_USER_ID_LEN) = replicate (S MAX_USER_ID_LEN) NUL.
Proof.
  intros Hlen. unfold memset. rewrite memset_at_replicate by lia.
  rewrite drop_ge by lia. rewrite app_nil_r. reflexivity.
Qed.

Lemma config_printConfig fmt d : config (printConfig fmt d) = config d.
Proof. reflexivity. Qed.

Lemma config_subscribe p d : config (Particle.subscribe p d) = config d.
Proof. reflexivity. Qed.

Lemma config_emit r d : config (Log.emit r d) = config d.
Proof. reflexivity. Qed.

Lemma config_set_config c d : config (set_config c d) = c.
Proof. reflexivity. Qed.

Lemma config_get d : config (EEPROM.get d) = eeprom d.
Proof. reflexivity. Qed.

Lemma eeprom_emit r d : eeprom (Log.emit r d) = eeprom d.
Proof. reflexivity. Qed.

Lemma eeprom_function name d : eeprom (Particle.function name d) = eeprom d.
Proof. reflexivity. Qed.

Lemma eeprom_control b d : eeprom (RGB.control b d) = eeprom d.
Proof. reflexivity. Qed.

(** The configuration after default initialisation, in each sketch. *)
Lemma fw_setup_defaults L d :
  wf_config (eeprom d) -> version (eeprom d) = 255 ->
  config (Fw.setup L d)
  = mkConfig EEPROM_VERSION (replicate (S MAX_USER_ID_LEN) NUL) 0
      (replicate MAX_DEVICE_GROUPS 0).
Proof.
  intros Hwf Hv. unfold Fw.setup, Fw.printConfig. cbv zeta.
  rewrite config_subscribe, config_printConfig.
  unfold Log.info, Log.trace.
  rewrite !config_emit, config_get, !eeprom_emit, ?eeprom_function, Hv.
  change (255 =? 255) with true. cbv iota.
  rewrite config_set_config, ?config_emit, ?config_get, ?eeprom_emit,
    ?eeprom_function.
  unfold set_deviceGroups, set_numGroups, set_userID, set_version.
  cbn [version userID numGroups deviceGroups].
  rewrite (memset_all _ (wf_userID _ Hwf)).
  rewrite (zeroGroups_all _ (wf_deviceGroups_len _ Hwf)).
  reflexivity.
Qed.

Lemma wp_readOrInitEEPROM_defaults L d :
  wf_config (eeprom d) -> version (eeprom d) = 255 ->
  config (WhitePaper.readOrInitEEPROM L d)
  = mkConfig EEPROM_VERSION
      (cells "000000" 7 ++ drop 7 (userID (eeprom d))) 0
      (replicate MAX_DEVICE_GROUPS 0).
Proof.
  intros Hwf Hv. unfold WhitePaper.readOrInitEEPROM, WhitePaper.printConfig.
  cbv zeta.
  rewrite config_printConfig.
  unfold Log.info, Log.trace.
  rewrite !config_emit, config_get, !eeprom_emit, ?eeprom_function, Hv.
  change (255 =? 255) with true. cbv iota.
  rewrite config_set_config, ?config_emit, ?config_get, ?eeprom_emit,
    ?eeprom_function.
  unfold set_deviceGroups, set_numGroups, set_userID, set_version.
  cbn [version userID numGroups deviceGroups].
  unfold strcpy.
  rewrite strncpy_cells
    by (rewrite (wf_userID _ Hwf); unfold MAX_USER_ID_LEN; simpl; lia).
  rewrite (zeroGroups_all _ (wf_deviceGroups_len _ Hwf)).
  reflexivity.
Qed.

Lemma wp_setup_config L d :
  config (WhitePaper.setup L d)
  = config (WhitePaper.readOrInitEEPROM L
              (RGB.control true
                 (Particle.function "setUserID"
                    (Particle.function "clearGroups"
                       (Particle.function "addToGroup" d))))).
Proof.
  unfold WhitePaper.setup. cbv zeta. rewrite config_subscribe. reflexivity.
Qed.

Lemma Forall_replicate_uint8 n x : is_uint8 x -> Forall is_uint8 (replicate n x).
Proof. intros Hx. induction n; simpl; constructor; assumption. Qed.

Lemma config_ok_fw_defaults :
  config_ok (mkConfig EEPROM_VERSION (replicate (S MAX_USER_ID_LEN) NUL) 0
               (replicate MAX_DEVICE_GROUPS 0)).
Proof.
  split; constructor; cbn [version userID numGroups deviceGroups].
  - unfold is_uint8, EEPROM_VERSION. lia.
  - apply length_replicate.
  - unfold is_uint8. lia.
  - apply length_replicate.
  - apply Forall_replicate_uint8. unfold is_uint8. lia.
  - unfold MAX_DEVICE_GROUPS. simpl. lia.
  - change (replicate (S MAX_USER_ID_LEN) NUL)
      with (NUL :: replicate MAX_USER_ID_LEN NUL). constructor.
  - change (c_str (replicate (S MAX_USER_ID_LEN) NUL)) with EmptyString.
    simpl. lia.
Qed.

Lemma config_ok_wp_defaults (old : list ascii) :
  length old = S MAX_USER_ID_LEN ->
  config_ok (mkConfig EEPROM_VERSION (cells "000000" 7 ++ drop 7 old) 0
               (replicate MAX_DEVICE_GROUPS 0)).
Proof.
  intros Hlen.
  assert (Hin : NUL ∈ cells "000000" 7 ++ drop 7 old).
  { apply elem_of_app. left. simpl. repeat (constructor; try fail). }
  assert (Hl : length (cells "000000" 7 ++ drop 7 old) = S MAX_USER_ID_LEN).
  { rewrite length_app, length_cells, length_drop, Hlen. reflexivity. }
  split; constructor; unfold is_uint8; cbn [version userID numGroups deviceGroups];
    try assumption.
  - unfold EEPROM_VERSION. lia.
  - lia.
  - reflexivity.
  - apply Forall_replicate_uint8. unfold is_uint8. lia.
  - simpl. lia.
  - pose proof (c_str_length _ Hin) as H. rewrite Hl in H.
    unfold MAX_USER_ID_LEN in *. lia.
Qed.

(** The administrative functions keep the invariants. *)
Lemma config_ok_addToGroup fmt extra d :
  config_ok (config d) -> config_ok (config (snd (addToGroup fmt extra d))).
Proof.
  intros [Hwf Hinv].
  pose proof (wf_numGroups _ Hwf) as Hng. unfold is_uint8 in Hng.
  destruct (Z_le_dec 1 (decimal_value extra)) as [H1|H1];
    [destruct (Z_le_dec (decimal_value extra) 255) as [H2|H2]|].
  - destruct (Z_lt_dec (numGroups (config d)) 16) as [H3|H3].
    + destruct (addToGroup_added fmt extra d (conj H1 H2) H3) as (_ & Hc & _).
      cbv zeta in Hc. rewrite Hc. split.
      * apply wf_config_append. assumption.
      * destruct Hinv as [I1 I2 I3]. constructor; try assumption.
        simpl. unfold to_uint8, MAX_DEVICE_GROUPS. rewrite Z.mod_small; lia.
    + rewrite (addToGroup_full fmt extra d (conj H1 H2) H3). split; assumption.
  - rewrite addToGroup_invalid by lia. split; assumption.
  - rewrite addToGroup_invalid by lia. split; assumption.
Qed.

Lemma config_ok_clearGroups fmt extra d :
  config_ok (config d) -> config_ok (config (snd (clearGroups fmt extra d))).
Proof.
  intros [[W1 W2 W3 W4 W5] [I1 I2 I3]].
  change (config (snd (clearGroups fmt extra d)))
    with (set_numGroups 0 (config d)).
  split; constructor; simpl; try assumption; unfold is_uint8; lia.
Qed.

Lemma config_ok_setUserID fmt extra d :
  config_ok (config d) -> config_ok (config (snd (setUserID fmt extra d))).
Proof.
  intros [Hwf Hinv].
  destruct (string_dec extra EmptyString) as [->|Hne].
  - split; assumption.
  - destruct (setUserID_stored fmt extra d Hwf Hne) as (_ & Hc & _).
    rewrite Hc.
    assert (Hin : NUL ∈ cells extra MAX_USER_ID_LEN ++ [NUL]).
    { apply elem_of_app. right. constructor. }
    assert (Hl : length (cells extra MAX_USER_ID_LEN ++ [NUL]) = S MAX_USER_ID_LEN).
    { rewrite length_app, length_cells. unfold MAX_USER_ID_LEN. reflexivity. }
    destruct Hwf as [W1 W2 W3 W4 W5]. destruct Hinv as [I1 I2 I3].
    unfold set_userID.
    split; constructor; cbn [version userID numGroups deviceGroups]; try assumption.
    pose proof (c_str_length _ Hin) as H. rewrite Hl in H.
    unfold MAX_USER_ID_LEN in *. lia.
Qed.

(** [parseMessage] does not write to the configuration. *)
Lemma fw_config_runFunction C data d : config (Fw.runFunction C data d) = config d.
Proof.
  unfold Fw.runFunction.
  repeat match goal with
         | |- context [if ?b then _ else _] => destruct b
         end; reflexivity.
Qed.

Lemma wp_config_runFunction C data d :
  config (WhitePaper.runFunction C data d) = config d.
Proof.
  unfold WhitePaper.runFunction.
  repeat match goal with
         | |- context [if ?b then _ else _] => destruct b
         end; reflexivity.
Qed.

Lemma fw_config_parseMessage N event data d :
  config (Fw.parseMessage N event data d) = config d.
Proof.
  unfold Fw.parseMessage. cbv zeta.
  repeat match goal with
         | |- context [match strtok ?s ?dl with _ => _ end] =>
             destruct (strtok s dl) as [[? ?]|]
         | |- context [if ?b then _ else _] => destruct b
         end;
    rewrite ?fw_config_runFunction; reflexivity.
Qed.

Lemma wp_config_parseMessage event data d :
  config (WhitePaper.parseMessage event data d) = config d.
Proof.
  unfold WhitePaper.parseMessage. cbv zeta.
  repeat match goal with
         | |- context [match strtok ?s ?dl with _ => _ end] =>
             destruct (strtok s dl) as [[? ?]|]
         | |- context [if ?b then _ else _] => destruct b
         end;
    rewrite ?wp_config_runFunction; reflexivity.
Qed.

End Invariants.

(** C9.  The invariants [numGroups <= 16] and "the user ID is
    NUL-terminated and at most 8 characters long" hold after the default
    initialisation of either sketch, and [addToGroup], [clearGroups],
    [setUserID] and the [parseMessage] of either sketch map a configuration
    that satisfies them to one that satisfies them. *)
Theorem config_invariants_preserved :
  (forall L d, wf_config (eeprom d) -> version (eeprom d) = 255 ->
     config_ok (config (Fw.setup L d)))
  /\ (forall L d, wf_config (eeprom d) -> version (eeprom d) = 255 ->
        config_ok (config (WhitePaper.readOrInitEEPROM L d))
        /\ config_ok (config (WhitePaper.setup L d)))
  /\ (forall fmt extra d, config_ok (config d) ->
        config_ok (config (snd (addToGroup fmt extra d)))
        /\ config_ok (config (snd (clearGroups fmt extra d)))
        /\ config_ok (config (snd (setUserID fmt extra d))))
  /\ (forall N event data d, config_ok (config d) ->
        config_ok (config (Fw.parseMessage N event data d)))
  /\ (forall event data d, config_ok (config d) ->
        config_ok (config (WhitePaper.parseMessage event data d))).
Proof.
  split; [|split; [|split; [|split]]].
  - intros L d Hwf Hv. rewrite fw_setup_defaults by assumption.
    apply config_ok_fw_defaults.
  - intros L d Hwf Hv. split.
    + rewrite wp_readOrInitEEPROM_defaults by assumption.
      apply config_ok_wp_defaults. apply (wf_userID _ Hwf).
    + rewrite wp_setup_config.
      rewrite wp_readOrInitEEPROM_defaults by assumption.
      apply config_ok_wp_defaults. apply (wf_userID _ Hwf).
  - intros fmt extra d Hok. split; [|split].
    + apply config_ok_addToGroup; assumption.
    + apply config_ok_clearGroups; assumption.
    + apply config_ok_setUserID; assumption.
  - intros N event data d Hok. rewrite fw_config_parseMessage. assumption.
  - intros event data d Hok. rewrite wp_config_parseMessage. assumption.
Qed.

Lemma config_invariants_preserved_witness :
  wf_config (eeprom factory_device)
  /\ version (eeprom factory_device) = 255
  /\ config_ok (config fw_booted)
  /\ config_ok (config whitepaper_booted)
  /\ config_ok (config (snd (Fw.addToGroup "7" fw_booted)))
  /\ config_ok (config (Fw.parseMessage 64 "123ABC/f1/7" "on" fw_booted)).
Proof.
  destruct config_invariants_preserved as (Hfw & Hwp & Hmut & Hparse & _).
  pose proof (Hfw 2047 factory_device wf_erased_config eq_refl) as H1.
  pose proof (proj2 (Hwp 2047 factory_device wf_erased_config eq_refl)) as H2.
  split; [exact wf_erased_config|]. split; [reflexivity|].
  split; [exact H1|]. split; [exact H2|].
  split.
  - exact (proj1 (Hmut Fw.USER_ID_FORMAT "7"%string fw_booted H1)).
  - exact (Hparse 64%nat "123ABC/f1/7"%string "on"%string fw_booted H1).
Defined.

(** * Memberships built by [addToGroup] hold no 0 *)

Section GroupsValid.

Variable fmt : string.

Lemma groups_valid_no_zero c : groups_valid c -> 0 ∉ membership c.
Proof.
  unfold groups_valid. rewrite Forall_forall. intros H Hin.
  specialize (H 0 Hin). lia.
Qed.

Lemma groups_valid_empty c : numGroups c = 0 -> groups_valid c.
Proof.
  intros H. unfold groups_valid, membership. rewrite H. simpl. constructor.
Qed.

Lemma groups_valid_addToGroup extra d :
  config_ok (config d) -> groups_valid (config d) ->
  groups_valid (config (snd (addToGroup fmt extra d))).
Proof.
  intros [Hwf Hinv] Hval.
  destruct (Z_le_dec 1 (decimal_value extra)) as [H1|H1];
    [destruct (Z_le_dec (decimal_value extra) 255) as [H2|H2]|].
  - destruct (Z_lt_dec (numGroups (config d)) 16) as [H3|H3].
    + destruct (addToGroup_added fmt extra d (conj H1 H2) H3) as (_ & Hc & _).
      cbv zeta in Hc. rewrite Hc. unfold groups_valid.
      rewrite membership_append by (assumption || (unfold is_uint8; lia)).
      apply Forall_app. split; [exact Hval|]. constructor; [lia|constructor].
    + rewrite (addToGroup_full fmt extra d (conj H1 H2) H3). exact Hval.
  - rewrite addToGroup_invalid by lia. exact Hval.
  - rewrite addToGroup_invalid by lia. exact Hval.
Qed.

Lemma groups_valid_clearGroups extra d :
  groups_valid (config (snd (clearGroups fmt extra d))).
Proof. apply groups_valid_empty. reflexivity. Qed.

Lemma groups_valid_setUserID extra d :
  wf_config (config d) -> groups_valid (config d) ->
  groups_valid (config (snd (setUserID fmt extra d))).
Proof.
  intros Hwf Hval. destruct (string_dec extra EmptyString) as [->|Hne].
  - exact Hval.
  - destruct (setUserID_stored fmt extra d Hwf Hne) as (_ & Hc & _).
    rewrite Hc. exact Hval.
Qed.

End GroupsValid.

(** * The white-paper sketch on concrete events *)

Section WhitePaperRuns.

Lemma wp_runFunction_emit C data d :
  exists r, log (WhitePaper.runFunction C data d) = log d ++ [r]
            /\ (log_format r = "red() called with data: %s"
                \/ log_format r = "green() called with data: %s"
                \/ log_format r = "blue() called with data: %s"
                \/ log_format r = "Unknown function received: %s")%string.
Proof.
  unfold WhitePaper.runFunction, WhitePaper.red, WhitePaper.green,
    WhitePaper.blue, Log.info, Log.warn.
  repeat match goal with
         | |- context [if ?b then _ else _] => destruct b
         end;
    eexists; (split; [reflexivity|]); simpl; tauto.
Qed.

(** A run whose last log entry is the trace of the event received did not
    dispatch. *)
Lemma wp_only_received_not_dispatched C data d d1 args :
  ~ WhitePaper.dispatches C data d (Log.trace EVENT_RECEIVED_FORMAT args d1).
Proof.
  intros (d0 & _ & H).
  destruct (wp_runFunction_emit C data d0) as (r & Hr & Hfmt).
  apply (f_equal log) in H. rewrite Hr in H.
  unfold Log.trace, Log.emit in H. simpl in H.
  apply app_inj_tail in H as [_ <-]. simpl in Hfmt.
  destruct Hfmt as [?|[?|[?|?]]]; discriminate.
Qed.

Lemma wf_scenario_device : wf_device scenario_device.
Proof. constructor; [exact wf_scenario_config | reflexivity]. Defined.

Lemma inv_scenario_device : config_inv (config scenario_device).
Proof.
  constructor.
  - vm_compute. discriminate.
  - vm_compute. repeat (constructor; try fail).
  - vm_compute. lia.
Defined.

End WhitePaperRuns.

Local Ltac concrete_segment :=
  constructor; [discriminate | reflexivity | reflexivity].

Local Ltac wp_dropped event payload :=
  replace (WhitePaper.parseMessage event payload whitepaper_booted)
    with (Log.trace EVENT_RECEIVED_FORMAT [AStr event; AStr payload]
            whitepaper_booted) by (vm_compute; reflexivity);
  apply wp_only_received_not_dispatched.

Local Ltac wp_broadcast_run :=
  eexists (Log.info "Group parsed: %s" [ANull]
             (Log.info "All groups addressed!" [] (parsed _ _ _ _ _)));
  split; [do 2 apply logged_emit; apply logged_parsed | vm_compute; reflexivity].

(** C1.  In [Fw], for every device whose configuration satisfies its
    invariants ([numGroups <= 16], NUL-terminated user ID) and whose
    configured user ID is [U], and
    every topic [U/C/S] that fits the event-name buffer, with [S] not the
    device's own ID: [parseMessage] dispatches [C] exactly when the integer
    value of [S] is among the first [numGroups] entries of [deviceGroups],
    and runs no handler when it is not.  The white-paper sketch does not
    (code defect): after [addToGroup("7")] and [clearGroups()] the
    membership is empty, yet the event ["000000/red/7"], delivered with the
    same text as payload, is dispatched, because the scan runs over all 16
    cells of [deviceGroups] and meets the 7 that [clearGroups] left in
    cell 0. *)
Theorem group_selector_dispatch :
  (forall (N : nat) (d : Device) (U C S data : string),
     wf_device d -> config_inv (config d) ->
     segment U -> segment C -> segment S ->
     U = c_str (userID (config d)) ->
     S <> deviceID d ->
     (String.length (U ++ "/" ++ C ++ "/" ++ S) < N)%nat ->
     let d' := Fw.parseMessage N (U ++ "/" ++ C ++ "/" ++ S) data d in
     (Fw.dispatches C data d d' <-> decimal_value S ∈ membership (config d))
     /\ (decimal_value S ∉ membership (config d) -> Fw.no_handler d d'))
  /\ (let d := snd (WhitePaper.clearGroups EmptyString
                      (snd (WhitePaper.addToGroup "7" whitepaper_booted))) in
      let topic := "000000/red/7"%string in
      c_str (userID (config d)) = "000000"%string
      /\ "7"%string <> deviceID d
      /\ decimal_value "7" = 7
      /\ membership (config d) = []
      /\ WhitePaper.dispatches "red" topic d (WhitePaper.parseMessage topic topic d)
      /\ rgb_color (WhitePaper.parseMessage topic topic d) = (255, 0, 0)).
Proof.
  split.
  - intros N d U C S data Hwf _. exact (fw_group_selector N d U C S data Hwf).
  - cbv zeta. split; [vm_compute; reflexivity|].
    split; [vm_compute; discriminate|].
    split; [reflexivity|].
    split; [vm_compute; reflexivity|].
    split; [|vm_compute; reflexivity].
    eexists (Log.info "Group parsed: %s" [AStr "7"]
               (parsed "000000/red/7" "000000/red/7" "000000" "red" _)).
    split; [apply logged_emit, logged_parsed|].
    vm_compute. reflexivity.
Qed.

Lemma group_selector_dispatch_witness :
  wf_device scenario_device
  /\ config_inv (config scenario_device)
  /\ segment "123ABC" /\ segment "f1" /\ segment "7"
  /\ "123ABC"%string = c_str (userID (config scenario_device))
  /\ "7"%string <> deviceID scenario_device
  /\ (String.length "123ABC/f1/7" < 64)%nat
  /\ Fw.dispatches "f1" "on" scenario_device
       (Fw.parseMessage 64 "123ABC/f1/7" "on" scenario_device).
Proof.
  assert (HU : segment "123ABC") by concrete_segment.
  assert (HC : segment "f1") by concrete_segment.
  assert (HS : segment "7") by concrete_segment.
  assert (Hid : "7"%string <> deviceID scenario_device) by discriminate.
  assert (Hlen : (String.length "123ABC/f1/7" < 64)%nat) by (simpl; lia).
  split; [exact wf_scenario_device|]. split; [exact inv_scenario_device|].
  repeat (split; [first [assumption | reflexivity]|]).
  apply (proj1 group_selector_dispatch 64%nat scenario_device
           "123ABC"%string "f1"%string "7"%string "on"%string
           wf_scenario_device inv_scenario_device HU HC HS eq_refl Hid Hlen).
  vm_compute. constructor.
Defined.

(** C2.  In [Fw] the dispatch decision is made from the event name, the
    configuration and the device ID: for every event there is one decision
    (a command, or none) such that, whatever the payload, the command chain
    runs on that command with the payload as argument, or no handler runs.
    The white-paper sketch does not (code defect): two deliveries of the
    event ["000000/red"], with the payloads ["000000/red"] and
    ["000000/blue"], run different handlers and a third, with the payload
    ["on"], runs none, because [parseMessage] tokenises its copy of the
    payload, not of the event name. *)
Theorem payload_not_examined :
  (forall (N : nat) (event : string) (d : Device),
     exists decision : option string,
       forall data,
         match decision with
         | Some command =>
             Fw.dispatches command data d (Fw.parseMessage N event data d)
         | None => Fw.no_handler d (Fw.parseMessage N event data d)
         end)
  /\ (let d := whitepaper_booted in
      let topic := "000000/red"%string in
      WhitePaper.dispatches "red" "000000/red" d
        (WhitePaper.parseMessage topic "000000/red" d)
      /\ rgb_color (WhitePaper.parseMessage topic "000000/red" d) = (255, 0, 0)
      /\ WhitePaper.dispatches "blue" "000000/blue" d
           (WhitePaper.parseMessage topic "000000/blue" d)
      /\ rgb_color (WhitePaper.parseMessage topic "000000/blue" d) = (0, 0, 255)
      /\ ~ WhitePaper.dispatches "red" "on" d
             (WhitePaper.parseMessage topic "on" d)).
Proof.
  split.
  - intros N event d. apply fw_decision_ignores_payload.
  - cbv zeta. split; [|split; [vm_compute; reflexivity|split; [|split]]].
    + wp_broadcast_run.
    + wp_broadcast_run.
    + vm_compute. reflexivity.
    + wp_dropped "000000/red"%string "on"%string.
Qed.

(** C3.  In [Fw], for every device whose configuration satisfies its
    invariants ([numGroups <= 16], NUL-terminated user ID), whose
    configured user ID is [U] and
    whose membership holds no 0 (as every membership built by [addToGroup]
    does), and every topic [U/C/S] that fits the event-name buffer with [S]
    non-numeric and not the device's own ID: [S] parses to 0 and nothing is
    dispatched.  The white-paper sketch does not (code defect): with the
    membership [5], built by [addToGroup("5")], the event
    ["000000/red/abc"], delivered with the same text as payload, is
    dispatched, because the scan runs over all 16 cells of [deviceGroups]
    and the unused cells hold 0. *)
Theorem non_numeric_selector_ignored :
  (forall (N : nat) (d : Device) (U C S data : string),
     wf_device d -> config_inv (config d) ->
     segment U -> segment C -> segment S ->
     U = c_str (userID (config d)) ->
     S <> deviceID d ->
     numeric S = false ->
     0 ∉ membership (config d) ->
     (String.length (U ++ "/" ++ C ++ "/" ++ S) < N)%nat ->
     let d' := Fw.parseMessage N (U ++ "/" ++ C ++ "/" ++ S) data d in
     strtol S = 0 /\ ~ Fw.dispatches C data d d' /\ Fw.no_handler d d')
  /\ (forall fmt extra d,
        config_ok (config d) -> groups_valid (config d) ->
        groups_valid (config (snd (addToGroup fmt extra d)))
        /\ 0 ∉ membership (config (snd (addToGroup fmt extra d))))
  /\ (let d := snd (WhitePaper.addToGroup "5" whitepaper_booted) in
      let topic := "000000/red/abc"%string in
      c_str (userID (config d)) = "000000"%string
      /\ "abc"%string <> deviceID d
      /\ numeric "abc" = false
      /\ strtol "abc" = 0
      /\ membership (config d) = [5]
      /\ WhitePaper.dispatches "red" topic d (WhitePaper.parseMessage topic topic d)
      /\ rgb_color (WhitePaper.parseMessage topic topic d) = (255, 0, 0)).
Proof.
  split; [|split].
  - intros N d U C S data Hwf _.
    exact (fw_non_numeric_selector N d U C S data Hwf).
  - intros fmt extra d Hok Hval.
    pose proof (groups_valid_addToGroup fmt extra d Hok Hval) as H.
    split; [exact H|]. apply groups_valid_no_zero. exact H.
  - cbv zeta. split; [vm_compute; reflexivity|].
    split; [vm_compute; discriminate|].
    split; [reflexivity|]. split; [reflexivity|].
    split; [vm_compute; reflexivity|].
    split; [|vm_compute; reflexivity].
    eexists (Log.info "Group parsed: %s" [AStr "abc"]
               (parsed "000000/red/abc" "000000/red/abc" "000000" "red" _)).
    split; [apply logged_emit, logged_parsed|].
    vm_compute. reflexivity.
Qed.

Lemma non_numeric_selector_ignored_witness :
  wf_device scenario_device
  /\ config_inv (config scenario_device)
  /\ segment "123ABC" /\ segment "f1" /\ segment "abc"
  /\ "123ABC"%string = c_str (userID (config scenario_device))
  /\ "abc"%string <> deviceID scenario_device
  /\ numeric "abc" = false
  /\ (0 ∉ membership (config scenario_device))
  /\ (String.length "123ABC/f1/abc" < 64)%nat
  /\ Fw.no_handler scenario_device
       (Fw.parseMessage 64 "123ABC/f1/abc" "on" scenario_device).
Proof.
  assert (HU : segment "123ABC") by concrete_segment.
  assert (HC : segment "f1") by concrete_segment.
  assert (HS : segment "abc") by concrete_segment.
  assert (Hid : "abc"%string <> deviceID scenario_device) by discriminate.
  assert (H0 : 0 ∉ membership (config scenario_device)).
  { vm_compute. intros H. inversion H as [|? ? ? H']; subst. inversion H'. }
  assert (Hlen : (String.length "123ABC/f1/abc" < 64)%nat) by (simpl; lia).
  split; [exact wf_scenario_device|]. split; [exact inv_scenario_device|].
  repeat (split; [first [assumption | reflexivity]|]).
  exact (proj2 (proj2 (proj1 non_numeric_selector_ignored 64%nat scenario_device
                         "123ABC"%string "f1"%string "abc"%string "on"%string
                         wf_scenario_device inv_scenario_device
                         HU HC HS eq_refl Hid eq_refl H0 Hlen))).
Defined.

(** C4.  In [Fw], for every device whose configuration satisfies its
    invariants ([numGroups <= 16], NUL-terminated user ID) and whose
    configured user ID is [U], and
    every command [C]: the topic [U/C], with no selector, is dispatched,
    and so is the topic [U/C/S] with [S] the device's own ID, whatever the
    membership; the selector is compared with the device ID before its
    integer value is compared with any group (both for topics that fit the
    event-name buffer).  The white-paper sketch does not (code defect): the
    events ["000000/red"] and ["000000/red/<device ID>"], delivered with
    the payload ["on"], are not dispatched and no handler runs, because the
    text that [parseMessage] tokenises is the payload; an event of any name
    whose payload is ["000000/red"] is dispatched. *)
Theorem broadcast_and_direct_addressing :
  (forall (N : nat) (d : Device) (U C data : string),
     wf_device d -> config_inv (config d) -> segment U -> segment C ->
     U = c_str (userID (config d)) ->
     ((String.length (U ++ "/" ++ C) < N)%nat ->
      Fw.dispatches C data d (Fw.parseMessage N (U ++ "/" ++ C) data d))
     /\ (segment (deviceID d) ->
         (String.length (U ++ "/" ++ C ++ "/" ++ deviceID d) < N)%nat ->
         Fw.dispatches C data d
           (Fw.parseMessage N (U ++ "/" ++ C ++ "/" ++ deviceID d) data d)))
  /\ (let d := whitepaper_booted in
      let direct := ("000000/red/" ++ deviceID d)%string in
      c_str (userID (config d)) = "000000"%string
      /\ ~ WhitePaper.dispatches "red" "on" d
             (WhitePaper.parseMessage "000000/red" "on" d)
      /\ WhitePaper.no_handler d (WhitePaper.parseMessage "000000/red" "on" d)
      /\ ~ WhitePaper.dispatches "red" "on" d
             (WhitePaper.parseMessage direct "on" d)
      /\ WhitePaper.no_handler d (WhitePaper.parseMessage direct "on" d)
      /\ WhitePaper.dispatches "red" "000000/red" d
           (WhitePaper.parseMessage "000000" "000000/red" d)).
Proof.
  split.
  - intros N d U C data Hwf _ HU HC HUeq. split.
    + intros Hlen. apply fw_broadcast; assumption.
    + intros Hid Hlen. apply fw_direct; assumption.
  - cbv zeta. split; [vm_compute; reflexivity|].
    split; [|split; [|split; [|split]]].
    + wp_dropped "000000/red"%string "on"%string.
    + eexists [_]. split; vm_compute; reflexivity.
    + match goal with
      | |- ~ WhitePaper.dispatches _ _ _ (WhitePaper.parseMessage ?e _ _) =>
          wp_dropped e "on"%string
      end.
    + eexists [_]. split; vm_compute; reflexivity.
    + wp_broadcast_run.
Qed.

Lemma broadcast_and_direct_addressing_witness :
  wf_device scenario_device
  /\ config_inv (config scenario_device)
  /\ segment "123ABC" /\ segment "f1"
  /\ "123ABC"%string = c_str (userID (config scenario_device))
  /\ segment (deviceID scenario_device)
  /\ (String.length "123ABC/f1" < 64)%nat
  /\ (String.length "123ABC/f1/dev42" < 64)%nat
  /\ Fw.dispatches "f1" "on" scenario_device
       (Fw.parseMessage 64 "123ABC/f1" "on" scenario_device)
  /\ Fw.dispatches "f1" "on" scenario_device
       (Fw.parseMessage 64 "123ABC/f1/dev42" "on" scenario_device).
Proof.
  assert (HU : segment "123ABC") by concrete_segment.
  assert (HC : segment "f1") by concrete_segment.
  assert (Hid : segment (deviceID scenario_device)) by concrete_segment.
  assert (H2 : (String.length "123ABC/f1" < 64)%nat) by (simpl; lia).
  assert (H3 : (String.length "123ABC/f1/dev42" < 64)%nat) by (simpl; lia).
  split; [exact wf_scenario_device|]. split; [exact inv_scenario_device|].
  repeat (split; [first [assumption | reflexivity]|]).
  destruct (proj1 broadcast_and_direct_addressing 64%nat scenario_device
              "123ABC"%string "f1"%string "on"%string
              wf_scenario_device inv_scenario_device HU HC eq_refl) as [Hb Hd].
  split; [exact (Hb H2)|exact (Hd Hid H3)].
Defined.

(** C10.  [strtok] never returns an empty token, and in [Fw], for every
    device whose configuration satisfies its invariants ([numGroups <= 16],
    NUL-terminated user ID) and whose configured user ID [U] is not empty,
    and every command [C],
    the topic [U//C] (when it fits the event-name buffer) is tokenised into
    the user segment [U] and the command segment [C], with no selector, and
    [C] is dispatched to all groups.  The white-paper sketch does not (code
    defect): the event ["000000//red"], delivered with the payload ["on"],
    is not dispatched and no handler runs, because the text that
    [parseMessage] tokenises is the payload; an event of any name whose
    payload is ["000000//red"] is tokenised that way and dispatched. *)
Theorem double_slash_is_one_delimiter :
  (forall s delim tok rest,
     strtok s delim = Some (tok, rest) -> tok <> EmptyString)
  /\ (forall (N : nat) (d : Device) (U C data : string),
        wf_device d -> config_inv (config d) -> segment U -> segment C ->
        U = c_str (userID (config d)) ->
        (String.length (U ++ "//" ++ C) < N)%nat ->
        strtok (U ++ "//" ++ C) "/" = Some (U, ("/" ++ C)%string)
        /\ strtok ("/" ++ C) "/" = Some (C, EmptyString)
        /\ strtok EmptyString "/" = None
        /\ Fw.parseMessage N (U ++ "//" ++ C) data d
           = Fw.runFunction C data
               (Log.info "Group parsed: %s" [ANull]
                  (Log.info "All groups addressed!" []
                     (parsed (U ++ "//" ++ C) data U C d)))
        /\ Fw.dispatches C data d (Fw.parseMessage N (U ++ "//" ++ C) data d))
  /\ (let d := whitepaper_booted in
      c_str (userID (config d)) = "000000"%string
      /\ ~ WhitePaper.dispatches "red" "on" d
             (WhitePaper.parseMessage "000000//red" "on" d)
      /\ WhitePaper.no_handler d (WhitePaper.parseMessage "000000//red" "on" d)
      /\ WhitePaper.dispatches "red" "000000//red" d
           (WhitePaper.parseMessage "000000" "000000//red" d)).
Proof.
  split; [|split].
  - intros s delim tok rest H. exact (proj1 (strtok_token _ _ _ _ H)).
  - intros N d U C data Hwf _ HU HC HUeq Hlen.
    destruct (fw_double_slash N d U C data Hwf HU HC HUeq Hlen)
      as (H1 & H2 & H3 & H4).
    repeat split; assumption.
  - cbv zeta. split; [vm_compute; reflexivity|]. split; [|split].
    + wp_dropped "000000//red"%string "on"%string.
    + eexists [_]. split; vm_compute; reflexivity.
    + wp_broadcast_run.
Qed.

Lemma double_slash_is_one_delimiter_witness :
  wf_device scenario_device
  /\ config_inv (config scenario_device)
  /\ segment "123ABC" /\ segment "f1"
  /\ "123ABC"%string = c_str (userID (config scenario_device))
  /\ (String.length "123ABC//f1" < 64)%nat
  /\ strtok "123ABC//f1" "/" = Some ("123ABC"%string, "/f1"%string)
  /\ Fw.dispatches "f1" "on" scenario_device
       (Fw.parseMessage 64 "123ABC//f1" "on" scenario_device).
Proof.
  assert (HU : segment "123ABC") by concrete_segment.
  assert (HC : segment "f1") by concrete_segment.
  assert (Hlen : (String.length "123ABC//f1" < 64)%nat) by (simpl; lia).
  split; [exact wf_scenario_device|]. split; [exact inv_scenario_device|].
  repeat (split; [first [assumption | reflexivity]|]).
  destruct (proj1 (proj2 double_slash_is_one_delimiter) 64%nat scenario_device
              "123ABC"%string "f1"%string "on"%string
              wf_scenario_device inv_scenario_device HU HC eq_refl Hlen)
    as (H1 & _ & _ & _ & H5).
  exact H5.
Defined.

(** * Further runs of [Fw] *)

Section FwRuns.

(** The rest of the specification's scenario: group 8 is not a group of
    the device. *)
Example scenario_other_group :
  Fw.no_handler scenario_device
    (Fw.parseMessage 64 "123ABC/f1/8" "on" scenario_device)
  /\ ~ Fw.dispatches "f1" "on" scenario_device
         (Fw.parseMessage 64 "123ABC/f1/8" "on" scenario_device).
Proof.
  assert (Hout : decimal_value "8" ∉ membership (config scenario_device)).
  { vm_compute. intros H. inversion H as [|? ? ? H']; subst. inversion H'. }
  destruct (fw_group_selector 64 scenario_device "123ABC" "f1" "8" "on")
    as [Hiff Hno]; try concrete_segment.
  - exact wf_scenario_device.
  - reflexivity.
  - discriminate.
  - simpl. lia.
  - split; [exact (Hno Hout)|]. rewrite Hiff. exact Hout.
Qed.

(** [Fw] after [setUserID("000000")], [addToGroup("7")] and
    [clearGroups()]: the cleared group is no longer addressed. *)
Example fw_cleared_group_not_addressed :
  let d := snd (Fw.clearGroups EmptyString
                  (snd (Fw.addToGroup "7"
                          (snd (Fw.setUserID "000000" fw_booted))))) in
  membership (config d) = []
  /\ Fw.no_handler d (Fw.parseMessage 64 "000000/f1/7" "000000/f1/7" d).
Proof.
  cbv zeta. split; [vm_compute; reflexivity|].
  eexists [_; _; _; _]. split; vm_compute; reflexivity.
Qed.

(** A topic that does not fit the event-name buffer is cut before it is
    tokenised: with a buffer of 10 bytes, ["123ABC/f1/8"] is read as
    ["123ABC/f1"] and dispatched to all groups. *)
Example fw_topic_truncated :
  c_str (<[9%nat := NUL]> (strncpy (replicate 10 NUL) "123ABC/f1/8" 10))
  = "123ABC/f1"%string
  /\ Fw.dispatches "f1" "on" scenario_device
       (Fw.parseMessage 10 "123ABC/f1/8" "on" scenario_device).
Proof.
  split; [reflexivity|].
  eexists (Log.info "Group parsed: %s" [ANull]
             (Log.info "All groups addressed!" [] (parsed _ _ _ _ _))).
  split; [do 2 apply logged_emit; apply logged_parsed | vm_compute; reflexivity].
Qed.

End FwRuns.

(** * Further properties of the administrative functions *)

Section MoreMutators.

Variable fmt : string.     (* the user-ID line of [printConfig] *)

Implicit Types (d : Device) (extra : string).

Lemma addToGroup_cases extra d :
  (~ (1 <= decimal_value extra <= 255)
   /\ fst (addToGroup fmt extra d) = -1
   /\ logged d (snd (addToGroup fmt extra d)))
  \/ (1 <= decimal_value extra <= 255 /\ ~ numGroups (config d) < 16
      /\ fst (addToGroup fmt extra d) = -2
      /\ logged d (snd (addToGroup fmt extra d)))
  \/ (1 <= decimal_value extra <= 255 /\ numGroups (config d) < 16
      /\ fst (addToGroup fmt extra d) = decimal_value extra).
Proof.
  destruct (Z_le_dec 1 (decimal_value extra)) as [H1|H1];
    [destruct (Z_le_dec (decimal_value extra) 255) as [H2|H2]|].
  - destruct (Z_lt_dec (numGroups (config d)) 16) as [H3|H3].
    + right. right.
      destruct (addToGroup_added fmt extra d (conj H1 H2) H3) as (Ha & _).
      auto.
    + right. left. rewrite (addToGroup_full fmt extra d (conj H1 H2) H3).
      repeat split; try assumption. apply logged_emit, logged_refl.
  - left. rewrite addToGroup_invalid by lia.
    repeat split; [lia|]. apply logged_emit, logged_refl.
  - left. rewrite addToGroup_invalid by lia.
    repeat split; [lia|]. apply logged_emit, logged_refl.
Qed.

End MoreMutators.

(** X1.  A call of [addToGroup] that returns an error code only logs: the
    configuration, the EEPROM and the subscriptions are what they were. *)
Theorem addToGroup_error_only_logs (fmt extra : string) (d : Device) :
  fst (addToGroup fmt extra d) < 0 ->
  logged d (snd (addToGroup fmt extra d))
  /\ config (snd (addToGroup fmt extra d)) = config d
  /\ eeprom (snd (addToGroup fmt extra d)) = eeprom d
  /\ subscriptions (snd (addToGroup fmt extra d)) = subscriptions d.
Proof.
  intros Hneg.
  assert (Hl : logged d (snd (addToGroup fmt extra d))).
  { destruct (addToGroup_cases fmt extra d)
      as [(_ & _ & Hl)|[(_ & _ & _ & Hl)|(Hv & _ & Hr)]]; try assumption.
    rewrite Hr in Hneg. lia. }
  split; [exact Hl|]. destruct Hl as [l ->]. repeat split.
Qed.

Lemma addToGroup_error_only_logs_witness :
  fst (Fw.addToGroup "300" scenario_device) < 0
  /\ config (snd (Fw.addToGroup "300" scenario_device)) = config scenario_device.
Proof.
  assert (H : fst (Fw.addToGroup "300" scenario_device) < 0)
    by (vm_compute; reflexivity).
  split; [exact H|].
  exact (proj1 (proj2 (addToGroup_error_only_logs Fw.USER_ID_FORMAT "300"
                         scenario_device H))).
Defined.

Section Capacity.

Variable fmt : string.

Implicit Types (d : Device) (l : list string).

Lemma config_clearGroups extra d :
  config (snd (clearGroups fmt extra d)) = set_numGroups 0 (config d).
Proof. reflexivity. Qed.

Lemma wf_config_cleared c : wf_config c -> wf_config (set_numGroups 0 c).
Proof.
  intros [W1 W2 W3 W4 W5]. constructor; simpl; try assumption.
  unfold is_uint8. lia.
Qed.

Lemma addGroups_membership l : forall d,
  wf_config (config d) ->
  Forall (fun extra => 1 <= decimal_value extra <= 255) l ->
  numGroups (config d) + Z.of_nat (length l) <= 16 ->
  fst (addGroups fmt l d) = map decimal_value l
  /\ membership (config (snd (addGroups fmt l d)))
     = membership (config d) ++ map decimal_value l
  /\ wf_config (config (snd (addGroups fmt l d)))
  /\ numGroups (config (snd (addGroups fmt l d)))
     = numGroups (config d) + Z.of_nat (length l)
  /\ userID (config (snd (addGroups fmt l d))) = userID (config d).
Proof.
  induction l as [|extra l IH]; intros d Hwf Hall Hroom.
  - simpl. rewrite app_nil_r.
    split; [reflexivity|]. split; [reflexivity|]. split; [assumption|].
    split; [lia|reflexivity].
  - apply Forall_cons in Hall as [Hv Hall].
    pose proof (wf_numGroups _ Hwf) as Hng. unfold is_uint8 in Hng.
    simpl length in Hroom.
    assert (Hlt : numGroups (config d) < 16) by lia.
    destruct (addToGroup_added fmt extra d Hv Hlt) as (Hr & Hc & _).
    cbv zeta in Hc.
    cbn [addGroups].
    destruct (addToGroup fmt extra d) as [r d1] eqn:E. simpl in Hr, Hc.
    assert (Hwf1 : wf_config (config d1))
      by (rewrite Hc; apply wf_config_append; assumption).
    assert (Hm1 : membership (config d1)
                  = membership (config d) ++ [decimal_value extra]).
    { rewrite Hc. apply membership_append; [assumption|assumption|].
      unfold is_uint8. lia. }
    assert (Hn1 : numGroups (config d1) = numGroups (config d) + 1).
    { rewrite Hc. simpl. unfold to_uint8. apply Z.mod_small. lia. }
    assert (Hu1 : userID (config d1) = userID (config d))
      by (rewrite Hc; reflexivity).
    destruct (IH d1 Hwf1 Hall ltac:(lia)) as (I1 & I2 & I3 & I4 & I5).
    destruct (addGroups fmt l d1) as [rs d2].
    cbn [fst snd] in I1, I2, I3, I4, I5. cbn [fst snd map length].
    rewrite Nat2Z.inj_succ.
    split; [rewrite Hr, I1; reflexivity|].
    split; [rewrite I2, Hm1, <- app_assoc; reflexivity|].
    split; [assumption|]. split; [lia|congruence].
Qed.

End Capacity.

(** X2.  [clearGroups] ignores its argument, returns 0, empties the
    membership by resetting [numGroups] alone (the cells of [deviceGroups]
    keep their values), leaves the user ID alone and writes the record to
    the EEPROM; the list has room again: a following [addToGroup] of a
    valid group [v] returns [v] and leaves the membership [[v]]. *)
Theorem clearGroups_then_addToGroup (fmt extra next : string) (d : Device) :
  wf_config (config d) ->
  1 <= decimal_value next <= 255 ->
  let d1 := snd (clearGroups fmt extra d) in
  let r := addToGroup fmt next d1 in
  fst (clearGroups fmt extra d) = 0
  /\ membership (config d1) = []
  /\ deviceGroups (config d1) = deviceGroups (config d)
  /\ userID (config d1) = userID (config d)
  /\ eeprom d1 = config d1
  /\ fst r = decimal_value next
  /\ membership (config (snd r)) = [decimal_value next].
Proof.
  intros Hwf Hv d1 r.
  assert (Hc1 : config d1 = set_numGroups 0 (config d)) by reflexivity.
  assert (Hwf1 : wf_config (config d1))
    by (rewrite Hc1; apply wf_config_cleared; assumption).
  assert (Hn1 : numGroups (config d1) < 16) by (rewrite Hc1; simpl; lia).
  destruct (addToGroup_added fmt next d1 Hv Hn1) as (Hr & Hc & _).
  cbv zeta in Hc. fold r in Hr, Hc.
  split; [reflexivity|]. split; [reflexivity|].
  split; [rewrite Hc1; reflexivity|]. split; [rewrite Hc1; reflexivity|].
  split; [reflexivity|]. split; [exact Hr|].
  rewrite Hc.
  rewrite membership_append by (assumption || (unfold is_uint8; lia)).
  reflexivity.
Qed.

Lemma clearGroups_then_addToGroup_witness :
  wf_config (config scenario_device)
  /\ 1 <= decimal_value "9" <= 255
  /\ membership
       (config (snd (Fw.addToGroup "9"
                       (snd (Fw.clearGroups "ignored" scenario_device)))))
     = [9].
Proof.
  assert (Hv : 1 <= decimal_value "9" <= 255)
    by (change (decimal_value "9") with 9; lia).
  split; [exact wf_scenario_config|]. split; [exact Hv|].
  exact (proj2 (proj2 (proj2 (proj2 (proj2 (proj2
           (clearGroups_then_addToGroup Fw.USER_ID_FORMAT "ignored" "9"
              scenario_device wf_scenario_config Hv))))))).
Defined.

(** X3.  Successive calls of [addToGroup] with valid group numbers all
    succeed while there is room, each returning its number, and append the
    numbers to the membership in call order; once the sixteenth entry is in,
    a further call with a valid number returns -2 and changes neither the
    configuration nor the EEPROM. *)
Theorem addGroups_until_full (fmt : string) (l : list string) (next : string)
    (d : Device) :
  wf_config (config d) ->
  Forall (fun extra => 1 <= decimal_value extra <= 255) l ->
  numGroups (config d) + Z.of_nat (length l) = 16 ->
  1 <= decimal_value next <= 255 ->
  let d' := snd (addGroups fmt l d) in
  fst (addGroups fmt l d) = map decimal_value l
  /\ membership (config d') = membership (config d) ++ map decimal_value l
  /\ length (membership (config d')) = MAX_DEVICE_GROUPS
  /\ fst (addToGroup fmt next d') = -2
  /\ config (snd (addToGroup fmt next d')) = config d'
  /\ eeprom (snd (addToGroup fmt next d')) = eeprom d'.
Proof.
  intros Hwf Hall Hsum Hv d'.
  destruct (addGroups_membership fmt l d Hwf Hall ltac:(lia))
    as (H1 & H2 & H3 & H4 & _).
  fold d' in H2, H3, H4.
  assert (Hfull : ~ numGroups (config d') < 16) by lia.
  split; [exact H1|]. split; [exact H2|].
  split.
  - rewrite (length_membership _ H3), H4, Hsum. reflexivity.
  - rewrite (addToGroup_full fmt next d' Hv Hfull).
    split; [reflexivity|]. split; reflexivity.
Qed.

Lemma addGroups_until_full_witness :
  let l := ["1"; "2"; "3"; "4"; "5"; "6"; "7"; "8"; "9"; "10"; "11"; "12";
            "13"; "14"; "15"; "16"]%string in
  wf_config (config fw_booted)
  /\ numGroups (config fw_booted) + Z.of_nat (length l) = 16
  /\ membership (config (snd (addGroups Fw.USER_ID_FORMAT l fw_booted)))
     = [1; 2; 3; 4; 5; 6; 7; 8; 9; 10; 11; 12; 13; 14; 15; 16]
  /\ fst (Fw.addToGroup "17" (snd (addGroups Fw.USER_ID_FORMAT l fw_booted))) = -2.
Proof.
  cbv zeta.
  assert (Hwf : wf_config (config fw_booted)).
  { unfold fw_booted.
    rewrite (fw_setup_defaults 2047 factory_device wf_erased_config eq_refl).
    apply config_ok_fw_defaults. }
  assert (Hall : Forall (fun extra => 1 <= decimal_value extra <= 255)
                   ["1"; "2"; "3"; "4"; "5"; "6"; "7"; "8"; "9"; "10"; "11";
                    "12"; "13"; "14"; "15"; "16"]%string).
  { repeat (constructor; [vm_compute; split; discriminate|]). constructor. }
  assert (Hsum : numGroups (config fw_booted) + Z.of_nat 16 = 16) by reflexivity.
  assert (Hv : 1 <= decimal_value "17" <= 255) by (vm_compute; split; discriminate).
  destruct (addGroups_until_full Fw.USER_ID_FORMAT _ "17" fw_booted
              Hwf Hall Hsum Hv) as (_ & Hm & _ & Hr & _).
  split; [exact Hwf|]. split; [exact Hsum|]. split; [exact Hm|exact Hr].
Defined.

(** * The configuration dump *)

Section Dump.

Lemma string_app_assoc (s t u : string) :
  ((s ++ t) ++ u)%string = (s ++ t ++ u)%string.
Proof.
  induction s as [|c s' IH]; [reflexivity|].
  change (String c ((s' ++ t) ++ u) = String c (s' ++ t ++ u)).
  f_equal. exact IH.
Qed.

Lemma uint8ArrToString_loop_step (x : Z) (arr : list Z) (i n : nat) (s : string) :
  uint8ArrToString_loop (x :: arr) i n s
  = uint8ArrToString_loop arr (S i) n
      (if (i <? n - 1)%nat then ((s ++ decimal x) ++ ", ")%string
       else ((s ++ decimal x) ++ "}")%string).
Proof. reflexivity. Qed.

Lemma uint8ArrToString_loop_format (arr : list Z) : forall (i n : nat) (s : string),
  arr <> [] -> (i + length arr = n)%nat ->
  uint8ArrToString_loop arr i n s = (s ++ comma_separated arr ++ "}")%string.
Proof.
  induction arr as [|x arr IH]; intros i n s Hne Hn; [congruence|].
  rewrite uint8ArrToString_loop_step.
  destruct arr as [|y arr].
  - simpl in Hn.
    replace (i <? n - 1)%nat with false by (symmetry; apply Nat.ltb_ge; lia).
    change (uint8ArrToString_loop [] (S i) n ((s ++ decimal x) ++ "}"))
      with (((s ++ decimal x) ++ "}")%string).
    apply string_app_assoc.
  - simpl length in Hn.
    replace (i <? n - 1)%nat with true by (symmetry; apply Nat.ltb_lt; lia).
    rewrite (IH (S i) n) by (try discriminate; simpl; lia).
    change (comma_separated (x :: y :: arr))
      with ((decimal x ++ ", " ++ comma_separated (y :: arr))%string).
    rewrite !string_app_assoc. reflexivity.
Qed.

(** The decimal text of a [uint8_t] is read back by the parse of
    [addToGroup] and [parseMessage]. *)
Lemma decimal_round_trip_check :
  forallb (fun n => decimal_value (decimal (Z.of_nat n)) =? Z.of_nat n)
    (seq 0 256) = true.
Proof. vm_compute. reflexivity. Qed.

Lemma decimal_value_decimal (x : Z) : is_uint8 x -> decimal_value (decimal x) = x.
Proof.
  intros [H0 H1].
  pose proof decimal_round_trip_check as H. rewrite forallb_forall in H.
  specialize (H (Z.to_nat x)). rewrite Z2Nat.id in H by lia.
  apply Z.eqb_eq, H. apply in_seq. lia.
Qed.

End Dump.

(** X4.  [uint8ArrToString] writes the first [arr_len] numbers of the array
    in decimal, separated by ", " and enclosed in braces, as its comment
    says; for a length of 0 it returns the opening brace alone.  The dump of
    [printConfig] therefore shows all 16 cells of [deviceGroups], the cells
    past [numGroups] included. *)
Theorem uint8ArrToString_format (arr : list Z) (arr_len : nat) :
  (arr_len <= length arr)%nat ->
  uint8ArrToString arr arr_len
  = match arr_len with
    | O => "{"%string
    | S _ => ("{" ++ comma_separated (take arr_len arr) ++ "}")%string
    end
  /\ (length arr = MAX_DEVICE_GROUPS ->
      uint8ArrToString arr MAX_DEVICE_GROUPS
      = ("{" ++ comma_separated arr ++ "}")%string).
Proof.
  intros Hlen.
  assert (Hpos : forall n, (0 < n <= length arr)%nat ->
            uint8ArrToString arr n
            = ("{" ++ comma_separated (take n arr) ++ "}")%string).
  { intros n Hn. unfold uint8ArrToString.
    apply uint8ArrToString_loop_format.
    - intros E. apply (f_equal length) in E. rewrite length_take in E.
      simpl in E. lia.
    - rewrite length_take. lia. }
  split.
  - destruct arr_len as [|k]; [reflexivity|]. apply Hpos. lia.
  - intros H16. rewrite Hpos by (rewrite H16; unfold MAX_DEVICE_GROUPS; lia).
    rewrite take_ge by lia. reflexivity.
Qed.

Lemma uint8ArrToString_format_witness :
  (3 <= length [1; 20; 255; 7])%nat
  /\ uint8ArrToString [1; 20; 255; 7] 3 = "{1, 20, 255}"%string.
Proof.
  split; [simpl; lia|].
  exact (proj1 (uint8ArrToString_format [1; 20; 255; 7] 3 ltac:(simpl; lia))).
Defined.

(** X5.  The decimal text that the dump writes for a cell is read back by
    [strtol] as the value of the cell; so [addToGroup], given the text
    printed for a group number 1..255, adds that very group when there is
    room. *)
Theorem printed_group_reads_back (fmt : string) (g : Z) (d : Device) :
  is_uint8 g ->
  strtol (decimal g) = g
  /\ (1 <= g -> wf_config (config d) -> numGroups (config d) < 16 ->
      fst (addToGroup fmt (decimal g) d) = g
      /\ membership (config (snd (addToGroup fmt (decimal g) d)))
         = membership (config d) ++ [g]).
Proof.
  intros Hg. pose proof (decimal_value_decimal g Hg) as Hv.
  unfold is_uint8 in Hg. split.
  - unfold strtol, LONG_MIN, LONG_MAX. rewrite Hv. lia.
  - intros H1 Hwf Hroom.
    assert (Hr : 1 <= decimal_value (decimal g) <= 255) by (rewrite Hv; lia).
    destruct (addToGroup_added fmt (decimal g) d Hr Hroom) as (Ha & Hc & _).
    cbv zeta in Hc. rewrite Ha, Hc, Hv. split; [reflexivity|].
    apply membership_append; [assumption|assumption|unfold is_uint8; lia].
Qed.

Lemma printed_group_reads_back_witness :
  is_uint8 200
  /\ strtol (decimal 200) = 200
  /\ fst (Fw.addToGroup (decimal 200) scenario_device) = 200.
Proof.
  assert (Hg : is_uint8 200) by (unfold is_uint8; lia).
  destruct (printed_group_reads_back Fw.USER_ID_FORMAT 200 scenario_device Hg)
    as [Hs Hadd].
  split; [exact Hg|]. split; [exact Hs|].
  exact (proj1 (Hadd ltac:(lia) wf_scenario_config ltac:(simpl; lia))).
Defined.

(** * Start-up *)

Section Projections.

Implicit Types (d : Device) (r : LogRecord).

Lemma functions_emit r d : functions (Log.emit r d) = functions d.
Proof. reflexivity. Qed.
Lemma functions_get d : functions (EEPROM.get d) = functions d.
Proof. reflexivity. Qed.
Lemma functions_set_config c d : functions (set_config c d) = functions d.
Proof. reflexivity. Qed.
Lemma functions_subscribe p d : functions (Particle.subscribe p d) = functions d.
Proof. reflexivity. Qed.
Lemma functions_control b d : functions (RGB.control b d) = functions d.
Proof. reflexivity. Qed.
Lemma functions_function n d :
  functions (Particle.function n d) = functions d ++ [n].
Proof. reflexivity. Qed.

Lemma subscriptions_emit r d : subscriptions (Log.emit r d) = subscriptions d.
Proof. reflexivity. Qed.
Lemma subscriptions_get d : subscriptions (EEPROM.get d) = subscriptions d.
Proof. reflexivity. Qed.
Lemma subscriptions_set_config c d :
  subscriptions (set_config c d) = subscriptions d.
Proof. reflexivity. Qed.
Lemma subscriptions_function n d :
  subscriptions (Particle.function n d) = subscriptions d.
Proof. reflexivity. Qed.
Lemma subscriptions_control b d :
  subscriptions (RGB.control b d) = subscriptions d.
Proof. reflexivity. Qed.
Lemma subscriptions_subscribe p d :
  subscriptions (Particle.subscribe p d) = subscriptions d ++ [p].
Proof. reflexivity. Qed.

Lemma eeprom_set_config c d : eeprom (set_config c d) = eeprom d.
Proof. reflexivity. Qed.
Lemma eeprom_get d : eeprom (EEPROM.get d) = eeprom d.
Proof. reflexivity. Qed.
Lemma eeprom_subscribe p d : eeprom (Particle.subscribe p d) = eeprom d.
Proof. reflexivity. Qed.

Lemma config_function n d : config (Particle.function n d) = config d.
Proof. reflexivity. Qed.
Lemma config_control b d : config (RGB.control b d) = config d.
Proof. reflexivity. Qed.

(** [printConfig] only logs. *)
Lemma printConfig_set_log fmt d :
  exists l, printConfig fmt d = set_log (log d ++ l) d.
Proof. apply logged_printConfig. Qed.

Lemma eeprom_printConfig fmt d : eeprom (printConfig fmt d) = eeprom d.
Proof. destruct (printConfig_set_log fmt d) as [l ->]. reflexivity. Qed.
Lemma functions_printConfig fmt d : functions (printConfig fmt d) = functions d.
Proof. destruct (printConfig_set_log fmt d) as [l ->]. reflexivity. Qed.
Lemma subscriptions_printConfig fmt d :
  subscriptions (printConfig fmt d) = subscriptions d.
Proof. destruct (printConfig_set_log fmt d) as [l ->]. reflexivity. Qed.

End Projections.

Local Ltac project :=
  unfold Log.info, Log.trace;
  repeat first
    [ rewrite config_subscribe | rewrite config_printConfig
    | rewrite config_emit | rewrite config_get | rewrite config_set_config
    | rewrite config_function | rewrite config_control
    | rewrite eeprom_emit | rewrite eeprom_function | rewrite eeprom_control
    | rewrite eeprom_set_config | rewrite eeprom_get | rewrite eeprom_subscribe
    | rewrite eeprom_printConfig
    | rewrite functions_emit | rewrite functions_get
    | rewrite functions_set_config | rewrite functions_subscribe
    | rewrite functions_control | rewrite functions_printConfig
    | rewrite functions_function
    | rewrite subscriptions_emit | rewrite subscriptions_get
    | rewrite subscriptions_set_config | rewrite subscriptions_function
    | rewrite subscriptions_control | rewrite subscriptions_printConfig
    | rewrite subscriptions_subscribe ].

Section Boot.

Implicit Types (d : Device) (L : Z).

(** The body of [setup] after [EEPROM.get], as a function of the branch. *)
Lemma if_device (b : bool) (x y : Device) (f : Device -> DeviceConfig_t) :
  f (if b then x else y) = if b then f x else f y.
Proof. destruct b; reflexivity. Qed.

Lemma if_device_list (b : bool) (x y : Device) (f : Device -> list string) :
  f (if b then x else y) = if b then f x else f y.
Proof. destruct b; reflexivity. Qed.

Lemma fw_setup_eeprom L d : eeprom (Fw.setup L d) = eeprom d.
Proof.
  unfold Fw.setup, Fw.printConfig. cbv zeta. project.
  rewrite (if_device _ _ _ eeprom). project.
  destruct (version (eeprom d) =? 255); reflexivity.
Qed.

Lemma fw_setup_functions L d :
  functions (Fw.setup L d)
  = functions d ++ ["addToGroup"; "clearGroups"; "setUserID"]%string.
Proof.
  unfold Fw.setup, Fw.printConfig. cbv zeta. project.
  rewrite (if_device_list _ _ _ functions). project.
  rewrite <- !app_assoc.
  destruct (version (eeprom d) =? 255); reflexivity.
Qed.

Lemma fw_setup_subscriptions L d :
  subscriptions (Fw.setup L d)
  = subscriptions d ++ [c_str (userID (config (Fw.setup L d)))].
Proof.
  unfold Fw.setup. cbv zeta.
  match goal with
  | |- context [Particle.subscribe _ ?X] => set (booted := X)
  end.
  rewrite subscriptions_subscribe, config_subscribe.
  assert (Hsub : subscriptions booted = subscriptions d).
  { subst booted. unfold Fw.printConfig. project.
    rewrite (if_device_list _ _ _ subscriptions). project.
    destruct (version (eeprom d) =? 255); reflexivity. }
  rewrite Hsub. reflexivity.
Qed.

Lemma fw_setup_loaded L d :
  version (eeprom d) <> 255 -> config (Fw.setup L d) = eeprom d.
Proof.
  intros Hv. unfold Fw.setup, Fw.printConfig. cbv zeta. project.
  rewrite (if_device _ _ _ config). project.
  apply Z.eqb_neq in Hv. rewrite Hv. reflexivity.
Qed.

Lemma wp_readOrInitEEPROM_eeprom L d :
  eeprom (WhitePaper.readOrInitEEPROM L d) = eeprom d.
Proof.
  unfold WhitePaper.readOrInitEEPROM, WhitePaper.printConfig. cbv zeta. project.
  rewrite (if_device _ _ _ eeprom). project.
  destruct (version (eeprom d) =? 255); reflexivity.
Qed.

Lemma wp_readOrInitEEPROM_loaded L d :
  version (eeprom d) <> 255 ->
  config (WhitePaper.readOrInitEEPROM L d) = eeprom d.
Proof.
  intros Hv. unfold WhitePaper.readOrInitEEPROM, WhitePaper.printConfig.
  cbv zeta. project.
  rewrite (if_device _ _ _ config). project.
  apply Z.eqb_neq in Hv. rewrite Hv. reflexivity.
Qed.

Lemma wp_setup_eeprom L d : eeprom (WhitePaper.setup L d) = eeprom d.
Proof.
  unfold WhitePaper.setup. cbv zeta. rewrite eeprom_subscribe.
  rewrite wp_readOrInitEEPROM_eeprom. reflexivity.
Qed.

Lemma wp_setup_loaded L d :
  version (eeprom d) <> 255 -> config (WhitePaper.setup L d) = eeprom d.
Proof.
  intros Hv. rewrite wp_setup_config.
  rewrite wp_readOrInitEEPROM_loaded by exact Hv. reflexivity.
Qed.

Lemma wp_setup_defaults L d :
  wf_config (eeprom d) -> version (eeprom d) = 255 ->
  config (WhitePaper.setup L d) = wp_defaults (eeprom d).
Proof.
  intros Hwf Hv. rewrite wp_setup_config.
  rewrite wp_readOrInitEEPROM_defaults by assumption. reflexivity.
Qed.

End Boot.

(** X6.  [setup] of [Fw] registers the three cloud functions and never
    writes to the EEPROM.  A record whose version byte is not 0xFF is loaded
    as it is, with no check of its fields, and, when its user ID is
    NUL-terminated within its array, the device subscribes to that user ID
    (nothing is stated of the subscription for a stored user ID without a
    terminator, which the code reads past the array).  On an erased EEPROM
    the configuration is set to the defaults in memory only: version 1,
    empty user ID (so the subscription prefix is empty) and no groups. *)
Theorem fw_setup_behaviour (L : Z) (d : Device) :
  eeprom (Fw.setup L d) = eeprom d
  /\ functions (Fw.setup L d)
     = functions d ++ ["addToGroup"; "clearGroups"; "setUserID"]%string
  /\ (version (eeprom d) <> 255 ->
      config (Fw.setup L d) = eeprom d
      /\ (NUL ∈ userID (eeprom d) ->
          subscriptions (Fw.setup L d)
          = subscriptions d ++ [c_str (userID (eeprom d))]))
  /\ (wf_config (eeprom d) -> version (eeprom d) = 255 ->
      config (Fw.setup L d) = fw_defaults
      /\ subscriptions (Fw.setup L d) = subscriptions d ++ [EmptyString]
      /\ membership (config (Fw.setup L d)) = []).
Proof.
  split; [apply fw_setup_eeprom|]. split; [apply fw_setup_functions|].
  split.
  - intros Hv. pose proof (fw_setup_loaded L d Hv) as Hc.
    split; [exact Hc|]. intros _.
    rewrite fw_setup_subscriptions, Hc. reflexivity.
  - intros Hwf Hv.
    pose proof (fw_setup_defaults L d Hwf Hv) as Hc.
    split; [exact Hc|]. split.
    + rewrite fw_setup_subscriptions, Hc. reflexivity.
    + rewrite Hc. reflexivity.
Qed.

Lemma fw_setup_behaviour_witness :
  wf_config (eeprom factory_device)
  /\ version (eeprom factory_device) = 255
  /\ version (eeprom scenario_device) <> 255
  /\ NUL ∈ userID (eeprom scenario_device)
  /\ config (Fw.setup 2047 factory_device) = fw_defaults
  /\ config (Fw.setup 2047 scenario_device) = eeprom scenario_device
  /\ subscriptions (Fw.setup 2047 scenario_device)
     = subscriptions scenario_device
       ++ [c_str (userID (eeprom scenario_device))].
Proof.
  assert (Hne : version (eeprom scenario_device) <> 255) by discriminate.
  assert (Hnul : NUL ∈ userID (eeprom scenario_device))
    by (vm_compute; repeat (constructor; try fail)).
  destruct (fw_setup_behaviour 2047 factory_device) as (_ & _ & _ & Hdef).
  destruct (fw_setup_behaviour 2047 scenario_device) as (_ & _ & Hload & _).
  split; [exact wf_erased_config|]. split; [reflexivity|]. split; [exact Hne|].
  split; [exact Hnul|].
  split; [exact (proj1 (Hdef wf_erased_config eq_refl))|].
  split; [exact (proj1 (Hload Hne))|exact (proj2 (Hload Hne) Hnul)].
Defined.

Section LedControl.

Implicit Types (d : Device).

Lemma rgb_control_emit r d : rgb_control (Log.emit r d) = rgb_control d.
Proof. reflexivity. Qed.
Lemma rgb_control_get d : rgb_control (EEPROM.get d) = rgb_control d.
Proof. reflexivity. Qed.
Lemma rgb_control_set_config c d : rgb_control (set_config c d) = rgb_control d.
Proof. reflexivity. Qed.
Lemma rgb_control_subscribe p d :
  rgb_control (Particle.subscribe p d) = rgb_control d.
Proof. reflexivity. Qed.
Lemma rgb_control_control b d : rgb_control (RGB.control b d) = b.
Proof. reflexivity. Qed.
Lemma rgb_control_printConfig fmt d :
  rgb_control (printConfig fmt d) = rgb_control d.
Proof. destruct (printConfig_set_log fmt d) as [l ->]. reflexivity. Qed.

Lemma if_device_bool (b : bool) (x y : Device) (f : Device -> bool) :
  f (if b then x else y) = if b then f x else f y.
Proof. destruct b; reflexivity. Qed.

Lemma wp_setup_rgb_control L d : rgb_control (WhitePaper.setup L d) = true.
Proof.
  unfold WhitePaper.setup. cbv zeta. rewrite rgb_control_subscribe.
  unfold WhitePaper.readOrInitEEPROM, WhitePaper.printConfig. cbv zeta.
  unfold Log.info, Log.trace.
  rewrite rgb_control_printConfig, (if_device_bool _ _ _ rgb_control).
  rewrite rgb_control_set_config, !rgb_control_emit, rgb_control_get,
    !rgb_control_emit, rgb_control_control.
  destruct (version _ =? 255); reflexivity.
Qed.

End LedControl.

Lemma wp_setup_subscriptions L d :
  subscriptions (WhitePaper.setup L d)
  = subscriptions d ++ [c_str (userID (config (WhitePaper.setup L d)))].
Proof.
  { unfold WhitePaper.setup. cbv zeta.
    match goal with
    | |- context [Particle.subscribe _ ?X] => set (booted := X)
    end.
    rewrite subscriptions_subscribe, config_subscribe.
    assert (Hsub : subscriptions booted = subscriptions d).
    { subst booted.
      unfold WhitePaper.readOrInitEEPROM, WhitePaper.printConfig. cbv zeta.
      unfold Log.info, Log.trace.
      rewrite subscriptions_printConfig, (if_device_list _ _ _ subscriptions).
      rewrite subscriptions_set_config, !subscriptions_emit, subscriptions_get,
        !subscriptions_emit, subscriptions_control, !subscriptions_function.
      destruct (version _ =? 255); reflexivity. }
    rewrite Hsub. reflexivity. }
Qed.

(** X7.  [setup] of the white-paper sketch takes control of the LED and
    never writes to the EEPROM.  A record whose version byte is not 0xFF is
    loaded as it is, and, when its user ID is NUL-terminated within its
    array, the device subscribes to that user ID (nothing is stated of the
    subscription for a stored user ID without a terminator, which the code
    reads past the array).  On an erased EEPROM the defaults are set in
    memory only: version 1, user ID ["000000"] (the subscription prefix) and
    no groups. *)
Theorem wp_setup_behaviour (L : Z) (d : Device) :
  eeprom (WhitePaper.setup L d) = eeprom d
  /\ eeprom (WhitePaper.readOrInitEEPROM L d) = eeprom d
  /\ rgb_control (WhitePaper.setup L d) = true
  /\ (version (eeprom d) <> 255 ->
      config (WhitePaper.setup L d) = eeprom d
      /\ (NUL ∈ userID (eeprom d) ->
          subscriptions (WhitePaper.setup L d)
          = subscriptions d ++ [c_str (userID (eeprom d))]))
  /\ (wf_config (eeprom d) -> version (eeprom d) = 255 ->
      config (WhitePaper.setup L d) = wp_defaults (eeprom d)
      /\ c_str (userID (config (WhitePaper.setup L d))) = "000000"%string
      /\ subscriptions (WhitePaper.setup L d)
         = subscriptions d ++ ["000000"%string]
      /\ membership (config (WhitePaper.setup L d)) = []).
Proof.
  split; [apply wp_setup_eeprom|]. split; [apply wp_readOrInitEEPROM_eeprom|].
  split; [apply wp_setup_rgb_control|].
  split.
  - intros Hv. pose proof (wp_setup_loaded L d Hv) as Hc.
    split; [exact Hc|]. intros _.
    rewrite wp_setup_subscriptions, Hc. reflexivity.
  - intros Hwf Hv.
    pose proof (wp_setup_defaults L d Hwf Hv) as Hc.
    split; [exact Hc|]. split; [rewrite Hc; reflexivity|]. split.
    + rewrite wp_setup_subscriptions, Hc. reflexivity.
    + rewrite Hc. reflexivity.
Qed.

Lemma wp_setup_behaviour_witness :
  wf_config (eeprom factory_device)
  /\ version (eeprom factory_device) = 255
  /\ version (eeprom scenario_device) <> 255
  /\ NUL ∈ userID (eeprom scenario_device)
  /\ c_str (userID (config whitepaper_booted)) = "000000"%string
  /\ eeprom whitepaper_booted = erased_config
  /\ subscriptions (WhitePaper.setup 2047 scenario_device)
     = subscriptions scenario_device
       ++ [c_str (userID (eeprom scenario_device))].
Proof.
  assert (Hne : version (eeprom scenario_device) <> 255) by discriminate.
  assert (Hnul : NUL ∈ userID (eeprom scenario_device))
    by (vm_compute; repeat (constructor; try fail)).
  destruct (wp_setup_behaviour 2047 factory_device) as (He & _ & _ & _ & Hdef).
  destruct (wp_setup_behaviour 2047 scenario_device) as (_ & _ & _ & Hload & _).
  split; [exact wf_erased_config|]. split; [reflexivity|]. split; [exact Hne|].
  split; [exact Hnul|].
  split; [exact (proj1 (proj2 (Hdef wf_erased_config eq_refl)))|].
  split; [exact He|exact (proj2 (Hload Hne) Hnul)].
Defined.

(** * What [parseMessage] leaves alone *)

Section ParseEffects.

Implicit Types (d : Device).

Lemma fw_parseMessage_logged N event data d :
  logged d (Fw.parseMessage N event data d).
Proof.
  unfold Fw.parseMessage. cbv zeta.
  repeat match goal with
         | |- context [match strtok ?s ?dl with _ => _ end] =>
             destruct (strtok s dl) as [[? ?]|]
         | |- context [if ?b then _ else _] => destruct b
         end;
    try (eapply logged_trans; [|apply fw_runFunction_logged]);
    repeat apply logged_emit; apply logged_refl.
Qed.

Lemma logged_or_lit_of_logged d d' : logged d d' -> logged_or_lit d d'.
Proof.
  intros [l ->]. exists l, (rgb_color d). reflexivity.
Qed.

Lemma logged_or_lit_emit d d' r :
  logged_or_lit d d' -> logged_or_lit d (Log.emit r d').
Proof.
  intros (l & c & ->). exists (l ++ [r]), c. unfold Log.emit. simpl.
  rewrite app_assoc. reflexivity.
Qed.

Lemma logged_or_lit_color d d' r g b :
  logged_or_lit d d' -> logged_or_lit d (RGB.color r g b d').
Proof. intros (l & c & ->). exists l, (r, g, b). reflexivity. Qed.

Lemma wp_runFunction_effects C data d d' :
  logged_or_lit d d' -> logged_or_lit d (WhitePaper.runFunction C data d').
Proof.
  intros H. unfold WhitePaper.runFunction, WhitePaper.red, WhitePaper.green,
    WhitePaper.blue. cbv zeta.
  repeat match goal with
         | |- context [if ?b then _ else _] => destruct b
         end;
    try apply logged_or_lit_color; apply logged_or_lit_emit; exact H.
Qed.

Lemma wp_parseMessage_effects event data d :
  logged_or_lit d (WhitePaper.parseMessage event data d).
Proof.
  unfold WhitePaper.parseMessage. cbv zeta.
  repeat match goal with
         | |- context [match strtok ?s ?dl with _ => _ end] =>
             destruct (strtok s dl) as [[? ?]|]
         | |- context [if ?b then _ else _] => destruct b
         end;
    try apply wp_runFunction_effects;
    repeat apply logged_or_lit_emit; apply logged_or_lit_of_logged, logged_refl.
Qed.

End ParseEffects.

(** X8.  Whatever the event and the payload, [parseMessage] of [Fw] only
    writes log entries, and [parseMessage] of the white-paper sketch only
    writes log entries and sets the LED colour: the configuration, the
    EEPROM, the registered functions and the subscriptions are never
    touched by an incoming event. *)
Theorem parseMessage_effects :
  (forall N event data d,
     logged d (Fw.parseMessage N event data d)
     /\ eeprom (Fw.parseMessage N event data d) = eeprom d
     /\ subscriptions (Fw.parseMessage N event data d) = subscriptions d
     /\ rgb_color (Fw.parseMessage N event data d) = rgb_color d)
  /\ (forall event data d,
        logged_or_lit d (WhitePaper.parseMessage event data d)
        /\ config (WhitePaper.parseMessage event data d) = config d
        /\ eeprom (WhitePaper.parseMessage event data d) = eeprom d
        /\ subscriptions (WhitePaper.parseMessage event data d) = subscriptions d).
Proof.
  split.
  - intros N event data d.
    pose proof (fw_parseMessage_logged N event data d) as Hl.
    split; [exact Hl|]. destruct Hl as [l ->]. repeat split.
  - intros event data d.
    pose proof (wp_parseMessage_effects event data d) as Hl.
    split; [exact Hl|]. destruct Hl as (l & c & ->).
    split; [reflexivity|]. split; reflexivity.
Qed.

(** * States reachable from an erased EEPROM *)

Section Reachability.

Variable boot : Device -> Device.
Variable parse : string -> string -> Device -> Device.
Variable fmt : string.
Variable defaults : DeviceConfig_t -> DeviceConfig_t.

Hypothesis boot_eeprom : forall d, eeprom (boot d) = eeprom d.
Hypothesis boot_loaded :
  forall d, version (eeprom d) <> 255 -> config (boot d) = eeprom d.
Hypothesis boot_defaults :
  forall d, wf_config (eeprom d) -> version (eeprom d) = 255 ->
            config (boot d) = defaults (eeprom d).
Hypothesis defaults_ok :
  forall e, wf_config e ->
            config_ok (defaults e) /\ numGroups (defaults e) = 0
            /\ version (defaults e) = EEPROM_VERSION.
Hypothesis parse_config : forall event data d, config (parse event data d) = config d.
Hypothesis parse_eeprom : forall event data d, eeprom (parse event data d) = eeprom d.

Lemma invariant_after_boot d :
  wf_config (eeprom d) ->
  (version (eeprom d) = 255 \/
   (config_ok (eeprom d) /\ groups_valid (eeprom d)
    /\ version (eeprom d) = EEPROM_VERSION)) ->
  stable_state defaults (boot d).
Proof.
  intros Hwf [Hv|(Hok & Hval & Hver)]; unfold stable_state.
  - pose proof (boot_defaults d Hwf Hv) as Hc.
    destruct (defaults_ok _ Hwf) as (Hok & Hn & Hver).
    rewrite Hc, boot_eeprom.
    split; [exact Hok|]. split; [apply groups_valid_empty; exact Hn|].
    split; [exact Hver|]. split; [exact Hwf|].
    right. rewrite boot_eeprom. split; [exact Hv|exact Hc].
  - assert (Hne : version (eeprom d) <> 255)
      by (rewrite Hver; unfold EEPROM_VERSION; lia).
    pose proof (boot_loaded d Hne) as Hc.
    rewrite Hc, boot_eeprom.
    split; [exact Hok|]. split; [exact Hval|]. split; [exact Hver|].
    split; [exact Hwf|]. left. rewrite boot_eeprom. symmetry. exact Hc.
Qed.

Lemma invariant_persisted d d' :
  stable_state defaults d ->
  config_ok (config d') -> groups_valid (config d') ->
  version (config d') = version (config d) ->
  eeprom d' = config d' ->
  stable_state defaults d'.
Proof.
  intros (_ & _ & Hver & _ & _) Hok Hval Hv He. unfold stable_state.
  split; [exact Hok|]. split; [exact Hval|]. split; [congruence|].
  split; [rewrite He; apply Hok|]. left. exact He.
Qed.

Lemma invariant_unchanged d d' :
  stable_state defaults d -> config d' = config d -> eeprom d' = eeprom d ->
  stable_state defaults d'.
Proof.
  intros (Hok & Hval & Hver & Hwf & Hp) Hc He. unfold stable_state.
  unfold persisted_or_default in *. rewrite Hc, He.
  split; [exact Hok|]. split; [exact Hval|]. split; [exact Hver|].
  split; [exact Hwf|exact Hp].
Qed.

Lemma reachable_invariant d : reachable boot parse fmt d -> stable_state defaults d.
Proof.
  induction 1 as [d Hwf Hv|d _ IH|extra d _ IH|extra d _ IH|extra d _ IH
                 |event data d _ IH].
  - apply invariant_after_boot; [assumption|left; assumption].
  - destruct IH as (Hok & Hval & Hver & Hwf & [Hp|[Hv Hd]]).
    + apply invariant_after_boot; [exact Hwf|].
      right. change (eeprom (power_cycle d)) with (eeprom d).
      rewrite Hp. split; [exact Hok|]. split; [exact Hval|exact Hver].
    + apply invariant_after_boot; [exact Hwf|left; exact Hv].
  - pose proof IH as (Hok & Hval & Hver & Hwf & Hp).
    destruct (addToGroup_cases fmt extra d)
      as [(_ & _ & Hl)|[(_ & _ & _ & Hl)|(Hv & Hroom & _)]].
    + apply (invariant_unchanged d); [exact IH| |];
        destruct Hl as [l ->]; reflexivity.
    + apply (invariant_unchanged d); [exact IH| |];
        destruct Hl as [l ->]; reflexivity.
    + destruct (addToGroup_added fmt extra d Hv Hroom) as (_ & Hc & He).
      cbv zeta in Hc, He.
      apply (invariant_persisted d); [exact IH| | | |].
      * apply config_ok_addToGroup; exact Hok.
      * apply groups_valid_addToGroup; assumption.
      * rewrite Hc. reflexivity.
      * rewrite Hc, He. reflexivity.
  - pose proof IH as (Hok & Hval & Hver & Hwf & Hp).
    apply (invariant_persisted d); [exact IH| | | |].
    + apply config_ok_clearGroups; exact Hok.
    + apply groups_valid_clearGroups.
    + reflexivity.
    + reflexivity.
  - pose proof IH as (Hok & Hval & Hver & Hwf & Hp).
    destruct (string_dec extra EmptyString) as [->|Hne].
    + apply (invariant_unchanged d); [exact IH| |]; reflexivity.
    + destruct (setUserID_stored fmt extra d (proj1 Hok) Hne) as (_ & Hc & He & _).
      apply (invariant_persisted d); [exact IH| | | |].
      * apply config_ok_setUserID; exact Hok.
      * apply groups_valid_setUserID; [apply Hok|exact Hval].
      * rewrite Hc. reflexivity.
      * exact He.
  - apply (invariant_unchanged d); [exact IH|apply parse_config|apply parse_eeprom].
Qed.

Lemma reachable_config_ok d :
  reachable boot parse fmt d ->
  config_ok (config d) /\ groups_valid (config d)
  /\ version (config d) = EEPROM_VERSION.
Proof.
  intros H. destruct (reachable_invariant d H) as (H1 & H2 & H3 & _).
  split; [exact H1|]. split; [exact H2|exact H3].
Qed.

Lemma reachable_reboot d :
  reachable boot parse fmt d -> config (boot (power_cycle d)) = config d.
Proof.
  intros H. destruct (reachable_invariant d H) as (_ & _ & Hver & Hwf & [Hp|[Hv Hd]]).
  - rewrite boot_loaded; [exact Hp|].
    change (eeprom (power_cycle d)) with (eeprom d).
    rewrite Hp, Hver. unfold EEPROM_VERSION. lia.
  - rewrite boot_defaults; [symmetry; exact Hd|exact Hwf|exact Hv].
Qed.

End Reachability.

Section ReachableSketches.

Lemma fw_defaults_ok (e : DeviceConfig_t) :
  wf_config e ->
  config_ok fw_defaults /\ numGroups fw_defaults = 0
  /\ version fw_defaults = EEPROM_VERSION.
Proof. intros _. split; [apply config_ok_fw_defaults|]. split; reflexivity. Qed.

Lemma wp_defaults_ok (e : DeviceConfig_t) :
  wf_config e ->
  config_ok (wp_defaults e) /\ numGroups (wp_defaults e) = 0
  /\ version (wp_defaults e) = EEPROM_VERSION.
Proof.
  intros Hwf. split; [|split; reflexivity].
  apply config_ok_wp_defaults. apply (wf_userID _ Hwf).
Qed.

Lemma fw_eeprom_parseMessage N event data d :
  eeprom (Fw.parseMessage N event data d) = eeprom d.
Proof. destruct (fw_parseMessage_logged N event data d) as [l ->]. reflexivity. Qed.

Lemma wp_eeprom_parseMessage event data d :
  eeprom (WhitePaper.parseMessage event data d) = eeprom d.
Proof.
  destruct (wp_parseMessage_effects event data d) as (l & c & ->). reflexivity.
Qed.

Lemma fw_reachable_stable L N d :
  reachable (Fw.setup L) (Fw.parseMessage N) Fw.USER_ID_FORMAT d ->
  stable_state (fun _ => fw_defaults) d.
Proof.
  apply reachable_invariant.
  - apply fw_setup_eeprom.
  - apply fw_setup_loaded.
  - intros d0 Hwf Hv. apply fw_setup_defaults; assumption.
  - apply fw_defaults_ok.
  - apply fw_config_parseMessage.
  - apply fw_eeprom_parseMessage.
Qed.

Lemma wp_reachable_stable L d :
  reachable (WhitePaper.setup L) WhitePaper.parseMessage
    WhitePaper.USER_ID_FORMAT d ->
  stable_state wp_defaults d.
Proof.
  apply reachable_invariant.
  - apply wp_setup_eeprom.
  - apply wp_setup_loaded.
  - apply wp_setup_defaults.
  - apply wp_defaults_ok.
  - apply wp_config_parseMessage.
  - apply wp_eeprom_parseMessage.
Qed.

Lemma fw_configured_reachable :
  reachable (Fw.setup 2047) (Fw.parseMessage 64) Fw.USER_ID_FORMAT fw_configured.
Proof.
  exact (reach_addToGroup _ _ Fw.USER_ID_FORMAT "7" _
           (reach_setUserID _ _ Fw.USER_ID_FORMAT "123ABC" _
              (reach_first_boot (Fw.setup 2047) (Fw.parseMessage 64)
                 Fw.USER_ID_FORMAT factory_device wf_erased_config eq_refl))).
Defined.

End ReachableSketches.

(** X9.  In every state that either sketch reaches from a device with an
    erased EEPROM, by any sequence of boots, power cycles, administrative
    calls and events, the configuration satisfies its invariants
    ([numGroups <= 16], NUL-terminated user ID of at most 8 characters),
    its version byte is 1, and every member of the group list is a group
    number 1..255, so 0 is never a member. *)
Theorem reachable_configuration_valid :
  (forall L N d,
     reachable (Fw.setup L) (Fw.parseMessage N) Fw.USER_ID_FORMAT d ->
     config_ok (config d) /\ groups_valid (config d)
     /\ (0 ∉ membership (config d)) /\ version (config d) = EEPROM_VERSION)
  /\ (forall L d,
        reachable (WhitePaper.setup L) WhitePaper.parseMessage
          WhitePaper.USER_ID_FORMAT d ->
        config_ok (config d) /\ groups_valid (config d)
        /\ (0 ∉ membership (config d)) /\ version (config d) = EEPROM_VERSION).
Proof.
  split.
  - intros L N d H.
    destruct (fw_reachable_stable L N d H) as (H1 & H2 & H3 & _).
    split; [exact H1|]. split; [exact H2|].
    split; [apply groups_valid_no_zero; exact H2|exact H3].
  - intros L d H.
    destruct (wp_reachable_stable L d H) as (H1 & H2 & H3 & _).
    split; [exact H1|]. split; [exact H2|].
    split; [apply groups_valid_no_zero; exact H2|exact H3].
Qed.

Lemma reachable_configuration_valid_witness :
  reachable (Fw.setup 2047) (Fw.parseMessage 64) Fw.USER_ID_FORMAT fw_configured
  /\ config_ok (config fw_configured)
  /\ groups_valid (config fw_configured).
Proof.
  destruct (proj1 reachable_configuration_valid 2047 64%nat fw_configured
              fw_configured_reachable) as (H1 & H2 & _).
  split; [exact fw_configured_reachable|]. split; [exact H1|exact H2].
Defined.

(** X10.  In every state that either sketch reaches from a device with an
    erased EEPROM, cycling the power and running [setup] again gives back
    the configuration that was in memory: every successful administrative
    call has written it to the EEPROM, and the defaults, which [setup] does
    not write, are set again from the erased EEPROM. *)
Theorem reboot_restores_configuration :
  (forall L N d,
     reachable (Fw.setup L) (Fw.parseMessage N) Fw.USER_ID_FORMAT d ->
     config (Fw.setup L (power_cycle d)) = config d)
  /\ (forall L d,
        reachable (WhitePaper.setup L) WhitePaper.parseMessage
          WhitePaper.USER_ID_FORMAT d ->
        config (WhitePaper.setup L (power_cycle d)) = config d).
Proof.
  split.
  - intros L N d H.
    apply (reachable_reboot (Fw.setup L) (Fw.parseMessage N) Fw.USER_ID_FORMAT
             (fun _ => fw_defaults)); try assumption.
    + apply fw_setup_eeprom.
    + apply fw_setup_loaded.
    + intros d0 Hwf Hv. apply fw_setup_defaults; assumption.
    + apply fw_defaults_ok.
    + apply fw_config_parseMessage.
    + apply fw_eeprom_parseMessage.
  - intros L d H.
    apply (reachable_reboot (WhitePaper.setup L) WhitePaper.parseMessage
             WhitePaper.USER_ID_FORMAT wp_defaults); try assumption.
    + apply wp_setup_eeprom.
    + apply wp_setup_loaded.
    + apply wp_setup_defaults.
    + apply wp_defaults_ok.
    + apply wp_config_parseMessage.
    + apply wp_eeprom_parseMessage.
Qed.

Lemma reboot_restores_configuration_witness :
  reachable (Fw.setup 2047) (Fw.parseMessage 64) Fw.USER_ID_FORMAT fw_configured
  /\ config (Fw.setup 2047 (power_cycle fw_configured)) = config fw_configured
  /\ membership (config (Fw.setup 2047 (power_cycle fw_configured))) = [7].
Proof.
  pose proof (proj1 reboot_restores_configuration 2047 64%nat fw_configured
                fw_configured_reachable) as H.
  split; [exact fw_configured_reachable|]. split; [exact H|].
  rewrite H. vm_compute. reflexivity.
Defined.

(** * [parseMessage] as a function of the text it tokenises *)

Section ParseText.

Lemma fw_parseMessage_text N event data d :
  Fw.parseMessage N event data d
  = dispatch_text (fun c => Z.to_nat (numGroups c)) Fw.runFunction
      (c_str (<[(N - 1)%nat := NUL]> (strncpy (replicate N NUL) event N)))
      event data d.
Proof. reflexivity. Qed.

Lemma wp_parseMessage_text event data d :
  WhitePaper.parseMessage event data d
  = dispatch_text (fun _ => MAX_DEVICE_GROUPS) WhitePaper.runFunction
      (c_str (strcpy (replicate (String.length data + 1) NUL) data))
      event data d.
Proof. reflexivity. Qed.

End ParseText.

Section HandlerFree.

Variable is_handler : LogRecord -> bool.

Hypothesis parse_formats_not_handler :
  forall r, In (log_format r) parse_formats -> is_handler r = false.

Implicit Types (d : Device) (event data : string).

Local Abbreviation received event data d :=
  (Log.trace EVENT_RECEIVED_FORMAT [AStr event; AStr data] d).

(** Runs that write entries of [parseMessage] only. *)
Lemma no_handler_received event data d :
  no_handler_with is_handler d (received event data d).
Proof.
  exists [mkLog TRACE None None EVENT_RECEIVED_FORMAT [AStr event; AStr data]].
  split; [reflexivity|]. cbn [forallb].
  rewrite parse_formats_not_handler; [reflexivity|]. simpl. tauto.
Qed.

Lemma no_handler_no_command event data U d :
  no_handler_with is_handler d
    (Log.trace "Event parsed %s" [AStr U] (received event data d)).
Proof.
  exists [mkLog TRACE None None EVENT_RECEIVED_FORMAT [AStr event; AStr data];
          mkLog TRACE None None "Event parsed %s" [AStr U]].
  split.
  - unfold Log.trace, Log.emit. simpl. rewrite <- app_assoc. reflexivity.
  - cbn [forallb].
    rewrite !parse_formats_not_handler; [reflexivity| |]; simpl; tauto.
Qed.

Lemma no_handler_not_addressed event data U C G d :
  no_handler_with is_handler d
    (Log.info "Device's group was NOT addressed: %s" [AStr G]
       (parsed event data U C d)).
Proof.
  exists [mkLog TRACE None None EVENT_RECEIVED_FORMAT [AStr event; AStr data];
          mkLog TRACE None None "Event parsed %s" [AStr U];
          mkLog TRACE None None "Command parsed: %s" [AStr C];
          mkLog INFO None None "Device's group was NOT addressed: %s" [AStr G]].
  split.
  - unfold parsed, Log.info, Log.trace, Log.emit. simpl.
    rewrite <- !app_assoc. reflexivity.
  - cbn [forallb].
    rewrite !parse_formats_not_handler; [reflexivity| | | |]; simpl; tauto.
Qed.

End HandlerFree.

Section SharedParse.

Variable bound : DeviceConfig_t -> nat.
Variable run : string -> string -> Device -> Device.
Variable is_handler : LogRecord -> bool.

Hypothesis parse_formats_not_handler :
  forall r, In (log_format r) parse_formats -> is_handler r = false.

Implicit Types (d : Device) (text event data : string).

Local Abbreviation received event data d :=
  (Log.trace EVENT_RECEIVED_FORMAT [AStr event; AStr data] d).

(** The outcome, by the tokens of the text. *)
Lemma dispatch_text_no_token text event data d :
  strtok text "/" = None ->
  dispatch_text bound run text event data d = received event data d.
Proof. intros H. unfold dispatch_text. cbv zeta. rewrite H. reflexivity. Qed.

Lemma dispatch_text_other_user text event data d U r1 :
  strtok text "/" = Some (U, r1) ->
  (strcmp U (c_str (userID (config d))) =? 0) = false ->
  dispatch_text bound run text event data d = received event data d.
Proof.
  intros H1 HU. unfold dispatch_text. cbv zeta. rewrite H1.
  change (config (Log.trace _ _ d)) with (config d). rewrite HU. reflexivity.
Qed.

Lemma dispatch_text_no_command text event data d U r1 :
  strtok text "/" = Some (U, r1) ->
  (strcmp U (c_str (userID (config d))) =? 0) = true ->
  strtok r1 "/" = None ->
  dispatch_text bound run text event data d
  = Log.trace "Event parsed %s" [AStr U] (received event data d).
Proof.
  intros H1 HU H2. unfold dispatch_text. cbv zeta. rewrite H1.
  change (config (Log.trace _ _ d)) with (config d). rewrite HU, H2. reflexivity.
Qed.

Lemma dispatch_text_broadcast text event data d U r1 C r2 :
  strtok text "/" = Some (U, r1) ->
  (strcmp U (c_str (userID (config d))) =? 0) = true ->
  strtok r1 "/" = Some (C, r2) ->
  strtok r2 "/" = None ->
  dispatch_text bound run text event data d
  = run C data
      (Log.info "Group parsed: %s" [ANull]
         (Log.info "All groups addressed!" [] (parsed event data U C d))).
Proof.
  intros H1 HU H2 H3. unfold dispatch_text. cbv zeta. rewrite H1.
  change (config (Log.trace _ _ d)) with (config d). rewrite HU, H2, H3.
  reflexivity.
Qed.

Lemma dispatch_text_selector text event data d U r1 C r2 G r3 :
  strtok text "/" = Some (U, r1) ->
  (strcmp U (c_str (userID (config d))) =? 0) = true ->
  strtok r1 "/" = Some (C, r2) ->
  strtok r2 "/" = Some (G, r3) ->
  dispatch_text bound run text event data d
  = if strcmp G (deviceID d) =? 0 then
      run C data
        (Log.info "Group parsed: %s" [AStr G]
           (Log.info "Device addressed by Device ID" []
              (parsed event data U C d)))
    else if groupScan_loop (to_uint32 (strtol G)) (deviceGroups (config d)) 0
              (bound (config d)) then
      run C data (Log.info "Group parsed: %s" [AStr G] (parsed event data U C d))
    else
      Log.info "Device's group was NOT addressed: %s" [AStr G]
        (parsed event data U C d).
Proof.
  intros H1 HU H2 H3. unfold dispatch_text. cbv zeta. rewrite H1.
  change (config (Log.trace _ _ d)) with (config d). rewrite HU, H2, H3.
  change (deviceID (Log.trace _ _ (Log.trace _ _ (Log.trace _ _ d))))
    with (deviceID d).
  change (config (Log.trace _ _ (Log.trace _ _ (Log.trace _ _ d))))
    with (config d).
  unfold parsed. cbn [AStr_or_null].
  destruct (strcmp G (deviceID d) =? 0); [reflexivity|].
  destruct (groupScan_loop _ _ _ _); reflexivity.
Qed.

Lemma dispatches_with_run C data d d0 :
  logged d d0 -> dispatches_with run C data d (run C data d0).
Proof. intros H. exists d0. split; [exact H|reflexivity]. Qed.

(** One decision per text, for every event name and payload. *)
Lemma dispatch_text_decision text d :
  exists decision : option string,
    forall event data,
      match decision with
      | Some command =>
          dispatches_with run command data d
            (dispatch_text bound run text event data d)
      | None =>
          no_handler_with is_handler d (dispatch_text bound run text event data d)
      end.
Proof.
  destruct (strtok text "/") as [[U r1]|] eqn:E1.
  2:{ exists None. intros event data.
      rewrite dispatch_text_no_token by assumption. apply (no_handler_received is_handler parse_formats_not_handler). }
  destruct (strcmp U (c_str (userID (config d))) =? 0) eqn:E2.
  2:{ exists None. intros event data.
      rewrite (dispatch_text_other_user _ _ _ _ _ _ E1 E2).
      apply (no_handler_received is_handler parse_formats_not_handler). }
  destruct (strtok r1 "/") as [[C r2]|] eqn:E3.
  2:{ exists None. intros event data.
      rewrite (dispatch_text_no_command _ _ _ _ _ _ E1 E2 E3).
      apply (no_handler_no_command is_handler parse_formats_not_handler). }
  destruct (strtok r2 "/") as [[G r3]|] eqn:E4.
  2:{ exists (Some C). intros event data.
      rewrite (dispatch_text_broadcast _ _ _ _ _ _ _ _ E1 E2 E3 E4).
      apply dispatches_with_run. do 2 apply logged_emit. apply logged_parsed. }
  destruct (strcmp G (deviceID d) =? 0) eqn:E5.
  { exists (Some C). intros event data.
    rewrite (dispatch_text_selector _ _ _ _ _ _ _ _ _ _ E1 E2 E3 E4), E5.
    apply dispatches_with_run. do 2 apply logged_emit. apply logged_parsed. }
  destruct (groupScan_loop (to_uint32 (strtol G)) (deviceGroups (config d)) 0
              (bound (config d))) eqn:E6.
  - exists (Some C). intros event data.
    rewrite (dispatch_text_selector _ _ _ _ _ _ _ _ _ _ E1 E2 E3 E4), E5, E6.
    apply dispatches_with_run. apply logged_emit, logged_parsed.
  - exists None. intros event data.
    rewrite (dispatch_text_selector _ _ _ _ _ _ _ _ _ _ E1 E2 E3 E4), E5, E6.
    apply (no_handler_not_addressed is_handler parse_formats_not_handler).
Qed.

End SharedParse.

Section SketchInstances.

Lemma fw_parse_formats r :
  In (log_format r) parse_formats -> Fw.is_handler_record r = false.
Proof.
  unfold Fw.is_handler_record. simpl.
  intros [<-|[<-|[<-|[<-|[]]]]]; reflexivity.
Qed.

Lemma wp_parse_formats r :
  In (log_format r) parse_formats -> WhitePaper.is_handler_record r = false.
Proof.
  unfold WhitePaper.is_handler_record. simpl.
  intros [<-|[<-|[<-|[<-|[]]]]]; reflexivity.
Qed.

End SketchInstances.

(** * Events that are dropped *)

Section Dropped.

Implicit Types (s t tok rest : string).

Lemma split_token_keeps_no_char x delim s : forall tok rest,
  no_char x s = true -> split_token delim s = (tok, rest) ->
  no_char x tok = true.
Proof.
  induction s as [|c s IH]; intros tok rest Hs H.
  - inversion H. reflexivity.
  - cbn [split_token] in H. simpl in Hs. apply andb_true_iff in Hs as [Hc Hs].
    destruct (in_set c delim).
    + inversion H. reflexivity.
    + destruct (split_token delim s) as [tok' rest'] eqn:E.
      inversion H; subst. simpl. rewrite Hc. exact (IH _ _ Hs eq_refl).
Qed.

Lemma skip_delims_keeps_no_char x delim s :
  no_char x s = true -> no_char x (skip_delims delim s) = true.
Proof.
  induction s as [|c s IH]; intros Hs; [reflexivity|].
  cbn [skip_delims]. destruct (in_set c delim); [|exact Hs].
  simpl in Hs. apply andb_true_iff in Hs as [_ Hs]. auto.
Qed.

Lemma strtok_nul_free s delim tok rest :
  nul_free s -> strtok s delim = Some (tok, rest) -> nul_free tok.
Proof.
  unfold nul_free, strtok. intros Hs H.
  pose proof (skip_delims_keeps_no_char NUL delim s Hs) as Hk.
  destruct (skip_delims delim s) as [|c s'] eqn:E; [discriminate|].
  injection H as H. exact (split_token_keeps_no_char NUL delim _ _ _ Hk H).
Qed.

(** No token of a C string equals the empty string. *)
Lemma strtok_strcmp_empty s delim tok rest :
  nul_free s -> strtok s delim = Some (tok, rest) ->
  (strcmp tok EmptyString =? 0) = false.
Proof.
  intros Hs H.
  pose proof (strtok_nul_free _ _ _ _ Hs H) as Hn.
  destruct (strtok_token _ _ _ _ H) as [Hne _].
  rewrite strcmp_eqb by (exact Hn || reflexivity).
  apply String.eqb_neq. exact Hne.
Qed.

Lemma nul_free_substring s n : nul_free s -> nul_free (substring 0 n s).
Proof.
  unfold nul_free. revert s. induction n as [|n IH]; intros [|c s] H;
    simpl in *; try reflexivity.
  apply andb_true_iff in H as [Hc Hs]. rewrite Hc. simpl. auto.
Qed.

Lemma substring_substring s n : substring 0 n (substring 0 n s) = substring 0 n s.
Proof. apply substring_all, length_substring_le. Qed.

End Dropped.

(** X11.  A device whose user ID is empty runs no handler, whatever the
    event and the payload: [strtok] returns no empty token, so the first
    segment never equals the user ID and [parseMessage] only traces the
    event.  This is the state of [Fw] after default initialisation, when it
    is subscribed to every event; it lasts until [setUserID] succeeds. *)
Theorem empty_user_id_drops_every_event :
  (forall N event data d,
     c_str (userID (config d)) = EmptyString ->
     Fw.parseMessage N event data d
     = Log.trace EVENT_RECEIVED_FORMAT [AStr event; AStr data] d
     /\ Fw.no_handler d (Fw.parseMessage N event data d))
  /\ (forall event data d,
        c_str (userID (config d)) = EmptyString ->
        WhitePaper.parseMessage event data d
        = Log.trace EVENT_RECEIVED_FORMAT [AStr event; AStr data] d
        /\ WhitePaper.no_handler d (WhitePaper.parseMessage event data d)).
Proof.
  assert (Hgen : forall bound run text event data d,
    nul_free text -> c_str (userID (config d)) = EmptyString ->
    dispatch_text bound run text event data d
    = Log.trace EVENT_RECEIVED_FORMAT [AStr event; AStr data] d).
  { intros bound run text event data d Hn Hu.
    destruct (strtok text "/") as [[U r1]|] eqn:E.
    - apply (dispatch_text_other_user _ _ _ _ _ _ U r1 E). rewrite Hu.
      exact (strtok_strcmp_empty _ _ _ _ Hn E).
    - apply dispatch_text_no_token. exact E. }
  split.
  - intros N event data d Hu. rewrite fw_parseMessage_text.
    rewrite Hgen by (apply c_str_nul_free || exact Hu).
    split; [reflexivity|].
    apply (no_handler_received Fw.is_handler_record fw_parse_formats).
  - intros event data d Hu. rewrite wp_parseMessage_text.
    rewrite Hgen by (apply c_str_nul_free || exact Hu).
    split; [reflexivity|].
    apply (no_handler_received WhitePaper.is_handler_record wp_parse_formats).
Qed.

Lemma empty_user_id_drops_every_event_witness :
  c_str (userID (config fw_booted)) = EmptyString
  /\ subscriptions fw_booted = [EmptyString]
  /\ Fw.no_handler fw_booted (Fw.parseMessage 64 "/f1" "on" fw_booted).
Proof.
  assert (Hu : c_str (userID (config fw_booted)) = EmptyString)
    by (vm_compute; reflexivity).
  split; [exact Hu|]. split; [vm_compute; reflexivity|].
  exact (proj2 (proj1 empty_user_id_drops_every_event 64%nat "/f1"%string
                  "on"%string fw_booted Hu)).
Defined.

(* An event whose first token is not the stored user ID is only traced. *)
Lemma fw_first_token_differs (N : nat) (event data : string) (d : Device) :
  nul_free event ->
  (String.length event < N)%nat ->
  (forall U rest, strtok event "/" = Some (U, rest) ->
                  U <> c_str (userID (config d))) ->
  Fw.parseMessage N event data d
  = Log.trace EVENT_RECEIVED_FORMAT [AStr event; AStr data] d.
Proof.
  intros Hn Hlen Hother.
  rewrite fw_parseMessage_text, fw_event_name_fit by assumption.
  destruct (strtok event "/") as [[U r1]|] eqn:E.
  - apply (dispatch_text_other_user _ _ _ _ _ _ U r1 E).
    rewrite strcmp_eqb
      by (exact (strtok_nul_free _ _ _ _ Hn E) || apply c_str_nul_free).
    apply String.eqb_neq. exact (Hother U r1 eq_refl).
  - apply dispatch_text_no_token. exact E.
Qed.

(** X12.  On a device whose configuration satisfies its invariants
    ([numGroups <= 16], NUL-terminated user ID), [Fw] drops an event whose
    name has no segment at all (empty, or slashes only) or whose first
    segment is not the configured user ID: it
    writes the trace of the event received and nothing else.  The comparison
    is made on the whole first segment, so a segment that merely begins with
    the user ID, as the subscription prefix allows, is dropped too. *)
Theorem fw_other_user_dropped (N : nat) (event data : string) (d : Device) :
  config_inv (config d) ->
  nul_free event ->
  (String.length event < N)%nat ->
  (forall U rest, strtok event "/" = Some (U, rest) ->
                  U <> c_str (userID (config d))) ->
  Fw.parseMessage N event data d
  = Log.trace EVENT_RECEIVED_FORMAT [AStr event; AStr data] d
  /\ Fw.no_handler d (Fw.parseMessage N event data d).
Proof.
  intros _ Hn Hlen Hother.
  pose proof (fw_first_token_differs N event data d Hn Hlen Hother) as Heq.
  split; [exact Heq|]. rewrite Heq.
  apply (no_handler_received Fw.is_handler_record fw_parse_formats).
Qed.

Lemma fw_other_user_dropped_witness :
  config_inv (config scenario_device)
  /\ nul_free "123ABCD/f1/7"
  /\ (String.length "123ABCD/f1/7" < 64)%nat
  /\ (forall U rest, strtok "123ABCD/f1/7" "/" = Some (U, rest) ->
                     U <> c_str (userID (config scenario_device)))
  /\ Fw.no_handler scenario_device
       (Fw.parseMessage 64 "123ABCD/f1/7" "on" scenario_device).
Proof.
  assert (Hn : nul_free "123ABCD/f1/7") by reflexivity.
  assert (Hlen : (String.length "123ABCD/f1/7" < 64)%nat) by (simpl; lia).
  assert (Hother : forall U rest, strtok "123ABCD/f1/7" "/" = Some (U, rest) ->
                     U <> c_str (userID (config scenario_device))).
  { intros U rest H. vm_compute in H. injection H as <- _. discriminate. }
  split; [exact inv_scenario_device|].
  split; [exact Hn|]. split; [exact Hlen|]. split; [exact Hother|].
  exact (proj2 (fw_other_user_dropped 64 "123ABCD/f1/7" "on" scenario_device
                  inv_scenario_device Hn Hlen Hother)).
Defined.

(** * Further topics, in [Fw] *)

Section FwTopics.

Lemma fw_dispatch_text_fit N event data d :
  nul_free event -> (String.length event < N)%nat ->
  Fw.parseMessage N event data d
  = dispatch_text (fun c => Z.to_nat (numGroups c)) Fw.runFunction
      event event data d.
Proof.
  intros Hn Hlen. rewrite fw_parseMessage_text, fw_event_name_fit by assumption.
  reflexivity.
Qed.

Lemma strcmp_userID_refl U d :
  U = c_str (userID (config d)) ->
  (strcmp U (c_str (userID (config d))) =? 0) = true.
Proof. intros ->. rewrite strcmp_refl. reflexivity. Qed.

Lemma segment_app_slash_nul_free s : nul_free s -> nul_free (s ++ "/").
Proof.
  unfold nul_free. intros H. rewrite no_char_app, H. reflexivity.
Qed.

Lemma strtok_segment_then_slash t :
  t <> EmptyString -> no_char "/" t = true ->
  strtok (t ++ "/") "/" = Some (t, EmptyString).
Proof.
  intros Hne Hs.
  exact (strtok_segment_slash t EmptyString Hne Hs).
Qed.

Lemma string_length_app s t :
  String.length (s ++ t) = (String.length s + String.length t)%nat.
Proof. induction s as [|c s IH]; simpl; [reflexivity|]. rewrite IH. reflexivity. Qed.

(* Cutting a text after a segment and its slash keeps both. *)
Lemma substring_segment_slash s r n :
  (String.length s < n)%nat ->
  substring 0 n (s ++ String "/" r)
  = (s ++ String "/" (substring 0 (n - S (String.length s)) r))%string.
Proof.
  revert n. induction s as [|c s IH]; intros [|n] H; simpl in *; try lia.
  - rewrite Nat.sub_0_r. reflexivity.
  - rewrite IH by lia. reflexivity.
Qed.

End FwTopics.

(** X13.  On a device whose configuration satisfies its invariants
    ([numGroups <= 16], NUL-terminated user ID), [Fw] runs no handler for an
    event that names the user ID and no command: for the topics [U] and
    [U/] it traces the event and the user segment, and returns. *)
Theorem fw_missing_command (N : nat) (d : Device) (U data : string) :
  config_inv (config d) ->
  segment U ->
  U = c_str (userID (config d)) ->
  ((String.length U < N)%nat ->
   Fw.parseMessage N U data d
   = Log.trace "Event parsed %s" [AStr U]
       (Log.trace EVENT_RECEIVED_FORMAT [AStr U; AStr data] d)
   /\ Fw.no_handler d (Fw.parseMessage N U data d))
  /\ ((String.length (U ++ "/") < N)%nat ->
      Fw.parseMessage N (U ++ "/") data d
      = Log.trace "Event parsed %s" [AStr U]
          (Log.trace EVENT_RECEIVED_FORMAT [AStr (U ++ "/"); AStr data] d)
      /\ Fw.no_handler d (Fw.parseMessage N (U ++ "/") data d)).
Proof.
  intros _ [HU1 HU2 HU3] HUeq.
  pose proof (strcmp_userID_refl U d HUeq) as Hcmp.
  split; intros Hlen.
  - assert (Heq : Fw.parseMessage N U data d
                  = Log.trace "Event parsed %s" [AStr U]
                      (Log.trace EVENT_RECEIVED_FORMAT [AStr U; AStr data] d)).
    { rewrite fw_dispatch_text_fit by assumption.
      apply (dispatch_text_no_command _ _ _ _ _ _ U EmptyString);
        [apply strtok_segment_end; assumption|exact Hcmp|reflexivity]. }
    split; [exact Heq|]. rewrite Heq.
    apply (no_handler_no_command Fw.is_handler_record fw_parse_formats).
  - assert (Heq : Fw.parseMessage N (U ++ "/") data d
                  = Log.trace "Event parsed %s" [AStr U]
                      (Log.trace EVENT_RECEIVED_FORMAT
                         [AStr (U ++ "/"); AStr data] d)).
    { rewrite fw_dispatch_text_fit
        by (try apply segment_app_slash_nul_free; assumption).
      apply (dispatch_text_no_command _ _ _ _ _ _ U EmptyString);
        [apply strtok_segment_then_slash; assumption|exact Hcmp|reflexivity]. }
    split; [exact Heq|]. rewrite Heq.
    apply (no_handler_no_command Fw.is_handler_record fw_parse_formats).
Qed.

Lemma fw_missing_command_witness :
  config_inv (config scenario_device)
  /\ segment "123ABC"
  /\ "123ABC"%string = c_str (userID (config scenario_device))
  /\ (String.length "123ABC" < 64)%nat
  /\ Fw.no_handler scenario_device
       (Fw.parseMessage 64 "123ABC" "on" scenario_device).
Proof.
  assert (HU : segment "123ABC")
    by (constructor; [discriminate|reflexivity|reflexivity]).
  assert (Hlen : (String.length "123ABC" < 64)%nat) by (simpl; lia).
  split; [exact inv_scenario_device|].
  split; [exact HU|]. split; [reflexivity|]. split; [exact Hlen|].
  exact (proj2 (proj1 (fw_missing_command 64 scenario_device "123ABC" "on"
                         inv_scenario_device HU eq_refl) Hlen)).
Defined.

(** X14.  On a device whose configuration satisfies its invariants
    ([numGroups <= 16], NUL-terminated user ID), [Fw] reads three segments
    and no more: a topic [U/C/G/T], with any text [T] after the selector, is
    treated as the topic [U/C/G], provided [U/C/G] and the slash that
    follows it fit the event-name buffer ([T] need not: where it is cut
    makes no difference).  The topic is dispatched when [G] is the device
    ID, and otherwise exactly when the integer value of [G] is a member. *)
Theorem fw_fourth_segment_ignored (N : nat) (d : Device)
    (U C G T data : string) :
  wf_device d -> config_inv (config d) ->
  segment U -> segment C -> segment G -> nul_free T ->
  U = c_str (userID (config d)) ->
  (String.length (U ++ "/" ++ C ++ "/" ++ G) + 1 < N)%nat ->
  let d' := Fw.parseMessage N (U ++ "/" ++ C ++ "/" ++ G ++ "/" ++ T) data d in
  (G = deviceID d -> Fw.dispatches C data d d')
  /\ (G <> deviceID d ->
      (Fw.dispatches C data d d' <-> decimal_value G ∈ membership (config d))
      /\ (decimal_value G ∉ membership (config d) -> Fw.no_handler d d')).
Proof.
  intros Hwf _ [HU1 HU2 HU3] [HC1 HC2 HC3] [HG1 HG2 HG3] HT HUeq Hlen d'.
  subst d'. rewrite !slash_append in *.
  assert (Hnul : nul_free (U ++ String "/" (C ++ String "/" (G ++ String "/" T))))
    by (repeat apply segment_slash_nul_free; assumption).
  repeat first [rewrite string_length_app in Hlen
               | progress cbn [String.length] in Hlen].
  rewrite fw_parseMessage_text, fw_event_name by assumption.
  rewrite (substring_segment_slash U) by lia.
  rewrite (substring_segment_slash C) by lia.
  rewrite (substring_segment_slash G) by lia.
  match goal with
  | |- context [substring 0 ?k T] => set (T' := substring 0 k T)
  end.
  rewrite (dispatch_text_selector _ _ _ _ _ _ U _ C _ G T'
             (strtok_segment_slash U _ HU1 HU2) (strcmp_userID_refl U d HUeq)
             (strtok_segment_slash C _ HC1 HC2)
             (strtok_segment_slash G T' HG1 HG2)).
  rewrite (strcmp_eqb G (deviceID d)) by (assumption || apply Hwf).
  cbv beta.
  pose proof (groupScan_decimal (config d) G (wf_dev_config d Hwf)) as Hscan.
  split.
  - intros ->. rewrite String.eqb_refl.
    eexists. split; [|reflexivity]. do 2 apply logged_emit. apply logged_parsed.
  - intros Hid. apply String.eqb_neq in Hid. rewrite Hid.
    destruct (groupScan_loop _ _ _ _) eqn:E.
    + assert (Hin : decimal_value G ∈ membership (config d))
        by (apply Hscan; reflexivity).
      split; [|tauto]. split; [auto|]. intros _.
      eexists. split; [|reflexivity]. apply logged_emit, logged_parsed.
    + assert (Hout : decimal_value G ∉ membership (config d)).
      { intros Hin. apply Hscan in Hin. discriminate. }
      split.
      * split; [|tauto]. intros Hd. exfalso.
        exact (fw_not_addressed_not_dispatched _ _ _ _ _ Hd).
      * intros _.
        apply (no_handler_not_addressed Fw.is_handler_record fw_parse_formats).
Qed.

Lemma fw_fourth_segment_ignored_witness :
  wf_device scenario_device
  /\ config_inv (config scenario_device)
  /\ segment "123ABC" /\ segment "f1" /\ segment "7" /\ nul_free "x/y"
  /\ (String.length "123ABC/f1/7" + 1 < 13)%nat
  /\ "7"%string <> deviceID scenario_device
  /\ Fw.dispatches "f1" "on" scenario_device
       (Fw.parseMessage 13 "123ABC/f1/7/x/y" "on" scenario_device).
Proof.
  assert (HU : segment "123ABC")
    by (constructor; [discriminate|reflexivity|reflexivity]).
  assert (HC : segment "f1")
    by (constructor; [discriminate|reflexivity|reflexivity]).
  assert (HG : segment "7")
    by (constructor; [discriminate|reflexivity|reflexivity]).
  assert (HT : nul_free "x/y") by reflexivity.
  assert (Hlen : (String.length "123ABC/f1/7" + 1 < 13)%nat) by (simpl; lia).
  assert (Hid : "7"%string <> deviceID scenario_device) by discriminate.
  split; [exact wf_scenario_device|]. split; [exact inv_scenario_device|].
  split; [exact HU|]. split; [exact HC|].
  split; [exact HG|]. split; [exact HT|]. split; [exact Hlen|].
  split; [exact Hid|].
  destruct (fw_fourth_segment_ignored 13 scenario_device "123ABC" "f1" "7" "x/y"
              "on" wf_scenario_device inv_scenario_device HU HC HG HT eq_refl
              Hlen) as [_ Hsel].
  apply (proj1 (Hsel Hid)). vm_compute. constructor.
Defined.

(** X15.  [Fw] copies the event name into a buffer of
    [MAX_EVENT_NAME_LENGTH] bytes and forces a terminator into the last one,
    so its decision depends on the first [MAX_EVENT_NAME_LENGTH - 1]
    characters of the event name only: two event names that agree on them
    get the same decision for every payload (the same command is run, or no
    handler is). *)
Theorem fw_decision_reads_buffer_only (N : nat) (event1 event2 : string)
    (d : Device) :
  nul_free event1 -> nul_free event2 ->
  substring 0 (N - 1) event1 = substring 0 (N - 1) event2 ->
  exists decision : option string,
    forall data,
      match decision with
      | Some command =>
          Fw.dispatches command data d (Fw.parseMessage N event1 data d)
          /\ Fw.dispatches command data d (Fw.parseMessage N event2 data d)
      | None =>
          Fw.no_handler d (Fw.parseMessage N event1 data d)
          /\ Fw.no_handler d (Fw.parseMessage N event2 data d)
      end.
Proof.
  intros H1 H2 Hsame.
  destruct (dispatch_text_decision (fun c => Z.to_nat (numGroups c))
              Fw.runFunction Fw.is_handler_record fw_parse_formats
              (substring 0 (N - 1) event1) d) as [decision Hdec].
  exists decision. intros data.
  pose proof (Hdec event1 data) as Ha. pose proof (Hdec event2 data) as Hb.
  rewrite !fw_parseMessage_text, !fw_event_name by assumption.
  rewrite <- Hsame.
  destruct decision; split; assumption.
Qed.

Lemma fw_decision_reads_buffer_only_witness :
  nul_free "123ABC/f1/8" /\ nul_free "123ABC/f1"
  /\ substring 0 (10 - 1) "123ABC/f1/8" = substring 0 (10 - 1) "123ABC/f1"
  /\ exists decision : option string,
       forall data,
         match decision with
         | Some command =>
             Fw.dispatches command data scenario_device
               (Fw.parseMessage 10 "123ABC/f1/8" data scenario_device)
             /\ Fw.dispatches command data scenario_device
                  (Fw.parseMessage 10 "123ABC/f1" data scenario_device)
         | None =>
             Fw.no_handler scenario_device
               (Fw.parseMessage 10 "123ABC/f1/8" data scenario_device)
             /\ Fw.no_handler scenario_device
                  (Fw.parseMessage 10 "123ABC/f1" data scenario_device)
         end.
Proof.
  split; [reflexivity|]. split; [reflexivity|]. split; [reflexivity|].
  exact (fw_decision_reads_buffer_only 10 "123ABC/f1/8" "123ABC/f1"
           scenario_device eq_refl eq_refl eq_refl).
Defined.

(** * Commands *)

Section Commands.

Lemma strcmp_literal C lit :
  nul_free C -> nul_free lit -> C <> lit -> (strcmp C lit =? 0) = false.
Proof.
  intros HC Hl Hne. rewrite strcmp_eqb by assumption.
  apply String.eqb_neq. exact Hne.
Qed.

Lemma wp_not_addressed_not_dispatched C data d d1 args :
  ~ WhitePaper.dispatches C data d
      (Log.info "Device's group was NOT addressed: %s" args d1).
Proof.
  intros (d0 & _ & H).
  destruct (wp_runFunction_emit C data d0) as (r & Hr & Hfmt).
  apply (f_equal log) in H. rewrite Hr in H.
  unfold Log.info, Log.emit in H. simpl in H.
  apply app_inj_tail in H as [_ <-]. simpl in Hfmt.
  destruct Hfmt as [?|[?|[?|?]]]; discriminate.
Qed.

Lemma wp_dispatch_text_payload event data d :
  nul_free data ->
  WhitePaper.parseMessage event data d
  = dispatch_text (fun _ => MAX_DEVICE_GROUPS) WhitePaper.runFunction
      data event data d.
Proof.
  intros Hn. rewrite wp_parseMessage_text, wp_event_data by assumption.
  reflexivity.
Qed.

(** The scan of the white-paper sketch compares the selector's integer
    value with every cell of [deviceGroups]. *)
Lemma groupScan_all_cells c G :
  wf_config c ->
  groupScan_loop (to_uint32 (strtol G)) (deviceGroups c) 0 MAX_DEVICE_GROUPS
    = true
  <-> decimal_value G ∈ deviceGroups c.
Proof.
  intros Hwf. rewrite groupScan_loop_spec, drop_0.
  rewrite take_ge by (rewrite (wf_deviceGroups_len c Hwf); lia).
  pose proof (wf_deviceGroups c Hwf) as Hall. rewrite Forall_forall in Hall.
  split; intros Hin.
  - pose proof (group_value_eqb G _ (Hall _ Hin)) as E.
    rewrite Z.eqb_refl in E. symmetry in E. apply Z.eqb_eq in E.
    rewrite E. exact Hin.
  - pose proof (group_value_eqb G _ (Hall _ Hin)) as E.
    rewrite Z.eqb_refl in E. apply Z.eqb_eq in E. rewrite E. exact Hin.
Qed.

End Commands.

Local Ltac six_entries :=
  unfold parsed, Log.info, Log.warn, Log.trace, Log.emit; simpl;
  eexists; split; [rewrite <- ?app_assoc; reflexivity | reflexivity].

(** X16.  The command table of [Fw], on a device whose configuration
    satisfies its invariants ([numGroups <= 16], NUL-terminated user ID):
    on a broadcast topic [U/C] that fits the event-name buffer, the
    commands ["f1"], ["f2"] and ["f3"] run [function1], [function2] and
    [function3] with the payload; any other command, which includes another
    spelling such as ["F1"], only adds the warning "Unknown function
    received" and runs no handler. *)
Theorem fw_command_table (N : nat) (d : Device) (U C data : string) :
  wf_device d -> config_inv (config d) -> segment U -> segment C ->
  U = c_str (userID (config d)) ->
  (String.length (U ++ "/" ++ C) < N)%nat ->
  let pre := Log.info "Group parsed: %s" [ANull]
               (Log.info "All groups addressed!" []
                  (parsed (U ++ "/" ++ C) data U C d)) in
  let d' := Fw.parseMessage N (U ++ "/" ++ C) data d in
  (C = "f1"%string -> d' = Fw.function1 data pre)
  /\ (C = "f2"%string -> d' = Fw.function2 data pre)
  /\ (C = "f3"%string -> d' = Fw.function3 data pre)
  /\ (C <> "f1"%string -> C <> "f2"%string -> C <> "f3"%string ->
      d' = Log.warn "Unknown function received: %s" [AStr C] pre
      /\ Fw.no_handler d d').
Proof.
  intros Hwf _ [HU1 HU2 HU3] [HC1 HC2 HC3] HUeq Hlen pre d'.
  assert (Heq : d' = Fw.runFunction C data pre).
  { subst d' pre. rewrite slash_append in *.
    apply (fw_parse_no_selector N d _ U C C EmptyString data); try assumption.
    - apply segment_slash_nul_free; assumption.
    - apply strtok_segment_slash; assumption.
    - apply strtok_segment_end; assumption.
    - reflexivity. }
  rewrite Heq. clear Heq d'.
  split; [intros ->; reflexivity|]. split; [intros ->; reflexivity|].
  split; [intros ->; reflexivity|].
  intros H1 H2 H3. unfold Fw.runFunction.
  rewrite !strcmp_literal by (assumption || reflexivity).
  split; [reflexivity|]. subst pre. six_entries.
Qed.

Lemma fw_command_table_witness :
  wf_device scenario_device
  /\ config_inv (config scenario_device)
  /\ segment "123ABC" /\ segment "F1"
  /\ (String.length "123ABC/F1" < 64)%nat
  /\ Fw.no_handler scenario_device
       (Fw.parseMessage 64 "123ABC/F1" "on" scenario_device).
Proof.
  assert (HU : segment "123ABC")
    by (constructor; [discriminate|reflexivity|reflexivity]).
  assert (HC : segment "F1")
    by (constructor; [discriminate|reflexivity|reflexivity]).
  assert (Hlen : (String.length "123ABC/F1" < 64)%nat) by (simpl; lia).
  split; [exact wf_scenario_device|]. split; [exact inv_scenario_device|].
  split; [exact HU|]. split; [exact HC|].
  split; [exact Hlen|].
  destruct (fw_command_table 64 scenario_device "123ABC" "F1" "on"
              wf_scenario_device inv_scenario_device HU HC eq_refl Hlen)
    as (_ & _ & _ & Hunknown).
  apply Hunknown; discriminate.
Defined.

(** X17.  The white-paper sketch decides on the payload.  On a device
    whose configuration satisfies its invariants ([numGroups <= 16],
    NUL-terminated user ID) and whose configured user ID is [U]: whatever
    the event name, a payload [U/C] is dispatched, a payload [U/C/G] with [G] the
    device ID is dispatched, and a payload [U/C/G] with any other [G] is
    dispatched exactly when the integer value of [G] is in one of the 16
    cells of [deviceGroups], whether or not the cell is below [numGroups];
    no handler runs otherwise. *)
Theorem wp_dispatch_by_payload (d : Device) (U C G : string) :
  wf_device d -> config_inv (config d) ->
  segment U -> segment C -> segment G ->
  U = c_str (userID (config d)) ->
  (forall event,
     WhitePaper.dispatches C (U ++ "/" ++ C) d
       (WhitePaper.parseMessage event (U ++ "/" ++ C) d))
  /\ (forall event,
        let data := (U ++ "/" ++ C ++ "/" ++ G)%string in
        let d' := WhitePaper.parseMessage event data d in
        (G = deviceID d -> WhitePaper.dispatches C data d d')
        /\ (G <> deviceID d ->
            (WhitePaper.dispatches C data d d'
             <-> decimal_value G ∈ deviceGroups (config d))
            /\ (decimal_value G ∉ deviceGroups (config d) ->
                WhitePaper.no_handler d d'))).
Proof.
  intros Hwf _ [HU1 HU2 HU3] [HC1 HC2 HC3] [HG1 HG2 HG3] HUeq.
  pose proof (strcmp_userID_refl U d HUeq) as Hcmp.
  split.
  - intros event. rewrite slash_append.
    rewrite wp_dispatch_text_payload
      by (apply segment_slash_nul_free; assumption).
    rewrite (dispatch_text_broadcast _ _ _ _ _ _ U _ C EmptyString
               (strtok_segment_slash U _ HU1 HU2) Hcmp
               (strtok_segment_end C HC1 HC2) (strtok_empty "/")).
    eexists. split; [|reflexivity]. do 2 apply logged_emit. apply logged_parsed.
  - intros event data d'. subst d' data. rewrite !slash_append.
    rewrite wp_dispatch_text_payload
      by (repeat apply segment_slash_nul_free; assumption).
    rewrite (dispatch_text_selector _ _ _ _ _ _ U _ C _ G EmptyString
               (strtok_segment_slash U _ HU1 HU2) Hcmp
               (strtok_segment_slash C _ HC1 HC2)
               (strtok_segment_end G HG1 HG2)).
    rewrite (strcmp_eqb G (deviceID d)) by (assumption || apply Hwf).
    cbv beta.
    pose proof (groupScan_all_cells (config d) G (wf_dev_config d Hwf)) as Hscan.
    split.
    + intros ->. rewrite String.eqb_refl.
      eexists. split; [|reflexivity]. do 2 apply logged_emit. apply logged_parsed.
    + intros Hid. apply String.eqb_neq in Hid. rewrite Hid.
      destruct (groupScan_loop _ _ _ _) eqn:E.
      * assert (Hin : decimal_value G ∈ deviceGroups (config d))
          by (apply Hscan; reflexivity).
        split; [|tauto]. split; [auto|]. intros _.
        eexists. split; [|reflexivity]. apply logged_emit, logged_parsed.
      * assert (Hout : decimal_value G ∉ deviceGroups (config d)).
        { intros Hin. apply Hscan in Hin. discriminate. }
        split.
        -- split; [|tauto]. intros Hd. exfalso.
           exact (wp_not_addressed_not_dispatched _ _ _ _ _ Hd).
        -- intros _.
           apply (no_handler_not_addressed WhitePaper.is_handler_record
                    wp_parse_formats).
Qed.

Lemma wp_dispatch_by_payload_witness :
  wf_device whitepaper_booted
  /\ config_inv (config whitepaper_booted)
  /\ segment "000000" /\ segment "red" /\ segment "9"
  /\ "000000"%string = c_str (userID (config whitepaper_booted))
  /\ "9"%string <> deviceID whitepaper_booted
  /\ WhitePaper.no_handler whitepaper_booted
       (WhitePaper.parseMessage "any/name" "000000/red/9" whitepaper_booted).
Proof.
  assert (Hwf : wf_device whitepaper_booted).
  { constructor; [|reflexivity]. unfold whitepaper_booted.
    rewrite (wp_setup_defaults 2047 factory_device wf_erased_config eq_refl).
    apply (wp_defaults_ok erased_config wf_erased_config). }
  assert (Hinv : config_inv (config whitepaper_booted)).
  { unfold whitepaper_booted.
    rewrite (wp_setup_defaults 2047 factory_device wf_erased_config eq_refl).
    apply (wp_defaults_ok erased_config wf_erased_config). }
  assert (HU : segment "000000")
    by (constructor; [discriminate|reflexivity|reflexivity]).
  assert (HC : segment "red")
    by (constructor; [discriminate|reflexivity|reflexivity]).
  assert (HG : segment "9")
    by (constructor; [discriminate|reflexivity|reflexivity]).
  assert (HUeq : "000000"%string = c_str (userID (config whitepaper_booted)))
    by (vm_compute; reflexivity).
  assert (Hid : "9"%string <> deviceID whitepaper_booted) by discriminate.
  split; [exact Hwf|]. split; [exact Hinv|].
  split; [exact HU|]. split; [exact HC|].
  split; [exact HG|]. split; [exact HUeq|]. split; [exact Hid|].
  destruct (wp_dispatch_by_payload whitepaper_booted "000000" "red" "9"
              Hwf Hinv HU HC HG HUeq) as [_ Hsel].
  destruct (Hsel "any/name"%string) as [_ Hother].
  apply (proj2 (Hother Hid)).
  unfold whitepaper_booted.
  rewrite (wp_setup_defaults 2047 factory_device wf_erased_config eq_refl).
  change (decimal_value "9") with 9. unfold wp_defaults.
  cbn [deviceGroups]. intros H. apply elem_of_replicate in H as [H _].
  discriminate.
Defined.

(** X18.  The white-paper sketch makes one decision per payload: for every
    payload there is one decision (a command, or none) that holds for every
    event name. *)
Theorem wp_event_name_ignored (data : string) (d : Device) :
  exists decision : option string,
    forall event,
      match decision with
      | Some command =>
          WhitePaper.dispatches command data d
            (WhitePaper.parseMessage event data d)
      | None =>
          WhitePaper.no_handler d (WhitePaper.parseMessage event data d)
      end.
Proof.
  destruct (dispatch_text_decision (fun _ => MAX_DEVICE_GROUPS)
              WhitePaper.runFunction WhitePaper.is_handler_record
              wp_parse_formats
              (c_str (strcpy (replicate (String.length data + 1) NUL) data)) d)
    as [decision Hdec].
  exists decision. intros event. rewrite wp_parseMessage_text.
  exact (Hdec event data).
Qed.

(** X19.  The command table of the white-paper sketch, on a device whose
    configuration satisfies its invariants ([numGroups <= 16],
    NUL-terminated user ID): on a broadcast
    payload [U/C], the commands ["red"], ["green"] and ["blue"] set the LED
    to that colour; any other command only adds the warning "Unknown
    function received", runs no handler and leaves the LED colour alone. *)
Theorem wp_command_table (event : string) (d : Device) (U C : string) :
  wf_device d -> config_inv (config d) -> segment U -> segment C ->
  U = c_str (userID (config d)) ->
  let data := (U ++ "/" ++ C)%string in
  let d' := WhitePaper.parseMessage event data d in
  (C = "red"%string -> rgb_color d' = (255, 0, 0))
  /\ (C = "green"%string -> rgb_color d' = (0, 255, 0))
  /\ (C = "blue"%string -> rgb_color d' = (0, 0, 255))
  /\ (C <> "red"%string -> C <> "green"%string -> C <> "blue"%string ->
      rgb_color d' = rgb_color d /\ WhitePaper.no_handler d d').
Proof.
  intros Hwf _ [HU1 HU2 HU3] [HC1 HC2 HC3] HUeq data d'.
  assert (Heq : d' = WhitePaper.runFunction C data
                       (Log.info "Group parsed: %s" [ANull]
                          (Log.info "All groups addressed!" []
                             (parsed event data U C d)))).
  { subst d' data. rewrite slash_append.
    rewrite wp_dispatch_text_payload
      by (apply segment_slash_nul_free; assumption).
    apply (dispatch_text_broadcast _ _ _ _ _ _ U C C EmptyString);
      [apply strtok_segment_slash; assumption
      |apply strcmp_userID_refl; assumption
      |apply strtok_segment_end; assumption
      |reflexivity]. }
  rewrite Heq. clear Heq d'.
  split; [intros ->; reflexivity|]. split; [intros ->; reflexivity|].
  split; [intros ->; reflexivity|].
  intros H1 H2 H3. unfold WhitePaper.runFunction.
  rewrite !strcmp_literal by (assumption || reflexivity).
  split; [reflexivity|]. six_entries.
Qed.

Lemma wp_command_table_witness :
  wf_device scenario_device
  /\ config_inv (config scenario_device)
  /\ segment "123ABC" /\ segment "green"
  /\ rgb_color (WhitePaper.parseMessage "any" "123ABC/green" scenario_device)
     = (0, 255, 0).
Proof.
  assert (HU : segment "123ABC")
    by (constructor; [discriminate|reflexivity|reflexivity]).
  assert (HC : segment "green")
    by (constructor; [discriminate|reflexivity|reflexivity]).
  split; [exact wf_scenario_device|]. split; [exact inv_scenario_device|].
  split; [exact HU|]. split; [exact HC|].
  destruct (wp_command_table "any" scenario_device "123ABC" "green"
              wf_scenario_device inv_scenario_device HU HC eq_refl)
    as (_ & Hgreen & _).
  exact (Hgreen eq_refl).
Defined.

(** * Administrative calls followed by events, in [Fw] *)

Section CallsThenEvents.

Implicit Types (d : Device) (extra : string).

Lemma deviceID_addToGroup fmt extra d :
  deviceID (snd (addToGroup fmt extra d)) = deviceID d.
Proof.
  unfold addToGroup. cbv zeta.
  destruct ((0 <? to_int (strtol extra)) && (to_int (strtol extra) <? 256));
    [destruct (numGroups (config d) <? Z.of_nat MAX_DEVICE_GROUPS)|];
    reflexivity.
Qed.

Lemma deviceID_clearGroups fmt extra d :
  deviceID (snd (clearGroups fmt extra d)) = deviceID d.
Proof. reflexivity. Qed.

Lemma deviceID_setUserID fmt extra d :
  deviceID (snd (setUserID fmt extra d)) = deviceID d.
Proof.
  unfold setUserID. cbv zeta.
  destruct (0 <? Z.of_nat (String.length extra)); reflexivity.
Qed.

Lemma no_char_substring x s n :
  no_char x s = true -> no_char x (substring 0 n s) = true.
Proof.
  revert s. induction n as [|n IH]; intros [|c s] H; simpl in *;
    try reflexivity.
  apply andb_true_iff in H as [Hc Hs]. rewrite Hc. simpl. auto.
Qed.

Lemma segment_substring s n :
  segment s -> (0 < n)%nat -> segment (substring 0 n s).
Proof.
  intros [H1 H2 H3] Hn. constructor.
  - destruct s as [|c s]; [congruence|]. destruct n; [lia|]. discriminate.
  - apply no_char_substring. exact H2.
  - apply nul_free_substring. exact H3.
Qed.


Lemma setUserID_c_str fmt extra d :
  wf_config (config d) -> extra <> EmptyString -> nul_free extra ->
  fst (setUserID fmt extra d) = 0
  /\ config (snd (setUserID fmt extra d))
     = set_userID (cells extra MAX_USER_ID_LEN ++ [NUL]) (config d)
  /\ c_str (userID (config (snd (setUserID fmt extra d))))
     = substring 0 MAX_USER_ID_LEN extra.
Proof.
  intros Hwf Hne Hnul.
  destruct (setUserID_stored fmt extra d Hwf Hne) as (H0 & Hc & _).
  split; [exact H0|]. split; [exact Hc|]. rewrite Hc.
  exact (c_str_cells extra MAX_USER_ID_LEN [] Hnul).
Qed.

End CallsThenEvents.

(** X20.  After a successful [setUserID] the device answers to the stored
    user ID, which is the first 8 characters of the argument: in [Fw] a
    topic made of that stored ID and a command is dispatched, while, for an
    argument longer than 8 characters, a topic that spells the argument in
    full is dropped. *)
Theorem fw_setUserID_then_event (N : nat) (d : Device) (extra C data : string) :
  wf_device d -> segment extra -> segment C ->
  let d1 := snd (Fw.setUserID extra d) in
  let U := substring 0 MAX_USER_ID_LEN extra in
  c_str (userID (config d1)) = U
  /\ ((String.length (U ++ "/" ++ C) < N)%nat ->
      Fw.dispatches C data d1 (Fw.parseMessage N (U ++ "/" ++ C) data d1))
  /\ ((MAX_USER_ID_LEN < String.length extra)%nat ->
      (String.length (extra ++ "/" ++ C) < N)%nat ->
      Fw.no_handler d1 (Fw.parseMessage N (extra ++ "/" ++ C) data d1)).
Proof.
  intros Hwf Hex HC d1 U.
  pose proof Hex as [He1 He2 He3].
  assert (Hstored : config d1
                     = set_userID (cells extra MAX_USER_ID_LEN ++ [NUL]) (config d)
                     /\ c_str (userID (config d1)) = U).
  { exact (proj2 (setUserID_c_str Fw.USER_ID_FORMAT extra d
                    (wf_dev_config d Hwf) He1 He3)). }
  destruct Hstored as [Hc Hstr].
  assert (Hok1 : wf_device d1).
  { constructor.
    - rewrite Hc.
      destruct (wf_dev_config d Hwf) as [W1 W2 W3 W4 W5].
      unfold set_userID.
      constructor; cbn [version userID numGroups deviceGroups]; try assumption.
      rewrite length_app, length_cells. reflexivity.
    - unfold d1, Fw.setUserID. rewrite deviceID_setUserID. apply Hwf. }
  assert (HU : segment U)
    by (apply segment_substring; [exact Hex|unfold MAX_USER_ID_LEN; lia]).
  split; [exact Hstr|]. split.
  - intros Hlen. apply fw_broadcast; try assumption. symmetry. exact Hstr.
  - intros Hlong Hlen.
    rewrite (fw_first_token_differs N (extra ++ "/" ++ C) data d1);
      [apply (no_handler_received Fw.is_handler_record fw_parse_formats)| | |].
    + rewrite slash_append. apply segment_slash_nul_free; [exact He3|apply HC].
    + exact Hlen.
    + intros V rest Htok. rewrite slash_append in Htok.
      rewrite (strtok_segment_slash extra C He1 He2) in Htok.
      injection Htok as <- _. rewrite Hstr. intros Heq.
      apply (f_equal String.length) in Heq.
      pose proof (length_substring_le extra MAX_USER_ID_LEN) as Hle.
      unfold U in Heq. rewrite <- Heq in Hle. lia.
Qed.

Lemma fw_setUserID_then_event_witness :
  wf_device scenario_device
  /\ segment "abcdefghij" /\ segment "f1"
  /\ (String.length "abcdefgh/f1" < 64)%nat
  /\ (MAX_USER_ID_LEN < String.length "abcdefghij")%nat
  /\ (String.length "abcdefghij/f1" < 64)%nat
  /\ Fw.dispatches "f1" "on" (snd (Fw.setUserID "abcdefghij" scenario_device))
       (Fw.parseMessage 64 "abcdefgh/f1" "on"
          (snd (Fw.setUserID "abcdefghij" scenario_device)))
  /\ Fw.no_handler (snd (Fw.setUserID "abcdefghij" scenario_device))
       (Fw.parseMessage 64 "abcdefghij/f1" "on"
          (snd (Fw.setUserID "abcdefghij" scenario_device))).
Proof.
  assert (He : segment "abcdefghij")
    by (constructor; [discriminate|reflexivity|reflexivity]).
  assert (HC : segment "f1")
    by (constructor; [discriminate|reflexivity|reflexivity]).
  assert (H1 : (String.length "abcdefgh/f1" < 64)%nat) by (simpl; lia).
  assert (H2 : (MAX_USER_ID_LEN < String.length "abcdefghij")%nat)
    by (unfold MAX_USER_ID_LEN; simpl; lia).
  assert (H3 : (String.length "abcdefghij/f1" < 64)%nat) by (simpl; lia).
  destruct (fw_setUserID_then_event 64 scenario_device "abcdefghij" "f1" "on"
              wf_scenario_device He HC) as (_ & Hyes & Hno).
  split; [exact wf_scenario_device|]. split; [exact He|]. split; [exact HC|].
  split; [exact H1|]. split; [exact H2|]. split; [exact H3|].
  split; [exact (Hyes H1)|exact (Hno H2 H3)].
Defined.



(** X22.  Group calls take effect on the events that follow, in [Fw], on a
    device whose configuration satisfies its invariants ([numGroups <= 16],
    NUL-terminated user ID): after a successful [addToGroup] of the group [v], a topic [U/C/G] whose
    selector has the integer value [v] is dispatched (the selector need not
    be spelt like the argument: ["007"] addresses group 7); after
    [clearGroups], no topic with a selector other than the device ID runs a
    handler. *)
Theorem fw_group_calls_then_event (N : nat) (d : Device)
    (extra U C G data : string) :
  wf_device d -> config_inv (config d) ->
  segment U -> segment C -> segment G ->
  U = c_str (userID (config d)) ->
  G <> deviceID d ->
  (String.length (U ++ "/" ++ C ++ "/" ++ G) < N)%nat ->
  let topic := (U ++ "/" ++ C ++ "/" ++ G)%string in
  (1 <= decimal_value extra <= 255 -> numGroups (config d) < 16 ->
   decimal_value G = decimal_value extra ->
   Fw.dispatches C data (snd (Fw.addToGroup extra d))
     (Fw.parseMessage N topic data (snd (Fw.addToGroup extra d))))
  /\ (forall ignored,
        Fw.no_handler (snd (Fw.clearGroups ignored d))
          (Fw.parseMessage N topic data (snd (Fw.clearGroups ignored d)))).
Proof.
  intros Hwf _ HU HC HG HUeq Hid Hlen topic. subst topic. split.
  - intros Hv Hroom Hsame.
    set (d1 := snd (Fw.addToGroup extra d)).
    assert (Hc : config d1
                 = set_numGroups (to_uint8 (numGroups (config d) + 1))
                     (set_deviceGroups
                        (<[Z.to_nat (numGroups (config d))
                           := to_uint8 (decimal_value extra)]>
                           (deviceGroups (config d))) (config d))).
    { exact (proj1 (proj2 (addToGroup_added Fw.USER_ID_FORMAT extra d Hv Hroom))). }
    assert (Hwf1 : wf_device d1).
    { constructor.
      - rewrite Hc. apply wf_config_append. apply Hwf.
      - unfold d1, Fw.addToGroup. rewrite deviceID_addToGroup. apply Hwf. }
    assert (Hid1 : G <> deviceID d1)
      by (unfold d1, Fw.addToGroup; rewrite deviceID_addToGroup; exact Hid).
    assert (HU1 : U = c_str (userID (config d1))) by (rewrite Hc; exact HUeq).
    apply (fw_group_selector N d1 U C G data Hwf1 HU HC HG HU1 Hid1 Hlen).
    rewrite Hc, Hsame.
    rewrite membership_append
      by (try apply Hwf; try assumption; unfold is_uint8; lia).
    apply elem_of_app. right. constructor.
  - intros ignored.
    set (d2 := snd (Fw.clearGroups ignored d)).
    assert (Hc : config d2 = set_numGroups 0 (config d)) by reflexivity.
    assert (Hwf2 : wf_device d2).
    { constructor; [rewrite Hc; apply wf_config_cleared; apply Hwf|apply Hwf]. }
    assert (HU2 : U = c_str (userID (config d2))) by (rewrite Hc; exact HUeq).
    apply (fw_group_selector N d2 U C G data Hwf2 HU HC HG HU2 Hid Hlen).
    rewrite Hc. intros H. inversion H.
Qed.

Lemma fw_group_calls_then_event_witness :
  wf_device scenario_device
  /\ config_inv (config scenario_device)
  /\ segment "123ABC" /\ segment "f1" /\ segment "009"
  /\ "009"%string <> deviceID scenario_device
  /\ (String.length "123ABC/f1/009" < 64)%nat
  /\ 1 <= decimal_value "9" <= 255
  /\ numGroups (config scenario_device) < 16
  /\ decimal_value "009" = decimal_value "9"
  /\ Fw.dispatches "f1" "on" (snd (Fw.addToGroup "9" scenario_device))
       (Fw.parseMessage 64 "123ABC/f1/009" "on"
          (snd (Fw.addToGroup "9" scenario_device))).
Proof.
  assert (HU : segment "123ABC")
    by (constructor; [discriminate|reflexivity|reflexivity]).
  assert (HC : segment "f1")
    by (constructor; [discriminate|reflexivity|reflexivity]).
  assert (HG : segment "009")
    by (constructor; [discriminate|reflexivity|reflexivity]).
  assert (Hid : "009"%string <> deviceID scenario_device) by discriminate.
  assert (Hlen : (String.length "123ABC/f1/009" < 64)%nat) by (simpl; lia).
  assert (Hv : 1 <= decimal_value "9" <= 255)
    by (change (decimal_value "9") with 9; lia).
  assert (Hroom : numGroups (config scenario_device) < 16) by (simpl; lia).
  assert (Hsame : decimal_value "009" = decimal_value "9") by reflexivity.
  split; [exact wf_scenario_device|]. split; [exact inv_scenario_device|].
  split; [exact HU|]. split; [exact HC|].
  split; [exact HG|]. split; [exact Hid|]. split; [exact Hlen|].
  split; [exact Hv|]. split; [exact Hroom|]. split; [exact Hsame|].
  exact (proj1 (fw_group_calls_then_event 64 scenario_device "9" "123ABC" "f1"
                  "009" "on" wf_scenario_device inv_scenario_device
                  HU HC HG eq_refl Hid Hlen)
           Hv Hroom Hsame).
Defined.
